(** * Synthetic activity-timeline generator (sj-collector/test-data/generate_data.py)

    A shallow embedding of the generation module and the properties its
    specification states about it.

    Conventions of the embedding:
    - a naive [datetime] is the number of whole seconds since
      1970-01-01 00:00:00 (every datetime the generator builds has a zero
      microsecond part); a [timedelta] is a number of seconds;
    - the pseudo-random generator is a stream of raw draws; every call of
      the [random] module consumes one draw and maps it into the range the
      call asks for, so that each value of the range is produced by some
      stream;
    - Python exceptions are an explicit outcome of the computation;
    - Python floats are rationals ([Q]): the utilization ratio is computed
      as the doubles are, by [binary64] and [round4]; the switch
      probability and the weighted draws, of which no property below reads
      a value, are kept exact. *)

From Stdlib Require Import String Ascii ZArith QArith Qround Qabs Lqa List Bool Lia.
From Stdlib Require Import Permutation Sorted.
Import ListNotations.

Local Open Scope Z_scope.

(** ** The [random] module *)

Module Rand.

Inductive exn : Set := ValueError | IndexError.

(** [Timeout] is reserved for the fuel of [while] loops: the Python loop
    is still running when the fuel is spent. *)
Inductive outcome (A : Type) : Type :=
| Ret (a : A)
| Raise (e : exn)
| Timeout.
Arguments Ret {A} a.
Arguments Raise {A} e.
Arguments Timeout {A}.

(** The raw draws still to come. *)
Definition rng : Type := nat -> Z.

Definition rest (r : rng) : rng := fun n => r (S n).

Fixpoint skip (k : nat) (r : rng) : rng :=
  match k with
  | O => r
  | S k' => skip k' (rest r)
  end.

Definition M (A : Type) : Type := rng -> outcome (A * rng).

Definition ret {A} (a : A) : M A := fun r => Ret (a, r).

Definition raise {A} (e : exn) : M A := fun _ => Raise e.

Definition bind {A B} (m : M A) (f : A -> M B) : M B :=
  fun r =>
    match m r with
    | Ret (a, r') => f a r'
    | Raise e => Raise e
    | Timeout => Timeout
    end.

(** [random.randint(a, b)]: an integer of [a, b]; [ValueError] on an
    empty range. *)
Definition randint (lo hi : Z) : M Z :=
  fun r =>
    if hi <? lo then Raise ValueError
    else Ret (lo + r O mod (hi - lo + 1), rest r).

(** [random.random()]: a multiple of 2^-53 in [0, 1). *)
Definition random : M Q :=
  fun r => Ret (Qmake (r O mod 9007199254740992) 9007199254740992, rest r).

(** [random.choice(seq)]: [IndexError] on an empty sequence. *)
Definition choice {A} (seq : list A) : M A :=
  match seq with
  | [] => raise IndexError
  | x :: _ =>
      fun r => Ret (nth (Z.to_nat (r O mod Z.of_nat (length seq))) seq x,
                    rest r)
  end.

(** [itertools.accumulate] *)
Fixpoint accumulate_from (acc : Z) (ws : list Z) : list Z :=
  match ws with
  | [] => []
  | w :: ws' => (acc + w) :: accumulate_from (acc + w) ws'
  end.

Definition accumulate (ws : list Z) : list Z := accumulate_from 0 ws.

Definition Qltb (x y : Q) : bool := negb (Qle_bool y x).

(** [bisect.bisect_right(a, x, lo, hi)]; the interval halves at every
    step, so [length a] steps of fuel are never used up. *)
Fixpoint bisect (fuel : nat) (a : list Z) (x : Q) (lo hi : nat) : nat :=
  match fuel with
  | O => lo
  | S fuel' =>
      if (lo <? hi)%nat then
        let mid := ((lo + hi) / 2)%nat in
        if Qltb x (inject_Z (nth mid a 0)) then bisect fuel' a x lo mid
        else bisect fuel' a x (S mid) hi
      else lo
  end.

(** [random.choices(population, weights=weights)[0]] *)
Definition choices {A} (population : list A) (weights : list Z) : M A :=
  let cum_weights := accumulate weights in
  if negb (length cum_weights =? length population)%nat then raise ValueError
  else
    match population with
    | [] => raise IndexError
    | x :: _ =>
        let total := last cum_weights 0 in
        if total <=? 0 then raise ValueError
        else
          bind random (fun u =>
            let hi := (length population - 1)%nat in
            let i := bisect (length cum_weights) cum_weights
                       (u * inject_Z total)%Q O hi in
            ret (nth i population x))
    end.

End Rand.

Import Rand.

Notation "x <- c1 ;; c2" := (bind c1 (fun x => c2))
  (at level 100, c1 at next level, right associativity).

(** ** Time *)

Definition datetime := Z.
Definition timedelta := Z.

(** [timedelta.seconds]: the seconds field of the normalised
    (days, seconds) pair, always in [0, 86400). *)
Definition seconds (d : timedelta) : Z := d mod 86400.

(** [int(timedelta.total_seconds())] *)
Definition total_seconds (d : timedelta) : Z := d.

Definition minutes (m : Z) : timedelta := 60 * m.

(** A calendar date is its day number since 1970-01-01 (a Thursday);
    [weekday] is Monday = 0 ... Sunday = 6. *)
Definition date := Z.

Definition weekday (d : date) : Z := (d + 3) mod 7.

Definition is_weekend (d : date) : bool := 5 <=? weekday d.

(** A wall-clock time, the parsed form of an ["%H:%M"] string. *)
Record clock : Set := { hour : Z; minute : Z }.

(** [datetime.strptime(f"{date.date()} {hh:mm}", '%Y-%m-%d %H:%M')] *)
Definition at_clock (d : date) (c : clock) : datetime :=
  86400 * d + 3600 * hour c + 60 * minute c.

(** ** Profiles *)

Record work_hours_t : Set := {
  wh_start : clock;
  wh_end : clock;
  variance_minutes : Z
}.

Record day_schedule : Set := { ds_start : clock; ds_end : clock }.

(** [None] stands for a missing key as well as for an empty entry. *)
Record weekend_schedule_t : Set := {
  saturday : option day_schedule;
  sunday : option day_schedule
}.

Record afk_behavior_t : Set := {
  lunch_minutes : Z * Z;
  coffee_breaks : Z * Z;
  break_duration_minutes : Z * Z
}.

Record apps_t : Set := {
  productive : list string;
  neutral : list string;
  unproductive : list string
}.

Record user_profile : Set := {
  username : string;
  hostnames : list string;
  work_hours : work_hours_t;
  weekend_activity : bool;
  weekend_schedule : weekend_schedule_t;
  afk_behavior : afk_behavior_t;
  apps : apps_t;
  app_switches_per_day : list Z
}.

(** ** Sessions, breaks, events, presence segments *)

Record work_session : Set := {
  ws_start : datetime;
  ws_end : datetime;
  ws_is_weekend : bool
}.

Inductive segment_type : Set := work | lunch | coffee.

Record break_interval : Set := {
  brk_start : datetime;
  brk_end : datetime;
  brk_type : segment_type
}.

Record activity : Set := {
  act_app : string;
  act_title : string;
  act_duration : Z;
  act_timestamp : datetime
}.

Inductive presence : Set := active | idle | afk.

Record afk_status : Set := {
  st_status : presence;
  st_duration : Z;
  st_timestamp : datetime
}.

Record daily_metric : Set := {
  dm_date : date;
  active_seconds : Z;
  idle_seconds : Z;
  afk_seconds : Z;
  app_switches : Z;
  utilization_ratio : Q;
  dm_timestamp : datetime
}.

(** ** SessionPlanner *)

Definition generate_work_session (p : user_profile) (d : date)
  : M (option work_session) :=
  let is_weekend_day := is_weekend d in
  if is_weekend_day then
    if negb (weekend_activity p) then ret None
    else
      let weekend_sched :=
        if weekday d =? 5 then saturday (weekend_schedule p)
        else sunday (weekend_schedule p) in
      match weekend_sched with
      | None => ret None
      | Some sched =>
          ret (Some {| ws_start := at_clock d (ds_start sched);
                       ws_end := at_clock d (ds_end sched);
                       ws_is_weekend := is_weekend_day |})
      end
  else
    let wh := work_hours p in
    let variance := variance_minutes wh in
    start_variance <- randint (- variance) variance ;;
    end_variance <- randint (- variance) variance ;;
    ret (Some {| ws_start := at_clock d (wh_start wh) + minutes start_variance;
                 ws_end := at_clock d (wh_end wh) + minutes end_variance;
                 ws_is_weekend := is_weekend_day |}).

(** ** BreakScheduler *)

(** The test of the inner [for existing_break in breaks] loop. *)
Definition overlaps_existing (break_start : datetime) (duration : timedelta)
    (existing_break : break_interval) : bool :=
  (break_start <? brk_end existing_break)
  && (break_start + duration >? brk_start existing_break).

(** The [while attempts < 10] loop, on the number of attempts left. *)
Fixpoint place_coffee (attempts_left : nat) (ws : work_session)
    (work_duration break_duration : Z) (breaks : list break_interval)
  : M (list break_interval) :=
  match attempts_left with
  | O => ret breaks
  | S n =>
      break_offset <- randint 0 (work_duration - break_duration * 60) ;;
      let break_start := ws_start ws + break_offset in
      if existsb (overlaps_existing break_start (minutes break_duration)) breaks
      then place_coffee n ws work_duration break_duration breaks
      else ret (breaks ++ [{| brk_start := break_start;
                              brk_end := break_start + minutes break_duration;
                              brk_type := coffee |}])
  end.

(** The body of [for _ in range(num_breaks)]. *)
Definition coffee_break (ws : work_session) (work_duration : Z)
    (range : Z * Z) (breaks : list break_interval) : M (list break_interval) :=
  break_duration <- randint (fst range) (snd range) ;;
  place_coffee 10 ws work_duration break_duration breaks.

Fixpoint coffee_loop (num_breaks : nat) (ws : work_session) (work_duration : Z)
    (range : Z * Z) (breaks : list break_interval) : M (list break_interval) :=
  match num_breaks with
  | O => ret breaks
  | S n =>
      breaks' <- coffee_break ws work_duration range breaks ;;
      coffee_loop n ws work_duration range breaks'
  end.

(** [breaks.sort(key=lambda x: x['start'])]: the stable sort by start. *)
Fixpoint insert_break (b : break_interval) (l : list break_interval)
  : list break_interval :=
  match l with
  | [] => [b]
  | x :: l' =>
      if brk_start b <=? brk_start x then b :: x :: l'
      else x :: insert_break b l'
  end.

Fixpoint sort_breaks (l : list break_interval) : list break_interval :=
  match l with
  | [] => []
  | b :: l' => insert_break b (sort_breaks l')
  end.

(** [(end - start).seconds] of a session. *)
Definition work_duration_of (ws : work_session) : Z :=
  seconds (ws_end ws - ws_start ws).

(** [int(work_duration * 0.3)] and [int(work_duration * 0.5)]: on
    [0, 86400) the float products truncate to these quotients. *)
Definition lunch_offset_lo (work_duration : Z) : Z := 3 * work_duration / 10.
Definition lunch_offset_hi (work_duration : Z) : Z := work_duration / 2.

Definition lunch_break (p : user_profile) (ws : work_session)
  : M (list break_interval) :=
  let work_duration := work_duration_of ws in
  if work_duration >? 4 * 3600 then
    lunch_duration <- randint (fst (lunch_minutes (afk_behavior p)))
                              (snd (lunch_minutes (afk_behavior p))) ;;
    lunch_start_offset <- randint (lunch_offset_lo work_duration)
                                  (lunch_offset_hi work_duration) ;;
    let lunch_start := ws_start ws + lunch_start_offset in
    ret [{| brk_start := lunch_start;
            brk_end := lunch_start + minutes lunch_duration;
            brk_type := lunch |}]
  else ret [].

Definition generate_breaks (p : user_profile) (ws : work_session)
  : M (list break_interval) :=
  let work_duration := work_duration_of ws in
  breaks <- lunch_break p ws ;;
  num_breaks <- randint (fst (coffee_breaks (afk_behavior p)))
                        (snd (coffee_breaks (afk_behavior p))) ;;
  breaks <- coffee_loop (Z.to_nat num_breaks) ws work_duration
              (break_duration_minutes (afk_behavior p)) breaks ;;
  ret (sort_breaks breaks).

(** ** ActivityTimelineGenerator *)

Definition WINDOW_TITLES : list (string * list string) :=
  [ ("VSCode",
     ["main.go - VSCode"; "api.py - VSCode"; "README.md - VSCode";
      "config.json - VSCode"; "test_utils.py - VSCode"; "server.js - VSCode"]);
    ("Terminal", ["Terminal"; "bash"; "npm run dev"; "git status"; "docker ps"]);
    ("Chrome",
     ["Gmail - Chrome"; "Google Search - Chrome"; "Stack Overflow - Chrome";
      "GitHub - Chrome"; "Documentation - Chrome"; "AWS Console - Chrome"]);
    ("Slack",
     ["#general - Slack"; "#engineering - Slack"; "#random - Slack";
      "Direct Messages - Slack"]);
    ("Outlook",
     ["Inbox - Outlook"; "Calendar - Outlook"; "Meeting Request - Outlook"]);
    ("Excel",
     ["Budget 2025.xlsx - Excel"; "Report.xlsx - Excel"; "Data.xlsx - Excel"]);
    ("Xero", ["Dashboard - Xero"; "Invoices - Xero"; "Reports - Xero"]);
    ("Teams", ["Team Chat - Teams"; "Meeting - Teams"; "Files - Teams"]);
    ("DocuSign", ["Documents - DocuSign"; "Sign Document - DocuSign"]);
    ("Salesforce",
     ["Leads - Salesforce"; "Opportunities - Salesforce";
      "Dashboard - Salesforce"]);
    ("Zoom", ["Meeting - Zoom"; "Zoom Call"]);
    ("Calendar", ["Calendar"; "Week View - Calendar"]);
    ("Zendesk", ["Tickets - Zendesk"; "Customer Support - Zendesk"]);
    ("Figma",
     ["Design Project - Figma"; "Wireframes - Figma"; "Prototype - Figma"]);
    ("Photoshop", ["Banner Design - Photoshop"; "Logo - Photoshop"]);
    ("Reddit", ["Reddit - Front Page"; "r/programming - Reddit"]);
    ("YouTube", ["YouTube"; "Watch - YouTube"]);
    ("Twitter", ["Twitter"; "Home - Twitter"]);
    ("Spotify", ["Spotify - Now Playing"; "Playlists - Spotify"]);
    ("Instagram", ["Instagram"; "Feed - Instagram"]) ]%string.

Fixpoint lookup_titles (app : string) (table : list (string * list string))
  : option (list string) :=
  match table with
  | [] => None
  | (name, titles) :: table' =>
      if String.eqb app name then Some titles else lookup_titles app table'
  end.

Definition get_window_title (app : string) : M string :=
  match lookup_titles app WINDOW_TITLES with
  | Some titles => choice titles
  | None => ret app
  end.

Definition sum_Z (l : list Z) : Z := fold_right Z.add 0 l.

(** [sum(app_switches_range) / 2] *)
Definition avg_switches_of (p : user_profile) : Q :=
  (inject_Z (sum_Z (app_switches_per_day p)) / 2)%Q.

(** [min(0.7, avg_switches / 100)] *)
Definition switch_probability_of (avg_switches : Q) : Q :=
  let x := (avg_switches / 100)%Q in
  if Qle_bool (7 # 10) x then (7 # 10)%Q else x.

Definition draw_duration (avg_switches : Q) : M Z :=
  if Qltb 80 avg_switches then randint 30 180
  else if Qltb 50 avg_switches then randint 60 300
  else randint 180 900.

(** The tests of the two scans of the break list. *)
Definition in_break (current_time : datetime) (brk : break_interval) : bool :=
  (current_time >=? brk_start brk) && (current_time <? brk_end brk).

Definition starts_after (current_time : datetime) (brk : break_interval)
  : bool := brk_start brk >? current_time.

(** [all_apps] with its ['Chrome'] fallback, and [app_weights]. *)
Definition all_apps_of (p : user_profile) : list string :=
  let all_apps :=
    (productive (apps p) ++ neutral (apps p) ++ unproductive (apps p))%list in
  match all_apps with
  | [] => ["Chrome"%string]
  | _ => all_apps
  end.

Definition app_weights_of (p : user_profile) : list Z :=
  (repeat 3 (length (productive (apps p)))
   ++ repeat 2 (length (neutral (apps p)))
   ++ repeat 1 (length (unproductive (apps p))))%list.

(** The clipped duration of the event that starts at [current_time]. *)
Definition clip_duration (duration : Z) (end_time current_time : datetime)
    (breaks : list break_interval) : Z :=
  let remaining_time := seconds (end_time - current_time) in
  let remaining_time :=
    match find (starts_after current_time) breaks with
    | Some brk =>
        Z.min remaining_time (seconds (brk_start brk - current_time))
    | None => remaining_time
    end in
  Z.min duration remaining_time.

(** The [while current_time < end_time] loop; one unit of fuel per
    iteration. *)
Fixpoint window_loop (fuel : nat) (p : user_profile) (end_time : datetime)
    (breaks : list break_interval) (current_time : datetime)
    (current_app : string) (activities : list activity) : M (list activity) :=
  if current_time <? end_time then
    match fuel with
    | O => fun _ => Timeout
    | S fuel' =>
        match find (in_break current_time) breaks with
        | Some brk =>
            window_loop fuel' p end_time breaks (brk_end brk) current_app
              activities
        | None =>
            let avg_switches := avg_switches_of p in
            duration <- draw_duration avg_switches ;;
            let duration := clip_duration duration end_time current_time breaks in
            if duration >? 0 then
              title <- get_window_title current_app ;;
              let activities' :=
                (activities ++ [{| act_app := current_app;
                                   act_title := title;
                                   act_duration := duration;
                                   act_timestamp := current_time |}])%list in
              let current_time' := current_time + duration in
              u <- random ;;
              if Qltb u (switch_probability_of avg_switches) then
                current_app' <- choices (all_apps_of p) (app_weights_of p) ;;
                window_loop fuel' p end_time breaks current_time' current_app'
                  activities'
              else
                window_loop fuel' p end_time breaks current_time' current_app
                  activities'
            else
              window_loop fuel' p end_time breaks current_time current_app
                activities
        end
    end
  else ret activities.

Definition generate_window_activities (fuel : nat) (p : user_profile)
    (ws : work_session) (breaks : list break_interval) : M (list activity) :=
  current_app <- choices (all_apps_of p) (app_weights_of p) ;;
  window_loop fuel p (ws_end ws) breaks (ws_start ws) current_app [].

(** ** PresenceDeriver *)

Record segment : Set := {
  seg_start : datetime;
  seg_end : datetime;
  seg_type : segment_type
}.

(** The [for brk in breaks] loop that fills [work_segments], followed by
    the closing work segment. *)
Fixpoint work_segments_from (last_end end_time : datetime)
    (breaks : list break_interval) : list segment :=
  match breaks with
  | [] =>
      if last_end <? end_time
      then [{| seg_start := last_end; seg_end := end_time; seg_type := work |}]
      else []
  | brk :: breaks' =>
      ((if brk_start brk >? last_end
        then [{| seg_start := last_end; seg_end := brk_start brk;
                 seg_type := work |}]
        else [])
       ++ {| seg_start := brk_start brk; seg_end := brk_end brk;
             seg_type := brk_type brk |}
       :: work_segments_from (brk_end brk) end_time breaks')%list
  end.

(** The body of [for segment in work_segments]: the statuses one segment
    appends. *)
Definition segment_statuses (sg : segment) : list afk_status :=
  let duration := total_seconds (seg_end sg - seg_start sg) in
  match seg_type sg with
  | work =>
      if duration >? 0
      then [{| st_status := active; st_duration := duration;
               st_timestamp := seg_start sg |}]
      else []
  | lunch =>
      [{| st_status := afk; st_duration := duration;
          st_timestamp := seg_start sg |}]
  | coffee =>
      if duration <? 600
      then [{| st_status := idle; st_duration := duration;
               st_timestamp := seg_start sg |}]
      else [{| st_status := afk; st_duration := duration;
               st_timestamp := seg_start sg |}]
  end.

Definition generate_afk_statuses (ws : work_session)
    (breaks : list break_interval) : list afk_status :=
  flat_map segment_statuses
    (work_segments_from (ws_start ws) (ws_end ws) breaks).

(** ** Aggregator: the daily metric

    The hourly app-usage buckets of [aggregate_app_usage] follow further
    down. *)

Definition presence_eqb (a b : presence) : bool :=
  match a, b with
  | active, active | idle, idle | afk, afk => true
  | _, _ => false
  end.

(** [sum(s['duration'] for s in afk_statuses if s['status'] == status)] *)
Definition status_seconds (status : presence) (afk_statuses : list afk_status)
  : Z :=
  sum_Z (map st_duration
           (filter (fun s => presence_eqb (st_status s) status) afk_statuses)).

(** To the nearest integer, ties to even. *)
Definition round_half_even (x : Q) : Z :=
  let f := Qfloor x in
  let twice := (2 * (x - inject_Z f))%Q in
  if Qltb twice 1 then f
  else if Qltb 1 twice then f + 1
  else if Z.even f then f else f + 1.

(** 2^e for an exponent of either sign. *)
Definition pow2 (e : Z) : Q :=
  if 0 <=? e then inject_Z (2 ^ e) else Qmake 1 (Z.to_pos (2 ^ (- e))).

(** The exponent of the last bit of the 53-bit significand of a positive
    [x]: floor(log2 x) - 52, and -1074 throughout the subnormal range. *)
Definition ulp_exponent (x : Q) : Z :=
  let l := Z.log2 (Qnum x) - Z.log2 (Z.pos (Qden x)) in
  let fl := if Qle_bool (pow2 l) x then l else l - 1 in
  Z.max (fl - 52) (-1074).

Definition binary64_pos (x : Q) : Q :=
  let e := ulp_exponent x in
  (inject_Z (round_half_even (x * pow2 (- e))) * pow2 e)%Q.

(** The double nearest to [x], ties to the even significand: the value of
    the float division [a / t] of two integers whose exact quotient is [x].
    Quotients of 2^1024 and more, on which Python raises [OverflowError],
    are not told apart. *)
Definition binary64 (x : Q) : Q :=
  if Qltb 0 x then binary64_pos x
  else if Qltb x 0 then (- binary64_pos (- x))%Q
  else 0%Q.

(** [round(a / t, 4)] for the exact quotient [x] of [a] by [t]: the division
    yields the double nearest to [x], and [round] takes the exact value of
    that double to the nearest multiple of 10^-4, ties to even.  The result
    is written as that multiple, the decimal which the double returned by
    [round] is nearest to and prints as. *)
Definition round4 (x : Q) : Q :=
  Qmake (round_half_even (binary64 x * 10000)%Q) 10000.

(** The app-switch scan; [last_app] is falsy when [None] or empty. *)
Fixpoint count_switches (last_app : option string) (activities : list activity)
  : Z :=
  match activities with
  | [] => 0
  | a :: activities' =>
      (match last_app with
       | Some l =>
           if negb (String.eqb l "") && negb (String.eqb l (act_app a))
           then 1 else 0
       | None => 0
       end)
      + count_switches (Some (act_app a)) activities'
  end.

Definition calculate_daily_metrics (d : date) (afk_statuses : list afk_status)
    (activities : list activity) : daily_metric :=
  let active_seconds := status_seconds active afk_statuses in
  let idle_seconds := status_seconds idle afk_statuses in
  let afk_seconds := status_seconds afk afk_statuses in
  let total_seconds := active_seconds + idle_seconds + afk_seconds in
  let utilization_ratio :=
    if total_seconds >? 0
    then (inject_Z active_seconds / inject_Z total_seconds)%Q
    else 0%Q in
  {| dm_date := d;
     active_seconds := active_seconds;
     idle_seconds := idle_seconds;
     afk_seconds := afk_seconds;
     app_switches := count_switches None activities;
     utilization_ratio := round4 utilization_ratio;
     dm_timestamp := 86400 * d + 86399 |}.

(** ** One (user, date) pair: the body of the inner loop of
    [generate_all_data] *)

Record day_data : Set := {
  dd_hostname : string;
  dd_session : work_session;
  dd_breaks : list break_interval;
  dd_activities : list activity;
  dd_statuses : list afk_status;
  dd_metric : daily_metric
}.

Definition generate_user_day (fuel : nat) (p : user_profile) (d : date)
  : M (option day_data) :=
  hostname <- choice (hostnames p) ;;
  work_session <- generate_work_session p d ;;
  match work_session with
  | None => ret None
  | Some ws =>
      breaks <- generate_breaks p ws ;;
      activities <- generate_window_activities fuel p ws breaks ;;
      let statuses := generate_afk_statuses ws breaks in
      let daily_metric := calculate_daily_metrics d statuses activities in
      ret (Some {| dd_hostname := hostname;
                   dd_session := ws;
                   dd_breaks := breaks;
                   dd_activities := activities;
                   dd_statuses := statuses;
                   dd_metric := daily_metric |})
  end.

(** ** RecordEncoder: escaping *)

(** [s.replace(c, new)] for a one-character pattern. *)
Fixpoint replace_char (c : ascii) (new : string) (s : string) : string :=
  match s with
  | EmptyString => EmptyString
  | String a s' =>
      if Ascii.eqb a c then (new ++ replace_char c new s')%string
      else String a (replace_char c new s')
  end.

Definition backslash : ascii := "\"%char.
Definition dquote : ascii := Ascii.ascii_of_nat 34.
Definition comma : ascii := ","%char.
Definition equals : ascii := "="%char.
Definition space : ascii := " "%char.

Definition escaped (c : ascii) : string := String backslash (String c EmptyString).

Definition escape_lp_string (s : string) : string :=
  String dquote
    (replace_char dquote (escaped dquote)
       (replace_char backslash (escaped backslash) s)
     ++ String dquote EmptyString)%string.

Definition escape_lp_tag (s : string) : string :=
  replace_char space (escaped space)
    (replace_char equals (escaped equals)
       (replace_char comma (escaped comma) s)).

Definition tag_special (c : ascii) : bool :=
  Ascii.eqb c comma || Ascii.eqb c equals || Ascii.eqb c space.

Definition string_special (c : ascii) : bool :=
  Ascii.eqb c backslash || Ascii.eqb c dquote.



Definition option_cons (a : ascii) (r : option (string * string))
  : option (string * string) :=
  match r with
  | Some (v, tail) => Some (String a v, tail)
  | None => None
  end.

(** Modelled from the spec: the reader of a quoted string field, absent
    from the repository like [parse_lp_tag].  After the opening quote a
    backslash followed by a backslash or a double quote stands for that
    character, the first other double quote closes the field, and every
    other character stands for itself. *)
Fixpoint parse_lp_string_body (s : string) : option (string * string) :=
  match s with
  | EmptyString => None
  | String a s' =>
      if Ascii.eqb a dquote then Some (EmptyString, s')
      else
        match s' with
        | String b s'' =>
            if Ascii.eqb a backslash && string_special b
            then option_cons b (parse_lp_string_body s'')
            else option_cons a (parse_lp_string_body s')
        | EmptyString => None
        end
  end.


(** ** The date range

    Calendar dates are day numbers, the parsed form of the ['%Y-%m-%d']
    strings of the profile document. *)

(** The [while current <= end] loop of [get_date_range]; [None] when the
    fuel is spent before the loop ends. *)
Fixpoint date_range_loop (fuel : nat) (current end_date : date)
    (dates : list date) : option (list date) :=
  if current <=? end_date then
    match fuel with
    | O => None
    | S fuel' =>
        date_range_loop fuel' (current + 1) end_date (dates ++ [current])
    end
  else Some dates.

Definition get_date_range (fuel : nat) (start_date end_date : date)
  : option (list date) :=
  date_range_loop fuel start_date end_date [].

(** ** Aggregator: the hourly app usage *)

(** The value of a bucket of [usage_by_hour_app]. *)
Record usage : Set := {
  us_duration : Z;
  us_event_count : Z;
  us_timestamp : datetime
}.

(** [strptime(timestamp.strftime('%Y-%m-%d %H:00:00'))]: the start of the
    hour; the [hour_key] string is its rendering, and stands for it in the
    key of a bucket. *)
Definition hour_floor (t : datetime) : datetime := t - t mod 3600.

Definition usage_key : Set := (datetime * string)%type.

Definition usage_key_eqb (k1 k2 : usage_key) : bool :=
  (fst k1 =? fst k2) && String.eqb (snd k1) (snd k2).

Definition key_of (a : activity) : usage_key :=
  (hour_floor (act_timestamp a), act_app a).

(** One iteration of the loop on a [dict], which keeps its keys in order of
    insertion: a new key is appended with zero totals, then the bucket of
    the key is increased. *)
Fixpoint add_usage (key : usage_key) (duration : Z)
    (usage_by_hour_app : list (usage_key * usage))
  : list (usage_key * usage) :=
  match usage_by_hour_app with
  | [] =>
      [(key, {| us_duration := 0 + duration;
                us_event_count := 0 + 1;
                us_timestamp := fst key |})]
  | (k, u) :: rest_of_map =>
      if usage_key_eqb key k
      then (k, {| us_duration := us_duration u + duration;
                  us_event_count := us_event_count u + 1;
                  us_timestamp := us_timestamp u |}) :: rest_of_map
      else (k, u) :: add_usage key duration rest_of_map
  end.

Definition aggregate_app_usage (activities : list activity)
  : list (usage_key * usage) :=
  fold_left (fun m a => add_usage (key_of a) (act_duration a) m)
    activities [].

(** ** The whole run *)

Record WindowActivity : Set := {
  wa_user : string;
  wa_hostname : string;
  wa_app : string;
  wa_title : string;
  wa_duration : Z;
  wa_timestamp : datetime
}.

Record AfkStatus : Set := {
  as_user : string;
  as_hostname : string;
  as_status : presence;
  as_duration : Z;
  as_timestamp : datetime
}.

Record AppUsage : Set := {
  au_user : string;
  au_hostname : string;
  au_app_name : string;
  au_duration_seconds : Z;
  au_event_count : Z;
  au_timestamp : datetime
}.

Record DailyMetric : Set := {
  DM_user : string;
  DM_hostname : string;
  DM_metric : daily_metric
}.

Record all_data : Set := {
  window_activities : list WindowActivity;
  afk_statuses : list AfkStatus;
  app_usage : list AppUsage;
  daily_metrics : list DailyMetric
}.

Definition no_data : all_data :=
  {| window_activities := []; afk_statuses := []; app_usage := [];
     daily_metrics := [] |}.

(** "Convert to data objects": the records of one day appended to the four
    lists. *)
Definition add_day (p : user_profile) (dd : day_data) (data : all_data)
  : all_data :=
  let user := username p in
  let hostname := dd_hostname dd in
  {| window_activities :=
       window_activities data
       ++ map (fun act => {| wa_user := user; wa_hostname := hostname;
                             wa_app := act_app act;
                             wa_title := act_title act;
                             wa_duration := act_duration act;
                             wa_timestamp := act_timestamp act |})
            (dd_activities dd);
     afk_statuses :=
       afk_statuses data
       ++ map (fun stat => {| as_user := user; as_hostname := hostname;
                              as_status := st_status stat;
                              as_duration := st_duration stat;
                              as_timestamp := st_timestamp stat |})
            (dd_statuses dd);
     app_usage :=
       app_usage data
       ++ map (fun entry => {| au_user := user; au_hostname := hostname;
                               au_app_name := snd (fst entry);
                               au_duration_seconds := us_duration (snd entry);
                               au_event_count := us_event_count (snd entry);
                               au_timestamp := us_timestamp (snd entry) |})
            (aggregate_app_usage (dd_activities dd));
     daily_metrics :=
       daily_metrics data
       ++ [{| DM_user := user; DM_hostname := hostname;
              DM_metric := dd_metric dd |}] |}.

(** [for date in date_range] for one user, then [for user_profile in
    users]; [generate_user_day] is the body up to the daily metric. *)
Fixpoint dates_loop (fuel : nat) (p : user_profile) (date_range : list date)
    (data : all_data) : M all_data :=
  match date_range with
  | [] => ret data
  | d :: date_range' =>
      day <- generate_user_day fuel p d ;;
      match day with
      | None => dates_loop fuel p date_range' data
      | Some dd => dates_loop fuel p date_range' (add_day p dd data)
      end
  end.

Fixpoint users_loop (fuel : nat) (users : list user_profile)
    (date_range : list date) (data : all_data) : M all_data :=
  match users with
  | [] => ret data
  | p :: users' =>
      data' <- dates_loop fuel p date_range data ;;
      users_loop fuel users' date_range data'
  end.

(** The loaded profile document. *)
Record profiles_data : Set := {
  users : list user_profile;
  range_start : date;
  range_end : date
}.

Definition generate_all_data (fuel : nat) (profiles : profiles_data)
  : M all_data :=
  match get_date_range fuel (range_start profiles) (range_end profiles) with
  | None => fun _ => Timeout
  | Some date_range => users_loop fuel (users profiles) date_range no_data
  end.

(** ** Vocabulary of the properties *)

(** [unescape_tag] undoes [escape_lp_tag] on a whole escaped value, with
    nothing after it: a backslash followed by a comma, an equals sign or a
    space is that character, every other character is itself. *)
Fixpoint unescape_tag (s : string) : string :=
  match s with
  | EmptyString => EmptyString
  | String a s' =>
      match s' with
      | String b s'' =>
          if Ascii.eqb a backslash && tag_special b
          then String b (unescape_tag s'')
          else String a (unescape_tag s')
      | EmptyString => String a EmptyString
      end
  end.



(** The escaped body of a string field, between its two quotes. *)
Definition escape_body (s : string) : string :=
  replace_char dquote (escaped dquote)
    (replace_char backslash (escaped backslash) s).

(** The schedule a date falls under, if any. *)
Definition applicable_schedule (p : user_profile) (d : date)
  : option (clock * clock) :=
  if is_weekend d then
    if weekend_activity p then
      match (if weekday d =? 5 then saturday (weekend_schedule p)
             else sunday (weekend_schedule p)) with
      | Some sched => Some (ds_start sched, ds_end sched)
      | None => None
      end
    else None
  else Some (wh_start (work_hours p), wh_end (work_hours p)).

(** The session of a schedule with the two minute offsets applied. *)
Definition session_with_offsets (d : date) (sched : clock * clock)
    (start_variance end_variance : Z) : work_session :=
  {| ws_start := at_clock d (fst sched) + minutes start_variance;
     ws_end := at_clock d (snd sched) + minutes end_variance;
     ws_is_weekend := is_weekend d |}.

(** Both offsets range over [-variance, variance], each pair of them being
    drawn from some stream. *)
Definition offsets_drawn (p : user_profile) (d : date) (sched : clock * clock)
  : Prop :=
  let variance := variance_minutes (work_hours p) in
  forall start_variance end_variance,
    - variance <= start_variance <= variance ->
    - variance <= end_variance <= variance ->
    exists r r',
      generate_work_session p d r
      = Ret (Some (session_with_offsets d sched start_variance end_variance), r').

(** Two intervals share an instant. *)
(** The offsets are uniform and independent.  Of the 2 * variance + 1
    offsets of the range, the start takes the one picked by the residue of
    the first raw draw and the end the one picked by the residue of the
    second: a pair of offsets is the outcome on exactly the streams whose
    first two raw draws lie each in one residue class, so that every pair
    has the same share of the streams. *)
Definition offsets_uniform (p : user_profile) (d : date)
    (sched : clock * clock) : Prop :=
  let variance := variance_minutes (work_hours p) in
  let n := 2 * variance + 1 in
  forall r start_variance end_variance,
    - variance <= start_variance <= variance ->
    - variance <= end_variance <= variance ->
    generate_work_session p d r
    = Ret (Some (session_with_offsets d sched start_variance end_variance),
           rest (rest r))
    <-> r 0%nat mod n = start_variance + variance
        /\ r 1%nat mod n = end_variance + variance.

Definition overlap (a b : break_interval) : Prop :=
  brk_start a < brk_end b /\ brk_start b < brk_end a.

(** A break lies within a session. *)
Definition within (ws : work_session) (b : break_interval) : Prop :=
  ws_start ws <= brk_start b /\ brk_start b <= brk_end b
  /\ brk_end b <= ws_end ws.

Definition by_start (a b : break_interval) : Prop :=
  brk_start a <= brk_start b.

(** The invariant of the break list of a session: sorted by start,
    pairwise non-overlapping, every break within the session. *)
Definition breaks_wf (ws : work_session) (l : list break_interval) : Prop :=
  Sorted by_start l
  /\ ForallOrdPairs (fun a b => ~ overlap a b) l
  /\ Forall (within ws) l.

(** What the scheduler maintains before it sorts. *)
Definition placed (ws : work_session) (l : list break_interval) : Prop :=
  ForallOrdPairs (fun a b => ~ overlap a b) l /\ Forall (within ws) l.

(** The session has a length of [0, 1 day) and the breaks of the profile
    fit into it: the ranges are not empty, the durations are not negative,
    the longest lunch ends by the session end even when it starts at the
    latest offset, and the longest coffee break is no longer than the
    session. *)
Definition breaks_fit (p : user_profile) (ws : work_session) : Prop :=
  let afk := afk_behavior p in
  let work_duration := work_duration_of ws in
  0 <= ws_end ws - ws_start ws < 86400
  /\ (4 * 3600 < work_duration ->
      0 <= fst (lunch_minutes afk) <= snd (lunch_minutes afk)
      /\ lunch_offset_hi work_duration + 60 * snd (lunch_minutes afk)
         <= work_duration)
  /\ fst (coffee_breaks afk) <= snd (coffee_breaks afk)
  /\ (0 < snd (coffee_breaks afk) ->
      0 <= fst (break_duration_minutes afk) <= snd (break_duration_minutes afk)
      /\ 60 * snd (break_duration_minutes afk) <= work_duration).

(** The start of the placement that the next draw of [r] proposes for a
    coffee break, and whether it overlaps a break already accepted. *)
(** What keeps the breaks within the session: the session does not run
    backwards or over a day, so that its measured duration is its length;
    a lunch lasts no negative time and, placed at half of the session at
    the latest, ends within it; a coffee break lasts no negative time. *)
Definition breaks_contained (p : user_profile) (ws : work_session) : Prop :=
  let afk := afk_behavior p in
  let work_duration := work_duration_of ws in
  0 <= ws_end ws - ws_start ws < 86400
  /\ (4 * 3600 < work_duration ->
      0 <= fst (lunch_minutes afk)
      /\ lunch_offset_hi work_duration + 60 * snd (lunch_minutes afk)
         <= work_duration)
  /\ (0 < snd (coffee_breaks afk) ->
      0 <= fst (break_duration_minutes afk)).

Definition candidate_start (ws : work_session)
    (work_duration break_duration : Z) (r : rng) : datetime :=
  ws_start ws + (0 + r O mod (work_duration - break_duration * 60 - 0 + 1)).

Definition candidate_overlaps (ws : work_session)
    (work_duration break_duration : Z) (breaks : list break_interval)
    (r : rng) : bool :=
  existsb (overlaps_existing (candidate_start ws work_duration break_duration r)
             (minutes break_duration)) breaks.

(** The coffee-break durations the loop draws, in order, up to and
    including the one at which it raises, if it does. *)
Fixpoint coffee_durations (num_breaks : nat) (ws : work_session)
    (work_duration : Z) (range : Z * Z) (breaks : list break_interval)
    (r : rng) : list Z :=
  match num_breaks with
  | O => []
  | S n =>
      match randint (fst range) (snd range) r with
      | Ret (break_duration, r1) =>
          break_duration
          :: match place_coffee 10 ws work_duration break_duration breaks r1
             with
             | Ret (breaks', r2) =>
                 coffee_durations n ws work_duration range breaks' r2
             | _ => []
             end
      | _ => []
      end
  end.

(** The same for a whole run of [generate_breaks]. *)
Definition drawn_coffee_durations (p : user_profile) (ws : work_session)
    (r : rng) : list Z :=
  match lunch_break p ws r with
  | Ret (breaks, r1) =>
      match randint (fst (coffee_breaks (afk_behavior p)))
                    (snd (coffee_breaks (afk_behavior p))) r1 with
      | Ret (num_breaks, r2) =>
          coffee_durations (Z.to_nat num_breaks) ws (work_duration_of ws)
            (break_duration_minutes (afk_behavior p)) breaks r2
      | _ => []
      end
  | _ => []
  end.

(** Each break of the list starts no earlier than the previous one ends,
    the first no earlier than [lo], none runs backwards, and the last ends
    by [hi]. *)
Fixpoint chained (lo : datetime) (breaks : list break_interval)
    (hi : datetime) : Prop :=
  match breaks with
  | [] => lo <= hi
  | b :: breaks' =>
      lo <= brk_start b /\ brk_start b <= brk_end b
      /\ chained (brk_end b) breaks' hi
  end.

Definition total_duration (statuses : list afk_status) : Z :=
  sum_Z (map st_duration statuses).

(** The instant [t] lies in the interval of an event, its start timestamp
    expanded by its duration; [in_break] is the same test for a break. *)
Definition in_event (t : datetime) (a : activity) : bool :=
  (act_timestamp a <=? t) && (t <? act_timestamp a + act_duration a).

Definition in_session (t : datetime) (ws : work_session) : bool :=
  (ws_start ws <=? t) && (t <? ws_end ws).

Definition count {A} (f : A -> bool) (l : list A) : nat :=
  length (filter f l).

(** The number of event intervals and break intervals an instant lies in. *)
Definition cover_count (t : datetime) (activities : list activity)
    (breaks : list break_interval) : nat :=
  (count (in_event t) activities + count (in_break t) breaks)%nat.

(** The event and break intervals partition the session: every instant of
    the session lies in exactly one of them (no gap, no overlap) and every
    other instant in none. *)
Definition exact_cover (ws : work_session) (activities : list activity)
    (breaks : list break_interval) : Prop :=
  forall t,
    cover_count t activities breaks
    = if in_session t ws then 1%nat else 0%nat.

(** A boundary of the break lies strictly inside the event. *)
Definition spans_boundary (a : activity) (b : break_interval) : Prop :=
  act_timestamp a < brk_start b < act_timestamp a + act_duration a
  \/ act_timestamp a < brk_end b < act_timestamp a + act_duration a.

Definition event_seconds (activities : list activity) : Z :=
  sum_Z (map act_duration activities).

Definition break_seconds (breaks : list break_interval) : Z :=
  sum_Z (map (fun b => brk_end b - brk_start b) breaks).

(** The break time that lies before the instant [c]. *)
Definition passed (breaks : list break_interval) (c : datetime) : Z :=
  sum_Z (map (fun b => Z.min (brk_end b) c - Z.min (brk_start b) c) breaks).

(** The trace of the cursor of the activity loop from [cur] to [c]: it
    jumps to the end of a break it stands in, or an event of positive
    duration starts at it and ends before any break is met. *)
Inductive tiles (breaks : list break_interval)
  : datetime -> list activity -> datetime -> Prop :=
| tiles_end (c : datetime) : tiles breaks c [] c
| tiles_jump (cur c : datetime) (b : break_interval)
    (activities : list activity) :
    In b breaks ->
    brk_start b <= cur < brk_end b ->
    tiles breaks (brk_end b) activities c ->
    tiles breaks cur activities c
| tiles_event (cur c : datetime) (a : activity) (activities : list activity) :
    act_timestamp a = cur ->
    0 < act_duration a ->
    Forall (fun b => brk_end b <= cur \/ cur + act_duration a <= brk_start b)
      breaks ->
    tiles breaks (cur + act_duration a) activities c ->
    tiles breaks cur (a :: activities) c.

(** The profile lists at least one app. *)
Definition has_apps (p : user_profile) : Prop :=
  (productive (apps p) ++ neutral (apps p) ++ unproductive (apps p))%list <> [].

(** The scenario of the specification: work hours 09:00-17:00 without
    variance, no weekend activity, a lunch of exactly 30 minutes, no coffee
    break, Chrome as the single app; and a host to work from. *)
Definition scenario (p : user_profile) : Prop :=
  work_hours p = {| wh_start := {| hour := 9; minute := 0 |};
                    wh_end := {| hour := 17; minute := 0 |};
                    variance_minutes := 0 |}
  /\ weekend_activity p = false
  /\ lunch_minutes (afk_behavior p) = (30, 30)
  /\ coffee_breaks (afk_behavior p) = (0, 0)
  /\ (productive (apps p) ++ neutral (apps p) ++ unproductive (apps p))%list
     = ["Chrome"%string]
  /\ hostnames p <> [].

(** The lunch break that starts [offset] seconds into the session and
    lasts [duration] seconds. *)
Definition lunch_at (ws : work_session) (offset duration : Z)
  : break_interval :=
  {| brk_start := ws_start ws + offset;
     brk_end := ws_start ws + offset + duration;
     brk_type := lunch |}.


(** The sub-schedule of a weekend date, as the planner looks it up. *)
Definition weekend_sched_of (p : user_profile) (d : date)
  : option day_schedule :=
  if weekday d =? 5 then saturday (weekend_schedule p)
  else sunday (weekend_schedule p).

(** The nominal length of the weekday window, in seconds. *)
Definition nominal_seconds (p : user_profile) (d : date) : Z :=
  at_clock d (wh_end (work_hours p)) - at_clock d (wh_start (work_hours p)).

Definition is_lunch (b : break_interval) : bool :=
  match brk_type b with lunch => true | _ => false end.

Definition is_coffee (b : break_interval) : bool :=
  match brk_type b with coffee => true | _ => false end.

(** The lunch the scheduler makes: it starts between 30% and 50% of the
    measured session duration and lasts a number of minutes of the lunch
    range. *)
Definition lunch_shape (p : user_profile) (ws : work_session)
    (b : break_interval) : Prop :=
  let wd := work_duration_of ws in
  brk_type b = lunch
  /\ exists off mins,
       lunch_offset_lo wd <= off <= lunch_offset_hi wd
       /\ fst (lunch_minutes (afk_behavior p)) <= mins
          <= snd (lunch_minutes (afk_behavior p))
       /\ brk_start b = ws_start ws + off
       /\ brk_end b = brk_start b + 60 * mins.

(** A coffee break the scheduler makes: it lasts a number of minutes of the
    break-duration range and starts at an offset that leaves room for it in
    the measured session duration. *)
Definition coffee_shape (p : user_profile) (ws : work_session)
    (b : break_interval) : Prop :=
  let wd := work_duration_of ws in
  brk_type b = coffee
  /\ exists off mins,
       fst (break_duration_minutes (afk_behavior p)) <= mins
       <= snd (break_duration_minutes (afk_behavior p))
       /\ 0 <= off <= wd - mins * 60
       /\ brk_start b = ws_start ws + off
       /\ brk_end b = brk_start b + 60 * mins.

(** The statuses follow one another from [lo] to [hi]: each starts when
    the previous one ends. *)
Fixpoint contiguous (lo : datetime) (statuses : list afk_status)
    (hi : datetime) : Prop :=
  match statuses with
  | [] => lo = hi
  | s :: statuses' =>
      st_timestamp s = lo /\ contiguous (lo + st_duration s) statuses' hi
  end.

Definition is_active (s : afk_status) : bool :=
  presence_eqb (st_status s) active.

(** The presence segment of a break: at its start, of its length, [afk] for
    a lunch, [idle] for a coffee break under ten minutes, [afk] for a
    longer one. *)
Definition break_status (b : break_interval) : afk_status :=
  let duration := brk_end b - brk_start b in
  {| st_status :=
       match brk_type b with
       | lunch => afk
       | _ => if duration <? 600 then idle else afk
       end;
     st_duration := duration;
     st_timestamp := brk_start b |}.

(** An adjacent pair of apps that the switch scan counts: the apps differ
    and the first one is not the empty string. *)
Definition counted_switch (xy : string * string) : bool :=
  negb (String.eqb (fst xy) "") && negb (String.eqb (fst xy) (snd xy)).

Definition adjacent_pairs {A} (l : list A) : list (A * A) :=
  combine l (tl l).

(** The events that fall into the bucket of a key. *)
Definition bucket_events (k : usage_key) (activities : list activity)
  : list activity :=
  filter (fun a => usage_key_eqb (key_of a) k) activities.

(** The bucket stored under a key, if any. *)
Fixpoint get_usage (k : usage_key) (m : list (usage_key * usage))
  : option usage :=
  match m with
  | [] => None
  | (k', u) :: m' => if usage_key_eqb k k' then Some u else get_usage k m'
  end.

Definition usage_seconds (m : list (usage_key * usage)) : Z :=
  sum_Z (map (fun e => us_duration (snd e)) m).

Definition usage_events (m : list (usage_key * usage)) : Z :=
  sum_Z (map (fun e => us_event_count (snd e)) m).

(** The longest event the persona of a profile allows, in seconds. *)
Definition max_event_seconds (p : user_profile) : Z :=
  if Qltb 80 (avg_switches_of p) then 180
  else if Qltb 50 (avg_switches_of p) then 300
  else 900.

(** The title suits the app: one of the pool of the app, or the app name
    itself when the app has no pool. *)
Definition title_suits (app title : string) : Prop :=
  match lookup_titles app WINDOW_TITLES with
  | Some titles => In title titles
  | None => title = app
  end.

(** What every generated event satisfies. *)
Definition event_ok (p : user_profile) (a : activity) : Prop :=
  0 < act_duration a <= max_event_seconds p
  /\ In (act_app a) (all_apps_of p)
  /\ title_suits (act_app a) (act_title a).

(** An event ends by the time the next one starts. *)
Definition precedes (a b : activity) : Prop :=
  act_timestamp a + act_duration a <= act_timestamp b.

(** A record is attributed to a user of the run and to one of the
    hostnames of that user. *)
Definition owned (all_users : list user_profile) (user hostname : string)
  : Prop :=
  exists p, In p all_users /\ user = username p /\ In hostname (hostnames p).

Definition data_owned (all_users : list user_profile) (data : all_data)
  : Prop :=
  Forall (fun x => owned all_users (wa_user x) (wa_hostname x))
    (window_activities data)
  /\ Forall (fun x => owned all_users (as_user x) (as_hostname x))
       (afk_statuses data)
  /\ Forall (fun x => owned all_users (au_user x) (au_hostname x))
       (app_usage data)
  /\ Forall (fun x => owned all_users (DM_user x) (DM_hostname x))
       (daily_metrics data).

(** The coffee break that a candidate start gives. *)
Definition coffee_at (start : datetime) (mins : Z) : break_interval :=
  {| brk_start := start; brk_end := start + minutes mins;
     brk_type := coffee |}.

(** The number of characters of a string that [escape_lp_tag], resp.
    [escape_lp_string], escapes. *)
Fixpoint count_chars (f : ascii -> bool) (s : string) : nat :=
  match s with
  | EmptyString => O
  | String a s' => ((if f a then 1 else 0) + count_chars f s')%nat
  end.

(** The shortest and the longest session a date can get, in seconds:
    the weekday window give or take 2 x variance minutes, the weekend
    sub-schedule exactly, nothing on a day off. *)
Definition session_bounds (p : user_profile) (d : date) : option (Z * Z) :=
  match applicable_schedule p d with
  | None => None
  | Some sched =>
      let n := at_clock d (snd sched) - at_clock d (fst sched) in
      if is_weekend d then Some (n, n)
      else Some (n - 120 * variance_minutes (work_hours p),
                 n + 120 * variance_minutes (work_hours p))
  end.

(** The profile is fit for the date: it names a host and, unless the day is
    off, it lists an app, its variance is a range, every session it can get
    has a length in [0, 1 day), its lunches last at most two hours and its
    longest coffee break is no longer than its shortest session. *)
Definition day_ok (p : user_profile) (d : date) : Prop :=
  hostnames p <> []
  /\ match session_bounds p d with
     | None => True
     | Some (shortest, longest) =>
         has_apps p
         /\ 0 <= variance_minutes (work_hours p)
         /\ 0 <= shortest /\ longest < 86400
         /\ 0 <= fst (lunch_minutes (afk_behavior p))
            <= snd (lunch_minutes (afk_behavior p))
         /\ snd (lunch_minutes (afk_behavior p)) <= 120
         /\ fst (coffee_breaks (afk_behavior p))
            <= snd (coffee_breaks (afk_behavior p))
         /\ 0 <= fst (break_duration_minutes (afk_behavior p))
            <= snd (break_duration_minutes (afk_behavior p))
         /\ 60 * snd (break_duration_minutes (afk_behavior p)) <= shortest
     end.

(** ** Concrete profiles, dates and streams *)

Definition at_hm (h m : Z) : clock := {| hour := h; minute := m |}.

Definition chrome_only : apps_t :=
  {| productive := ["Chrome"%string]; neutral := []; unproductive := [] |}.

Definition no_weekend : weekend_schedule_t :=
  {| saturday := None; sunday := None |}.

(** Work hours 09:00-17:00 without variance, no weekend activity, a
    30-minute lunch, no coffee break, the single app Chrome. *)
Definition scenario_profile : user_profile :=
  {| username := "alice";
     hostnames := ["alice-laptop"%string];
     work_hours := {| wh_start := at_hm 9 0; wh_end := at_hm 17 0;
                      variance_minutes := 0 |};
     weekend_activity := false;
     weekend_schedule := no_weekend;
     afk_behavior := {| lunch_minutes := (30, 30);
                        coffee_breaks := (0, 0);
                        break_duration_minutes := (5, 15) |};
     apps := chrome_only;
     app_switches_per_day := [40; 60] |}.

(** Saturdays 10:00-14:00, half an hour of variance on weekdays. *)
Definition weekend_profile : user_profile :=
  {| username := "bob";
     hostnames := ["bob-desktop"%string];
     work_hours := {| wh_start := at_hm 9 0; wh_end := at_hm 17 0;
                      variance_minutes := 30 |};
     weekend_activity := true;
     weekend_schedule :=
       {| saturday := Some {| ds_start := at_hm 10 0; ds_end := at_hm 14 0 |};
          sunday := None |};
     afk_behavior := {| lunch_minutes := (30, 60);
                        coffee_breaks := (1, 3);
                        break_duration_minutes := (5, 15) |};
     apps := chrome_only;
     app_switches_per_day := [40; 60] |}.

(** A five-hour day, 09:00-14:00, with a five-hour lunch. *)
Definition long_lunch_profile : user_profile :=
  {| username := "carol";
     hostnames := ["carol-laptop"%string];
     work_hours := {| wh_start := at_hm 9 0; wh_end := at_hm 14 0;
                      variance_minutes := 0 |};
     weekend_activity := false;
     weekend_schedule := no_weekend;
     afk_behavior := {| lunch_minutes := (300, 300);
                        coffee_breaks := (0, 0);
                        break_duration_minutes := (5, 15) |};
     apps := chrome_only;
     app_switches_per_day := [40; 60] |}.

(** A one-hour day, 09:00-10:00, with coffee breaks of a given length. *)
Definition short_day_profile (break_minutes : Z) (all_apps : apps_t)
  : user_profile :=
  {| username := "dave";
     hostnames := ["dave-laptop"%string];
     work_hours := {| wh_start := at_hm 9 0; wh_end := at_hm 10 0;
                      variance_minutes := 0 |};
     weekend_activity := false;
     weekend_schedule := no_weekend;
     afk_behavior := {| lunch_minutes := (30, 60);
                        coffee_breaks := (1, 1);
                        break_duration_minutes := (break_minutes, break_minutes) |};
     apps := all_apps;
     app_switches_per_day := [40; 60] |}.

Definition no_apps : apps_t :=
  {| productive := []; neutral := []; unproductive := [] |}.

(** A stream whose third draw is 1800 and whose other draws are 0. *)
Definition third_1800 : rng :=
  fun n => match n with 2%nat => 1800 | _ => 0 end.

(** The 09:00-17:00 day with a one-hour lunch and one ten-minute coffee
    break. *)
Definition one_coffee_profile : user_profile :=
  {| username := "erin";
     hostnames := ["erin-laptop"%string];
     work_hours := {| wh_start := at_hm 9 0; wh_end := at_hm 17 0;
                      variance_minutes := 0 |};
     weekend_activity := false;
     weekend_schedule := no_weekend;
     afk_behavior := {| lunch_minutes := (60, 60);
                        coffee_breaks := (1, 1);
                        break_duration_minutes := (10, 10) |};
     apps := chrome_only;
     app_switches_per_day := [40; 60] |}.

(** A stream that puts the lunch at its earliest offset, 02:24 into the
    day, and proposes 02:30 for every coffee-break placement. *)
Definition always_at_lunch : rng :=
  fun n => if (n <? 4)%nat then 0 else 9000.

(** The 09:00-17:00 day with a variance that is not a range. *)
Definition negative_variance_profile : user_profile :=
  {| username := "frank";
     hostnames := ["frank-laptop"%string];
     work_hours := {| wh_start := at_hm 9 0; wh_end := at_hm 17 0;
                      variance_minutes := -5 |};
     weekend_activity := false;
     weekend_schedule := no_weekend;
     afk_behavior := {| lunch_minutes := (30, 60);
                        coffee_breaks := (1, 3);
                        break_duration_minutes := (5, 15) |};
     apps := chrome_only;
     app_switches_per_day := [40; 60] |}.

(** The 09:00-17:00 day with a lunch of -60 minutes. *)
Definition backwards_lunch_profile : user_profile :=
  {| username := "heidi";
     hostnames := ["heidi-laptop"%string];
     work_hours := {| wh_start := at_hm 9 0; wh_end := at_hm 17 0;
                      variance_minutes := 0 |};
     weekend_activity := false;
     weekend_schedule := no_weekend;
     afk_behavior := {| lunch_minutes := (-60, -60);
                        coffee_breaks := (0, 0);
                        break_duration_minutes := (5, 15) |};
     apps := chrome_only;
     app_switches_per_day := [40; 60] |}.

(** Work hours 09:00-09:30 with 30 minutes of variance, a 30-minute lunch
    and one 10-minute coffee break. *)
Definition half_hour_profile : user_profile :=
  {| username := "ivan";
     hostnames := ["ivan-laptop"%string];
     work_hours := {| wh_start := at_hm 9 0; wh_end := at_hm 9 30;
                      variance_minutes := 30 |};
     weekend_activity := false;
     weekend_schedule := no_weekend;
     afk_behavior := {| lunch_minutes := (30, 30);
                        coffee_breaks := (1, 1);
                        break_duration_minutes := (10, 10) |};
     apps := chrome_only;
     app_switches_per_day := [40; 60] |}.

(** A stream whose first draw is 60 and whose other draws are 0: of the
    61 offsets of [-30, 30] it gives 30 to the start and -30 to the end. *)
Definition late_start : rng :=
  fun n => match n with O => 60 | _ => 0 end.

(** A profile that names no host. *)
Definition no_host_profile : user_profile :=
  {| username := "grace";
     hostnames := [];
     work_hours := {| wh_start := at_hm 9 0; wh_end := at_hm 17 0;
                      variance_minutes := 0 |};
     weekend_activity := false;
     weekend_schedule := no_weekend;
     afk_behavior := {| lunch_minutes := (30, 30);
                        coffee_breaks := (0, 0);
                        break_duration_minutes := (5, 15) |};
     apps := chrome_only;
     app_switches_per_day := [40; 60] |}.

(** 2025-11-15, a Saturday, and 2025-11-17, a Monday. *)
Definition saturday_15 : date := 20407.
Definition monday_17 : date := 20409.

Definition zeros : rng := fun _ => 0.

Definition session_of (d : date) (h1 h2 : Z) : work_session :=
  {| ws_start := at_clock d (at_hm h1 0);
     ws_end := at_clock d (at_hm h2 0);
     ws_is_weekend := false |}.

(** * Properties *)

(** ** The random primitives *)

Lemma randint_ok (lo hi : Z) (r : rng) :
  lo <= hi -> randint lo hi r = Ret (lo + r O mod (hi - lo + 1), rest r).
Proof.
  intros H. unfold randint.
  destruct (Z.ltb_spec hi lo); [lia | reflexivity].
Qed.

Lemma randint_empty (lo hi : Z) (r : rng) :
  hi < lo -> randint lo hi r = Raise ValueError.
Proof.
  intros H. unfold randint.
  destruct (Z.ltb_spec hi lo); [reflexivity | lia].
Qed.

Lemma randint_value_bounds (lo hi x : Z) :
  lo <= hi -> lo <= lo + x mod (hi - lo + 1) <= hi.
Proof.
  intros H.
  pose proof (Z.mod_pos_bound x (hi - lo + 1)). lia.
Qed.

Lemma randint_point (v : Z) (r : rng) : randint v v r = Ret (v, rest r).
Proof.
  rewrite randint_ok by lia.
  replace (v - v + 1) with 1 by lia. rewrite Z.mod_1_r, Z.add_0_r.
  reflexivity.
Qed.

(** Every value of the range is drawn from some stream. *)
Lemma randint_onto (lo hi v : Z) (r : rng) :
  lo <= v <= hi ->
  randint lo hi (fun n => match n with O => v - lo | S n' => r n' end)
  = Ret (v, r).
Proof.
  intros H. rewrite randint_ok by lia. cbn.
  rewrite Z.mod_small by lia. f_equal. f_equal. lia.
Qed.

Lemma bind_Ret {A B} (m : M A) (f : A -> M B) (r r' : rng) (a : A) :
  m r = Ret (a, r') -> bind m f r = f a r'.
Proof. intros E. unfold bind. rewrite E. reflexivity. Qed.

Lemma bind_Raise {A B} (m : M A) (f : A -> M B) (r : rng) (e : exn) :
  m r = Raise e -> bind m f r = Raise e.
Proof. intros E. unfold bind. rewrite E. reflexivity. Qed.

Lemma bind_Ret_inv {A B} (m : M A) (f : A -> M B) (r r' : rng) (b : B) :
  bind m f r = Ret (b, r') ->
  exists a r1, m r = Ret (a, r1) /\ f a r1 = Ret (b, r').
Proof.
  unfold bind. destruct (m r) as [[a r1] | e |]; try discriminate.
  intros E. exists a, r1. split; [reflexivity | exact E].
Qed.

Lemma randint_inv (lo hi : Z) (r r' : rng) (v : Z) :
  randint lo hi r = Ret (v, r') -> lo <= v <= hi /\ r' = rest r.
Proof.
  unfold randint. destruct (Z.ltb_spec hi lo); [discriminate |].
  intros E. injection E as <- <-.
  split; [apply randint_value_bounds; lia | reflexivity].
Qed.

Lemma ret_inv {A} (a b : A) (r r' : rng) :
  ret a r = Ret (b, r') -> b = a /\ r' = r.
Proof. unfold ret. intros E. injection E as <- <-. auto. Qed.

(** ** SessionPlanner *)

Lemma generate_work_session_weekend (p : user_profile) (d : date)
    (sched : clock * clock) (r : rng) :
  is_weekend d = true ->
  applicable_schedule p d = Some sched ->
  generate_work_session p d r
  = Ret (Some {| ws_start := at_clock d (fst sched);
                 ws_end := at_clock d (snd sched);
                 ws_is_weekend := true |}, r).
Proof.
  intros W S. unfold applicable_schedule in S. unfold generate_work_session.
  rewrite W in *. destruct (weekend_activity p); [| discriminate]. cbn.
  destruct (if weekday d =? 5 then saturday (weekend_schedule p)
            else sunday (weekend_schedule p)) as [s |]; [| discriminate].
  injection S as <-. reflexivity.
Qed.

Lemma generate_work_session_weekday (p : user_profile) (d : date) (r : rng) :
  is_weekend d = false ->
  0 <= variance_minutes (work_hours p) ->
  let v := variance_minutes (work_hours p) in
  generate_work_session p d r
  = Ret (Some (session_with_offsets d
                 (wh_start (work_hours p), wh_end (work_hours p))
                 (- v + r 0%nat mod (v - - v + 1))
                 (- v + r 1%nat mod (v - - v + 1))),
         rest (rest r)).
Proof.
  intros W V v. unfold generate_work_session, session_with_offsets.
  rewrite W. fold v.
  rewrite (bind_Ret _ _ r (rest r) (- v + r 0%nat mod (v - - v + 1)))
    by (apply randint_ok; lia).
  rewrite (bind_Ret _ _ (rest r) (rest (rest r))
             (- v + r 1%nat mod (v - - v + 1)))
    by (apply randint_ok; lia).
  reflexivity.
Qed.

(** ** C4: the session of a date *)

(** The start of a session tells its offset. *)
Lemma session_with_offsets_inj (d : date) (sched : clock * clock)
    (o1 o2 o1' o2' : Z) :
  session_with_offsets d sched o1 o2 = session_with_offsets d sched o1' o2' ->
  o1 = o1' /\ o2 = o2'.
Proof.
  unfold session_with_offsets, minutes. intros E.
  assert (E1 : at_clock d (fst sched) + 60 * o1
               = at_clock d (fst sched) + 60 * o1') by congruence.
  assert (E2 : at_clock d (snd sched) + 60 * o2
               = at_clock d (snd sched) + 60 * o2') by congruence.
  lia.
Qed.

(** C4 (as amended): on a weekday the session is the work-hours window with
    two separately drawn minute offsets of [-variance, variance], one added
    to the start and one to the end; every pair of offsets is drawn from
    some stream, and the pairs are uniform and independent: each is the
    outcome of one residue class of the first raw draw and one of the
    second.  On a weekend day with a matching sub-schedule the session is
    exactly that sub-schedule, whatever the variance, and no draw is
    consumed. *)
Theorem generate_work_session_offsets (p : user_profile) (d : date)
    (sched : clock * clock) :
  applicable_schedule p d = Some sched ->
  let v := variance_minutes (work_hours p) in
  (is_weekend d = false ->
   0 <= v ->
   (forall r, exists o1 o2,
       - v <= o1 <= v /\ - v <= o2 <= v /\
       generate_work_session p d r
       = Ret (Some (session_with_offsets d sched o1 o2), rest (rest r)))
   /\ offsets_drawn p d sched
   /\ offsets_uniform p d sched)
  /\ (is_weekend d = true ->
      forall r, generate_work_session p d r
                = Ret (Some (session_with_offsets d sched 0 0), r)).
Proof.
  intros S v. split.
  - intros W V.
    assert (sched = (wh_start (work_hours p), wh_end (work_hours p))) as ->.
    { unfold applicable_schedule in S. rewrite W in S. congruence. }
    split; [| split].
    + intros r.
      exists (- v + r 0%nat mod (v - - v + 1)), (- v + r 1%nat mod (v - - v + 1)).
      split; [apply randint_value_bounds; lia |].
      split; [apply randint_value_bounds; lia |].
      apply generate_work_session_weekday; assumption.
    + intros o1 o2 H1 H2. fold v in H1, H2.
      exists (fun n => match n with
                       | O => o1 + v
                       | S O => o2 + v
                       | _ => 0
                       end).
      eexists. rewrite generate_work_session_weekday by assumption.
      fold v. cbv beta iota.
      rewrite !Z.mod_small by lia.
      replace (- v + (o1 + v)) with o1 by lia.
      replace (- v + (o2 + v)) with o2 by lia.
      reflexivity.
    + intros r o1 o2 H1 H2. fold v in H1, H2 |- *.
      rewrite generate_work_session_weekday by assumption. fold v.
      replace (v - - v + 1) with (2 * v + 1) by lia.
      split.
      * intros E.
        assert (E' : session_with_offsets d
                       (wh_start (work_hours p), wh_end (work_hours p))
                       (- v + r 0%nat mod (2 * v + 1))
                       (- v + r 1%nat mod (2 * v + 1))
                     = session_with_offsets d
                         (wh_start (work_hours p), wh_end (work_hours p))
                         o1 o2) by congruence.
        apply session_with_offsets_inj in E'. lia.
      * intros [E1 E2]. rewrite E1, E2.
        replace (- v + (o1 + v)) with o1 by lia.
        replace (- v + (o2 + v)) with o2 by lia.
        reflexivity.
  - intros W r. rewrite (generate_work_session_weekend p d sched r W S).
    unfold session_with_offsets, minutes. rewrite W, !Z.add_0_r. reflexivity.
Qed.

Lemma generate_work_session_offsets_witness :
  (applicable_schedule weekend_profile monday_17 = Some (at_hm 9 0, at_hm 17 0)
   /\ (forall r, exists o1 o2,
          - 30 <= o1 <= 30 /\ - 30 <= o2 <= 30 /\
          generate_work_session weekend_profile monday_17 r
          = Ret (Some (session_with_offsets monday_17 (at_hm 9 0, at_hm 17 0)
                         o1 o2), rest (rest r)))
   /\ offsets_drawn weekend_profile monday_17 (at_hm 9 0, at_hm 17 0)
   /\ offsets_uniform weekend_profile monday_17 (at_hm 9 0, at_hm 17 0))
  /\ (applicable_schedule weekend_profile saturday_15
      = Some (at_hm 10 0, at_hm 14 0)
      /\ forall r,
           generate_work_session weekend_profile saturday_15 r
           = Ret (Some (session_with_offsets saturday_15
                          (at_hm 10 0, at_hm 14 0) 0 0), r)).
Proof.
  split.
  - split; [reflexivity |].
    apply (proj1 (generate_work_session_offsets weekend_profile monday_17
                    (at_hm 9 0, at_hm 17 0) eq_refl)); [reflexivity |].
    cbn. lia.
  - split; [reflexivity |].
    apply (proj2 (generate_work_session_offsets weekend_profile saturday_15
                    (at_hm 10 0, at_hm 14 0) eq_refl)).
    reflexivity.
Defined.

(** C4 fails as stated: on a Saturday with a matching sub-schedule no offset
    is drawn, although the profile's variance is 30 minutes. *)
Lemma weekend_session_has_no_variance :
  applicable_schedule weekend_profile saturday_15
  = Some (at_hm 10 0, at_hm 14 0)
  /\ ~ offsets_drawn weekend_profile saturday_15 (at_hm 10 0, at_hm 14 0).
Proof.
  split; [reflexivity |].
  intros H. destruct (H 30 30) as (r & r' & E); [cbn; lia | cbn; lia |].
  rewrite (generate_work_session_weekend weekend_profile saturday_15
             (at_hm 10 0, at_hm 14 0) r) in E by reflexivity.
  injection E as E _. vm_compute in E. discriminate.
Qed.

(** ** C10: a profile without apps *)

(** C10: when the three app lists of a profile are empty, the candidate
    list is the ["Chrome"] fallback, the weight list is empty, and the
    activity generator raises [ValueError] at its first weighted draw,
    whatever the session, the breaks and the stream; no event is produced. *)
Theorem generate_window_activities_no_apps (fuel : nat) (p : user_profile)
    (ws : work_session) (breaks : list break_interval) (r : rng) :
  productive (apps p) = [] ->
  neutral (apps p) = [] ->
  unproductive (apps p) = [] ->
  all_apps_of p = ["Chrome"%string]
  /\ app_weights_of p = []
  /\ generate_window_activities fuel p ws breaks r = Raise ValueError.
Proof.
  intros Hp Hn Hu.
  assert (A : all_apps_of p = ["Chrome"%string]).
  { unfold all_apps_of. rewrite Hp, Hn, Hu. reflexivity. }
  assert (W : app_weights_of p = []).
  { unfold app_weights_of. rewrite Hp, Hn, Hu. reflexivity. }
  repeat split; try assumption.
  unfold generate_window_activities. rewrite A, W. reflexivity.
Qed.

Lemma generate_window_activities_no_apps_witness :
  productive (apps (short_day_profile 10 no_apps)) = []
  /\ generate_window_activities 3600 (short_day_profile 10 no_apps)
       (session_of monday_17 9 10) [] zeros = Raise ValueError.
Proof.
  split; [reflexivity |].
  apply (generate_window_activities_no_apps 3600 (short_day_profile 10 no_apps)
           (session_of monday_17 9 10) [] zeros); reflexivity.
Defined.

(** ** C6: zero-duration presence segments *)

(** Work segments are filtered: an [active] status always lasts at least a
    second. *)
Lemma active_status_positive (ws : work_session)
    (breaks : list break_interval) (s : afk_status) :
  In s (generate_afk_statuses ws breaks) ->
  st_status s = active -> 0 < st_duration s.
Proof.
  intros I A. unfold generate_afk_statuses in I.
  apply in_flat_map in I. destruct I as (sg & _ & I).
  unfold segment_statuses, total_seconds in I.
  destruct (seg_type sg).
  - destruct (Z.gtb_spec (seg_end sg - seg_start sg) 0) as [G | G];
      [| contradiction].
    destruct I as [<- | []]. cbn. lia.
  - destruct I as [<- | []]. discriminate.
  - destruct (seg_end sg - seg_start sg <? 600);
      destruct I as [<- | []]; discriminate.
Qed.

(** C6 fails on the code: lunch and coffee segments are appended without the
    [duration > 0] test of the work segments.  A profile with zero-minute
    coffee breaks yields a break of no length in the middle of the session,
    and the presence derivation emits an [idle] status of 0 seconds for it. *)
Theorem zero_duration_coffee_status :
  let ws := session_of monday_17 9 10 in
  let b := {| brk_start := ws_start ws + 1800;
              brk_end := ws_start ws + 1800;
              brk_type := coffee |} in
  (exists r', generate_breaks (short_day_profile 0 chrome_only) ws third_1800
              = Ret ([b], r'))
  /\ In {| st_status := idle; st_duration := 0; st_timestamp := brk_start b |}
       (generate_afk_statuses ws [b]).
Proof.
  split.
  - eexists. vm_compute. reflexivity.
  - vm_compute. right. left. reflexivity.
Qed.

(** ** C7: the utilization ratio *)

Lemma sum_Z_nonneg (l : list Z) : Forall (fun x => 0 <= x) l -> 0 <= sum_Z l.
Proof.
  induction 1 as [| x l Hx _ IH]; cbn; [lia |].
  unfold sum_Z in IH. lia.
Qed.

Lemma status_seconds_nonneg (status : presence) (l : list afk_status) :
  Forall (fun s => 0 <= st_duration s) l -> 0 <= status_seconds status l.
Proof.
  intros H. unfold status_seconds. apply sum_Z_nonneg.
  induction H as [| s l Hs _ IH]; cbn; [constructor |].
  destruct (presence_eqb (st_status s) status); cbn; auto.
Qed.

Lemma Qltb_true (x y : Q) : Qltb x y = true <-> (x < y)%Q.
Proof.
  unfold Qltb. rewrite negb_true_iff.
  split.
  - intros H. apply Qnot_le_lt. intros L.
    apply Qle_bool_iff in L. congruence.
  - intros H. destruct (Qle_bool y x) eqn:E; [| reflexivity].
    apply Qle_bool_iff in E. exfalso. apply (Qlt_not_le _ _ H E).
Qed.

Lemma Qltb_false (x y : Q) : Qltb x y = false <-> (y <= x)%Q.
Proof.
  unfold Qltb. rewrite negb_false_iff. apply Qle_bool_iff.
Qed.

Lemma Qfloor_lt_succ (x : Q) : (x < inject_Z (Qfloor x) + 1)%Q.
Proof.
  pose proof (Qlt_floor x) as H. rewrite inject_Z_plus in H. exact H.
Qed.

(** The rounded value is an integer next to [x], at most one half away. *)
Lemma round_half_even_near (x : Q) :
  (Qabs (inject_Z (round_half_even x) - x) <= 1 # 2)%Q.
Proof.
  unfold round_half_even.
  pose proof (Qfloor_le x) as L. pose proof (Qfloor_lt_succ x) as U.
  set (f := Qfloor x) in *.
  apply Qabs_Qle_condition.
  destruct (Qltb (2 * (x - inject_Z f)) 1) eqn:E1.
  - apply Qltb_true in E1. split; lra.
  - apply Qltb_false in E1.
    assert (S : inject_Z (f + 1) = (inject_Z f + 1)%Q)
      by apply inject_Z_plus.
    destruct (Qltb 1 (2 * (x - inject_Z f))) eqn:E2.
    + rewrite S. split; lra.
    + apply Qltb_false in E2.
      destruct (Z.even f); [| rewrite S]; split; lra.
Qed.

Lemma round_half_even_bounds (x : Q) (n : Z) :
  (0 <= x)%Q -> (x <= inject_Z n)%Q -> 0 <= round_half_even x <= n.
Proof.
  intros L U.
  pose proof (Qfloor_resp_le _ _ L) as F0. cbn in F0.
  pose proof (Qfloor_resp_le _ _ U) as F1. rewrite Qfloor_Z in F1.
  pose proof (Qfloor_le x) as FL.
  unfold round_half_even. set (f := Qfloor x) in *.
  assert (C : (1 <= 2 * (x - inject_Z f))%Q -> f + 1 <= n).
  { intros H. destruct (Z.eq_dec f n) as [-> | N]; [lra | lia]. }
  destruct (Qltb (2 * (x - inject_Z f)) 1) eqn:E1; [lia |].
  apply Qltb_false in E1. specialize (C E1).
  destruct (Qltb 1 (2 * (x - inject_Z f))); [lia |].
  destruct (Z.even f); lia.
Qed.

Lemma pow2_pos (e : Z) : (0 < pow2 e)%Q.
Proof.
  unfold pow2. destruct (Z.leb_spec 0 e) as [H | H].
  - change 0%Q with (inject_Z 0). rewrite <- Zlt_Qlt.
    apply Z.pow_pos_nonneg; lia.
  - reflexivity.
Qed.

Lemma pow2_of_nonneg (e : Z) : 0 <= e -> pow2 e = inject_Z (2 ^ e).
Proof.
  intros H. unfold pow2. destruct (Z.leb_spec 0 e); [reflexivity | lia].
Qed.

Lemma pow2_inverse (e : Z) : e <= 0 -> (inject_Z (2 ^ (- e)) * pow2 e == 1)%Q.
Proof.
  intros H. unfold pow2. destruct (Z.leb_spec 0 e) as [L | L].
  - replace e with 0 by lia. reflexivity.
  - assert (P : 0 < 2 ^ (- e)) by (apply Z.pow_pos_nonneg; lia).
    unfold Qeq, inject_Z. cbn [Qmult Qnum Qden].
    rewrite Pos.mul_1_l, Z2Pos.id by exact P. lia.
Qed.

Lemma pow2_small (e : Z) : e <= -52 -> (pow2 e <= 1 # 4503599627370496)%Q.
Proof.
  intros H. unfold pow2. destruct (Z.leb_spec 0 e) as [L | L]; [lia |].
  assert (P : 2 ^ 52 <= 2 ^ (- e)) by (apply Z.pow_le_mono_r; lia).
  unfold Qle. cbn [Qnum Qden]. rewrite Z2Pos.id by lia.
  change (2 ^ 52) with 4503599627370496 in P. lia.
Qed.

(** A quotient of at most 1 has its last significand bit at 2^-52 or
    below. *)
Lemma ulp_exponent_unit (x : Q) : (0 < x)%Q -> (x <= 1)%Q -> ulp_exponent x <= -52.
Proof.
  intros L U. unfold ulp_exponent.
  assert (N : 0 < Qnum x <= Z.pos (Qden x)).
  { unfold Qlt, Qle in L, U. cbn in L, U. lia. }
  pose proof (Z.log2_le_mono (Qnum x) (Z.pos (Qden x)) (proj2 N)) as M.
  destruct (Qle_bool _ x); lia.
Qed.

Lemma binary64_pos_unit (x : Q) :
  (0 < x)%Q -> (x <= 1)%Q -> (0 <= binary64_pos x <= 1)%Q.
Proof.
  intros L U. pose proof (ulp_exponent_unit x L U) as E.
  unfold binary64_pos. cbv zeta.
  set (e := ulp_exponent x) in *.
  pose proof (pow2_pos e) as P. pose proof (pow2_pos (- e)) as P'.
  pose proof (pow2_inverse e ltac:(lia)) as I.
  rewrite <- (pow2_of_nonneg (- e)) in I by lia.
  assert (B : 0 <= round_half_even (x * pow2 (- e)) <= 2 ^ (- e)).
  { apply round_half_even_bounds.
    - apply Qmult_le_0_compat; lra.
    - rewrite <- pow2_of_nonneg by lia.
      rewrite <- (Qmult_1_l (pow2 (- e))) at 2.
      apply Qmult_le_compat_r; lra. }
  set (m := round_half_even (x * pow2 (- e))) in *.
  destruct B as [B0 B1].
  rewrite Zle_Qle in B0, B1. rewrite <- pow2_of_nonneg in B1 by lia.
  change (inject_Z 0) with 0%Q in B0.
  split.
  - apply Qmult_le_0_compat; lra.
  - rewrite <- I. apply Qmult_le_compat_r; lra.
Qed.

Lemma binary64_pos_near (x : Q) :
  (0 < x)%Q -> (x <= 1)%Q ->
  (Qabs (binary64_pos x - x) <= 1 # 9007199254740992)%Q.
Proof.
  intros L U. pose proof (ulp_exponent_unit x L U) as E.
  unfold binary64_pos. cbv zeta.
  set (e := ulp_exponent x) in *.
  pose proof (pow2_pos e) as P.
  pose proof (pow2_small e E) as S.
  pose proof (pow2_inverse e ltac:(lia)) as I.
  rewrite <- (pow2_of_nonneg (- e)) in I by lia.
  pose proof (round_half_even_near (x * pow2 (- e))) as H.
  set (m := inject_Z (round_half_even (x * pow2 (- e)))) in *.
  assert (X : (x == x * pow2 (- e) * pow2 e)%Q).
  { rewrite <- Qmult_assoc, I. ring. }
  assert (D : (m * pow2 e - x == (m - x * pow2 (- e)) * pow2 e)%Q).
  { rewrite X at 1. ring. }
  rewrite D, Qabs_Qmult, (Qabs_pos (pow2 e)) by lra.
  apply Qle_trans with ((1 # 2) * pow2 e)%Q.
  - apply Qmult_le_compat_r; [exact H | lra].
  - apply Qle_trans with ((1 # 2) * (1 # 4503599627370496))%Q.
    + apply Qmult_le_l; [reflexivity | exact S].
    + unfold Qle. cbn. lia.
Qed.

Lemma binary64_zero (x : Q) : (x == 0)%Q -> binary64 x = 0%Q.
Proof.
  intros E. unfold binary64.
  assert (A : Qltb 0 x = false) by (apply Qltb_false; lra).
  assert (B : Qltb x 0 = false) by (apply Qltb_false; lra).
  rewrite A, B. reflexivity.
Qed.

Lemma binary64_of_pos (x : Q) : (0 < x)%Q -> binary64 x = binary64_pos x.
Proof.
  intros L. unfold binary64.
  assert (A : Qltb 0 x = true) by (apply Qltb_true; exact L).
  rewrite A. reflexivity.
Qed.

(** The double nearest to a quotient of [0, 1] is in [0, 1], and less than
    2^-53 away from it. *)
Lemma binary64_unit (x : Q) : (0 <= x <= 1)%Q -> (0 <= binary64 x <= 1)%Q.
Proof.
  intros [L U]. destruct (Qlt_le_dec 0 x) as [P | Z0].
  - rewrite binary64_of_pos by exact P. apply binary64_pos_unit; assumption.
  - rewrite binary64_zero by lra. lra.
Qed.

Lemma binary64_near (x : Q) :
  (0 <= x <= 1)%Q -> (Qabs (binary64 x - x) <= 1 # 9007199254740992)%Q.
Proof.
  intros [L U]. destruct (Qlt_le_dec 0 x) as [P | Z0].
  - rewrite binary64_of_pos by exact P. apply binary64_pos_near; assumption.
  - rewrite binary64_zero by lra.
    apply Qabs_Qle_condition. split; lra.
Qed.

Lemma round4_near (x : Q) :
  (0 <= x <= 1)%Q ->
  (Qabs (round4 x - x) <= (1 # 20000) + (1 # 9007199254740992))%Q.
Proof.
  intros B.
  pose proof (binary64_near x B) as N.
  pose proof (round_half_even_near (binary64 x * 10000)) as H.
  apply Qabs_Qle_condition in H, N. apply Qabs_Qle_condition.
  unfold round4.
  rewrite (Qmake_Qdiv (round_half_even (binary64 x * 10000)) 10000).
  set (z := inject_Z (round_half_even (binary64 x * 10000))) in *.
  set (b := binary64 x) in *.
  change (inject_Z (Z.pos 10000)) with (10000 # 1)%Q.
  assert (E : (z / (10000 # 1) == z * (1 # 10000))%Q) by reflexivity.
  rewrite E. split; lra.
Qed.

Lemma round4_unit (x : Q) : (0 <= x <= 1)%Q -> (0 <= round4 x <= 1)%Q.
Proof.
  intros B. destruct (binary64_unit x B) as [L U].
  assert (K : 0 <= round_half_even (binary64 x * 10000) <= 10000).
  { apply round_half_even_bounds.
    - lra.
    - change (inject_Z 10000) with (10000 # 1)%Q. lra. }
  unfold round4, Qle. cbn. lia.
Qed.

Lemma round4_zero : (round4 0 == 0)%Q.
Proof. reflexivity. Qed.

Lemma ratio_unit (a t : Z) :
  0 <= a <= t -> 0 < t -> (0 <= inject_Z a / inject_Z t <= 1)%Q.
Proof.
  intros A T.
  assert (Tq : (0 < inject_Z t)%Q).
  { change 0%Q with (inject_Z 0). rewrite <- Zlt_Qlt. exact T. }
  split.
  - apply Qle_shift_div_l; [exact Tq |].
    rewrite Qmult_0_l. change 0%Q with (inject_Z 0).
    rewrite <- Zle_Qle. lia.
  - apply Qle_shift_div_r; [exact Tq |].
    rewrite Qmult_1_l. rewrite <- Zle_Qle. lia.
Qed.

(** Breaks that do not run backwards give presence segments of
    non-negative durations. *)
Lemma afk_statuses_nonneg (ws : work_session) (breaks : list break_interval) :
  Forall (fun b => brk_start b <= brk_end b) breaks ->
  Forall (fun s => 0 <= st_duration s) (generate_afk_statuses ws breaks).
Proof.
  intros W. unfold generate_afk_statuses.
  generalize (ws_start ws) as last_end.
  induction W as [| b l Hb _ IH]; intros last_end; cbn [work_segments_from].
  - destruct (last_end <? ws_end ws) eqn:E; [| constructor].
    apply Z.ltb_lt in E. cbn. unfold total_seconds. cbn.
    destruct (Z.gtb_spec (ws_end ws - last_end) 0); repeat constructor.
    cbn. lia.
  - rewrite flat_map_app. apply Forall_app. split.
    + destruct (Z.gtb_spec (brk_start b) last_end); [| constructor].
      cbn. unfold total_seconds. cbn.
      destruct (Z.gtb_spec (brk_start b - last_end) 0); repeat constructor.
      cbn. lia.
    + cbn [flat_map]. apply Forall_app. split; [| apply IH].
      unfold segment_statuses, total_seconds. cbn [seg_type seg_start seg_end].
      destruct (brk_type b).
      * destruct (Z.gtb_spec (brk_end b - brk_start b) 0); repeat constructor.
        cbn. lia.
      * repeat constructor. cbn. lia.
      * destruct (brk_end b - brk_start b <? 600); repeat constructor; cbn; lia.
Qed.

(** C7 (as amended): for presence segments of non-negative durations, the
    daily record holds the sums of the active, idle and afk durations, and
    its utilization ratio lies in [0, 1]; the ratio is 0 when the total of
    the three sums is zero, and otherwise it is the quotient active/total
    rounded to four decimal digits: a whole number of ten-thousandths, no
    further from the quotient than half a ten-thousandth and the 2^-53 of
    the division of doubles. *)
Theorem utilization_ratio_bounds (d : date) (afk_statuses : list afk_status)
    (activities : list activity) :
  Forall (fun s => 0 <= st_duration s) afk_statuses ->
  let m := calculate_daily_metrics d afk_statuses activities in
  let active_sum := status_seconds active afk_statuses in
  let total :=
    active_sum + status_seconds idle afk_statuses
    + status_seconds afk afk_statuses in
  let quotient := (inject_Z active_sum / inject_Z total)%Q in
  active_seconds m = active_sum
  /\ active_seconds m + idle_seconds m + afk_seconds m = total
  /\ (0 <= utilization_ratio m <= 1)%Q
  /\ (total = 0 -> (utilization_ratio m == 0)%Q)
  /\ (total <> 0 ->
      (exists k : Z, 0 <= k <= 10000 /\ utilization_ratio m = Qmake k 10000)
      /\ (Qabs (utilization_ratio m - quotient)
          <= (1 # 20000) + (1 # 9007199254740992))%Q).
Proof.
  intros H m active_sum total quotient.
  pose proof (status_seconds_nonneg active _ H) as Ha.
  pose proof (status_seconds_nonneg idle _ H) as Hi.
  pose proof (status_seconds_nonneg afk _ H) as Hk.
  subst quotient total active_sum m. unfold calculate_daily_metrics.
  cbn [utilization_ratio active_seconds idle_seconds afk_seconds].
  set (a := status_seconds active afk_statuses) in *.
  set (i := status_seconds idle afk_statuses) in *.
  set (k := status_seconds afk afk_statuses) in *.
  split; [reflexivity |].
  split; [reflexivity |].
  destruct (Z.gtb_spec (a + i + k) 0) as [G | G].
  - pose proof (ratio_unit a (a + i + k) ltac:(lia) ltac:(lia)) as U.
    split; [apply round4_unit, U |].
    split; [lia |].
    intros _. split; [| apply round4_near, U].
    exists (round_half_even
              (binary64 (inject_Z a / inject_Z (a + i + k)) * 10000)).
    split; [| reflexivity].
    apply round_half_even_bounds.
    + pose proof (binary64_unit _ U). lra.
    + pose proof (binary64_unit _ U).
      change (inject_Z 10000) with (10000 # 1)%Q. lra.
  - split; [apply round4_unit; lra |].
    split; [intros _; apply round4_zero | lia].
Qed.

(** The 09:00-17:00 day with a 39-minute lunch at noon. *)
Lemma utilization_ratio_bounds_witness :
  let statuses :=
    generate_afk_statuses (session_of monday_17 9 17)
      [lunch_at (session_of monday_17 9 17) 10800 2340] in
  let m := calculate_daily_metrics monday_17 statuses [] in
  Forall (fun s => 0 <= st_duration s) statuses
  /\ active_seconds m = 26460
  /\ active_seconds m + idle_seconds m + afk_seconds m = 28800
  /\ (0 <= utilization_ratio m <= 1)%Q
  /\ (exists k : Z, 0 <= k <= 10000 /\ utilization_ratio m = Qmake k 10000)
  /\ (Qabs (utilization_ratio m - inject_Z 26460 / inject_Z 28800)
      <= (1 # 20000) + (1 # 9007199254740992))%Q.
Proof.
  assert (H : Forall (fun s => 0 <= st_duration s)
                (generate_afk_statuses (session_of monday_17 9 17)
                   [lunch_at (session_of monday_17 9 17) 10800 2340])).
  { apply afk_statuses_nonneg. repeat constructor. cbn. lia. }
  split; [exact H |].
  pose proof (utilization_ratio_bounds monday_17 _ [] H) as (A & S & B & _ & T).
  split; [exact A |].
  split; [exact S |].
  split; [exact B |].
  apply T. discriminate.
Defined.

(** Where the exact quotient is halfway between two ten-thousandths, the
    double decides: with a 39-minute lunch in the 09:00-17:00 day the
    quotient 26460/28800 is 0.91875, the double nearest to it is below it,
    and the ratio is 0.9187; with a 27-minute lunch, 27180/28800 gives
    0.9437. *)
Example utilization_ratio_at_ties :
  let ws := session_of monday_17 9 17 in
  let ratio mins :=
    utilization_ratio
      (calculate_daily_metrics monday_17
         (generate_afk_statuses ws [lunch_at ws 10800 (60 * mins)]) []) in
  ratio 39 = (9187 # 10000)%Q /\ ratio 27 = (9437 # 10000)%Q
  /\ ratio 30 = (9375 # 10000)%Q.
Proof. vm_compute. repeat split. Qed.

(** C7 fails as stated: a lunch of -60 minutes gives a generated day whose
    lunch break ends an hour before it starts; the afk segment of the break
    counts -3600 seconds, the active segments 32400 of the 28800 seconds of
    the day, and the utilization ratio is 1.125. *)
Lemma backwards_lunch_ratio_above_one :
  exists dd r',
    generate_user_day 200 backwards_lunch_profile monday_17 zeros
    = Ret (Some dd, r')
    /\ active_seconds (dd_metric dd) = 32400
    /\ afk_seconds (dd_metric dd) = -3600
    /\ utilization_ratio (dd_metric dd) = (11250 # 10000)%Q
    /\ ~ (0 <= utilization_ratio (dd_metric dd) <= 1)%Q.
Proof.
  eexists. eexists.
  split; [vm_compute; reflexivity |].
  cbn [dd_metric].
  split; [vm_compute; reflexivity |].
  split; [vm_compute; reflexivity |].
  split; [vm_compute; reflexivity |].
  intros [_ U]. vm_compute in U. apply U. reflexivity.
Qed.

(** ** C8: escaping round trips *)

Section Escaping.

Local Open Scope string_scope.


Lemma escape_lp_tag_cons (a : ascii) (s : string) :
  escape_lp_tag (String a s)
  = if tag_special a
    then String backslash (String a (escape_lp_tag s))
    else String a (escape_lp_tag s).
Proof.
  unfold escape_lp_tag, tag_special. cbn [replace_char].
  destruct (Ascii.eqb_spec a comma) as [-> | Nc]; [reflexivity |].
  cbn [replace_char orb].
  destruct (Ascii.eqb_spec a equals) as [-> | Ne]; [reflexivity |].
  cbn [replace_char orb].
  destruct (Ascii.eqb_spec a space) as [-> | Ns]; reflexivity.
Qed.

(** An escaped tag value never starts with a bare special character. *)
Lemma escape_lp_tag_head (s : string) :
  match escape_lp_tag s with
  | String b _ => tag_special b = false
  | EmptyString => True
  end.
Proof.
  destruct s as [| a s]; [exact I |].
  rewrite escape_lp_tag_cons.
  destruct (tag_special a) eqn:E; [reflexivity | exact E].
Qed.

Lemma unescape_tag_escaped (b : ascii) (s : string) :
  tag_special b = true ->
  unescape_tag (String backslash (String b s)) = String b (unescape_tag s).
Proof. intros H. cbn. rewrite H. reflexivity. Qed.

Lemma unescape_tag_plain (a : ascii) (s : string) :
  match s with String b _ => tag_special b = false | EmptyString => True end ->
  unescape_tag (String a s) = String a (unescape_tag s).
Proof.
  destruct s as [| b s]; [reflexivity |].
  intros H. cbn [unescape_tag]. rewrite H, andb_false_r. reflexivity.
Qed.

Lemma unescape_escape_lp_tag (s : string) : unescape_tag (escape_lp_tag s) = s.
Proof.
  induction s as [| a s IH]; [reflexivity |].
  rewrite escape_lp_tag_cons. destruct (tag_special a) eqn:E.
  - rewrite unescape_tag_escaped by exact E. now rewrite IH.
  - rewrite unescape_tag_plain by apply escape_lp_tag_head. now rewrite IH.
Qed.




Lemma escape_body_cons (a : ascii) (s : string) :
  escape_body (String a s)
  = if string_special a
    then String backslash (String a (escape_body s))
    else String a (escape_body s).
Proof.
  unfold escape_body, string_special. cbn [replace_char].
  destruct (Ascii.eqb_spec a backslash) as [-> | Nb]; [reflexivity |].
  cbn [replace_char orb].
  destruct (Ascii.eqb_spec a dquote) as [-> | Nq]; reflexivity.
Qed.

Lemma parse_lp_string_body_plain (a : ascii) (s : string) :
  string_special a = false ->
  s <> EmptyString ->
  parse_lp_string_body (String a s) = option_cons a (parse_lp_string_body s).
Proof.
  intros E N. unfold string_special in E. apply orb_false_elim in E.
  destruct E as [Eb Eq].
  destruct s as [| b s]; [congruence |].
  cbn [parse_lp_string_body]. rewrite Eq, Eb. reflexivity.
Qed.

Lemma parse_escape_body (s rest : string) :
  parse_lp_string_body (escape_body s ++ String dquote rest)
  = Some (s, rest).
Proof.
  induction s as [| a s IH].
  - cbn. reflexivity.
  - rewrite escape_body_cons. destruct (string_special a) eqn:E.
    + cbn [append parse_lp_string_body]. rewrite E, IH.
      change (Ascii.eqb backslash dquote) with false.
      change (Ascii.eqb backslash backslash) with true. reflexivity.
    + cbn [append]. rewrite parse_lp_string_body_plain.
      * rewrite IH. reflexivity.
      * exact E.
      * destruct (escape_body s); discriminate.
Qed.

End Escaping.




(** ** C9: coffee breaks longer than the session *)

Lemma place_coffee_too_long (n : nat) (ws : work_session)
    (work_duration break_duration : Z) (breaks : list break_interval)
    (r : rng) :
  work_duration < break_duration * 60 ->
  place_coffee (S n) ws work_duration break_duration breaks r
  = Raise ValueError.
Proof.
  intros H. cbn [place_coffee]. apply bind_Raise, randint_empty. lia.
Qed.

Lemma coffee_loop_too_long (n : nat) (ws : work_session) (work_duration : Z)
    (range : Z * Z) (breaks : list break_interval) (r : rng) :
  Exists (fun bd => work_duration < bd * 60)
    (coffee_durations n ws work_duration range breaks r) ->
  coffee_loop n ws work_duration range breaks r = Raise ValueError.
Proof.
  revert breaks r. induction n as [| n IH]; intros breaks r E.
  - inversion E.
  - cbn [coffee_durations] in E. cbn [coffee_loop].
    unfold coffee_break, bind at 1 2.
    destruct (randint (fst range) (snd range) r) as [[bd r1] | e |];
      [| inversion E | inversion E].
    apply Exists_cons in E. destruct E as [E | E].
    + rewrite place_coffee_too_long by exact E. reflexivity.
    + destruct (place_coffee 10 ws work_duration bd breaks r1)
        as [[breaks' r2] | e |]; [| inversion E | inversion E].
      apply IH. exact E.
Qed.

Lemma generate_breaks_too_long (p : user_profile) (ws : work_session)
    (r : rng) :
  Exists (fun bd => work_duration_of ws < bd * 60)
    (drawn_coffee_durations p ws r) ->
  generate_breaks p ws r = Raise ValueError.
Proof.
  unfold drawn_coffee_durations, generate_breaks. intros E.
  unfold bind at 1.
  destruct (lunch_break p ws r) as [[breaks r1] | e |];
    [| inversion E | inversion E].
  unfold bind at 1.
  destruct (randint _ _ r1) as [[num r2] | e |];
    [| inversion E | inversion E].
  apply bind_Raise, coffee_loop_too_long. exact E.
Qed.

Lemma work_duration_exact (ws : work_session) :
  0 <= ws_end ws - ws_start ws < 86400 ->
  work_duration_of ws = ws_end ws - ws_start ws.
Proof. intros H. unfold work_duration_of, seconds. apply Z.mod_small, H. Qed.

(** C9 (as amended): on a session whose length is in [0, 1 day), the
    scheduler raises [ValueError] as soon as it draws a coffee-break
    duration whose seconds exceed the duration of the session, the placement
    draw being made on an empty range; so on such a session it returns only
    when every duration drawn fits. *)
Theorem generate_breaks_raises_on_long_coffee (p : user_profile)
    (ws : work_session) (r : rng) :
  0 <= ws_end ws - ws_start ws < 86400 ->
  (Exists (fun bd => ws_end ws - ws_start ws < bd * 60)
     (drawn_coffee_durations p ws r) ->
   generate_breaks p ws r = Raise ValueError)
  /\ (forall breaks r',
         generate_breaks p ws r = Ret (breaks, r') ->
         Forall (fun bd => bd * 60 <= ws_end ws - ws_start ws)
           (drawn_coffee_durations p ws r)).
Proof.
  intros L. rewrite <- (work_duration_exact ws L).
  split; [apply generate_breaks_too_long |].
  intros breaks r' E.
  apply Forall_forall. intros bd I.
  destruct (Z_le_gt_dec (bd * 60) (work_duration_of ws)) as [Le | G];
    [exact Le |].
  rewrite generate_breaks_too_long in E; [discriminate |].
  apply Exists_exists. exists bd. split; [exact I | lia].
Qed.

(** A one-hour day with 90-minute coffee breaks raises on every stream. *)
Lemma ninety_minute_coffee_drawn (r : rng) :
  drawn_coffee_durations (short_day_profile 90 chrome_only)
    (session_of monday_17 9 10) r = [90].
Proof.
  unfold drawn_coffee_durations.
  change (lunch_break (short_day_profile 90 chrome_only)
            (session_of monday_17 9 10) r) with (Ret (@nil break_interval, r)).
  cbv beta iota.
  change (randint _ _ r) with (randint 1 1 r).
  rewrite randint_point.
  change (Z.to_nat 1) with 1%nat. cbn [coffee_durations].
  change (randint _ _ (rest r)) with (randint 90 90 (rest r)).
  rewrite randint_point.
  rewrite place_coffee_too_long by (vm_compute; reflexivity).
  reflexivity.
Qed.

Example ninety_minute_coffee_raises (r : rng) :
  generate_breaks (short_day_profile 90 chrome_only)
    (session_of monday_17 9 10) r = Raise ValueError.
Proof.
  apply generate_breaks_too_long. rewrite ninety_minute_coffee_drawn.
  constructor. vm_compute. reflexivity.
Qed.

Lemma generate_breaks_raises_on_long_coffee_witness :
  let p := short_day_profile 90 chrome_only in
  let ws := session_of monday_17 9 10 in
  0 <= ws_end ws - ws_start ws < 86400
  /\ drawn_coffee_durations p ws zeros = [90]
  /\ ws_end ws - ws_start ws < 90 * 60
  /\ generate_breaks p ws zeros = Raise ValueError.
Proof.
  assert (L : 0 <= ws_end (session_of monday_17 9 10)
                   - ws_start (session_of monday_17 9 10) < 86400)
    by (vm_compute; split; [discriminate | reflexivity]).
  split; [exact L |].
  split; [apply ninety_minute_coffee_drawn |].
  split; [reflexivity |].
  apply (generate_breaks_raises_on_long_coffee
           (short_day_profile 90 chrome_only) (session_of monday_17 9 10)
           zeros L).
  rewrite ninety_minute_coffee_drawn. constructor. reflexivity.
Defined.

(** C9 fails as stated: work hours 09:00-09:30 with 30 minutes of variance
    give, on a stream that draws +30 for the start and -30 for the end, a
    session from 09:30 to 09:00, of -1800 seconds, which the scheduler
    measures as 84600.  The 10-minute coffee break it draws exceeds the
    duration of the session, and the scheduler places it and returns. *)
Lemma backwards_session_coffee_returns :
  exists ws r1 breaks r2,
    generate_work_session half_hour_profile monday_17 late_start
    = Ret (Some ws, r1)
    /\ ws_end ws - ws_start ws = -1800
    /\ work_duration_of ws = 84600
    /\ drawn_coffee_durations half_hour_profile ws r1 = [10]
    /\ ws_end ws - ws_start ws < 10 * 60
    /\ generate_breaks half_hour_profile ws r1 = Ret (breaks, r2)
    /\ Exists (fun b => brk_type b = coffee /\ ws_end ws < brk_start b) breaks.
Proof.
  eexists. eexists. eexists. eexists.
  split; [vm_compute; reflexivity |].
  split; [reflexivity |].
  split; [reflexivity |].
  split; [vm_compute; reflexivity |].
  split; [reflexivity |].
  split; [vm_compute; reflexivity |].
  apply Exists_cons_hd. split; [reflexivity | vm_compute; reflexivity].
Qed.

(** ** The invariant of the break list *)

Lemma overlap_sym (a b : break_interval) : ~ overlap a b -> ~ overlap b a.
Proof. unfold overlap. tauto. Qed.

Lemma FOP_snoc {A} (R : A -> A -> Prop) (l : list A) (x : A) :
  ForallOrdPairs R l -> Forall (fun a => R a x) l ->
  ForallOrdPairs R (l ++ [x]).
Proof.
  induction 1 as [| a l Ha Hl IH]; intros F; cbn.
  - constructor; constructor.
  - inversion F as [| ? ? Fa Fl]; subst. constructor.
    + apply Forall_app. split; [exact Ha | constructor; [exact Fa | constructor]].
    + apply IH. exact Fl.
Qed.

Lemma insert_break_perm (b : break_interval) (l : list break_interval) :
  Permutation (b :: l) (insert_break b l).
Proof.
  induction l as [| x l IH]; cbn; [apply Permutation_refl |].
  destruct (brk_start b <=? brk_start x); [apply Permutation_refl |].
  eapply perm_trans; [apply perm_swap | apply perm_skip, IH].
Qed.

Lemma sort_breaks_perm (l : list break_interval) :
  Permutation l (sort_breaks l).
Proof.
  induction l as [| b l IH]; cbn; [constructor |].
  eapply perm_trans; [apply perm_skip, IH | apply insert_break_perm].
Qed.

Lemma insert_break_sorted (b : break_interval) (l : list break_interval) :
  Sorted by_start l -> Sorted by_start (insert_break b l).
Proof.
  induction 1 as [| x l S IH H]; cbn; [repeat constructor |].
  destruct (Z.leb_spec (brk_start b) (brk_start x)) as [L | G].
  - constructor; [constructor; assumption | constructor; exact L].
  - constructor; [exact IH |].
    destruct l as [| y l]; cbn.
    + constructor. unfold by_start. lia.
    + destruct (Z.leb_spec (brk_start b) (brk_start y)).
      * constructor. unfold by_start. lia.
      * constructor. inversion H; subst. assumption.
Qed.

Lemma sort_breaks_sorted (l : list break_interval) :
  Sorted by_start (sort_breaks l).
Proof.
  induction l as [| b l IH]; cbn; [constructor |].
  apply insert_break_sorted, IH.
Qed.

Lemma insert_break_FOP (R : break_interval -> break_interval -> Prop)
    (b : break_interval) (l : list break_interval) :
  (forall x y, R x y -> R y x) ->
  ForallOrdPairs R l -> Forall (R b) l ->
  ForallOrdPairs R (insert_break b l).
Proof.
  intros Sym. induction 1 as [| x l Hx Hl IH]; intros F; cbn.
  - constructor; constructor.
  - inversion F as [| ? ? Fx Fl]; subst.
    destruct (brk_start b <=? brk_start x).
    + constructor; [exact F | constructor; assumption].
    + constructor; [| apply IH; exact Fl].
      eapply Permutation_Forall; [apply insert_break_perm |].
      constructor; [apply Sym, Fx | exact Hx].
Qed.

Lemma sort_breaks_FOP (R : break_interval -> break_interval -> Prop)
    (l : list break_interval) :
  (forall x y, R x y -> R y x) ->
  ForallOrdPairs R l -> ForallOrdPairs R (sort_breaks l).
Proof.
  intros Sym. induction 1 as [| x l Hx Hl IH]; cbn; [constructor |].
  apply insert_break_FOP; [exact Sym | exact IH |].
  eapply Permutation_Forall; [apply sort_breaks_perm | exact Hx].
Qed.

Lemma sort_breaks_wf (ws : work_session) (l : list break_interval) :
  ForallOrdPairs (fun a b => ~ overlap a b) l ->
  Forall (within ws) l ->
  breaks_wf ws (sort_breaks l).
Proof.
  intros P W. split; [apply sort_breaks_sorted |]. split.
  - apply sort_breaks_FOP; [intros x y; apply overlap_sym | exact P].
  - eapply Permutation_Forall; [apply sort_breaks_perm | exact W].
Qed.

Lemma not_overlaps_existing (start duration : Z)
    (breaks : list break_interval) (ty : segment_type) :
  existsb (overlaps_existing start duration) breaks = false ->
  Forall (fun a => ~ overlap a {| brk_start := start;
                                  brk_end := start + duration;
                                  brk_type := ty |}) breaks.
Proof.
  induction breaks as [| e l IH]; cbn; intros H; [constructor |].
  apply orb_false_elim in H. destruct H as [He Hl].
  constructor; [| apply IH, Hl].
  unfold overlaps_existing in He. unfold overlap. cbn.
  rewrite Z.gtb_ltb in He.
  apply andb_false_elim in He.
  destruct He as [He | He]; apply Z.ltb_ge in He; lia.
Qed.

Lemma place_coffee_placed (n : nat) (ws : work_session)
    (break_duration : Z) (breaks : list break_interval) (r : rng) :
  0 <= ws_end ws - ws_start ws < 86400 ->
  0 <= break_duration ->
  60 * break_duration <= work_duration_of ws ->
  placed ws breaks ->
  exists breaks' r',
    place_coffee n ws (work_duration_of ws) break_duration breaks r
    = Ret (breaks', r')
    /\ placed ws breaks'.
Proof.
  intros Hws H0 Hfit. rewrite (work_duration_exact ws Hws) in *.
  revert r. induction n as [| n IH]; intros r P.
  - exists breaks, r. split; [reflexivity | exact P].
  - cbn [place_coffee].
    set (wd := ws_end ws - ws_start ws) in *.
    rewrite (bind_Ret _ _ r (rest r) (0 + r O mod (wd - break_duration * 60 - 0 + 1)))
      by (apply randint_ok; lia).
    pose proof (randint_value_bounds 0 (wd - break_duration * 60) (r O)
                  ltac:(lia)) as B.
    set (off := 0 + r O mod (wd - break_duration * 60 - 0 + 1)) in *.
    clearbody off.
    destruct (existsb _ breaks) eqn:E; [apply IH; exact P |].
    eexists. eexists. split; [reflexivity |].
    destruct P as [P W]. split.
    + apply FOP_snoc; [exact P |].
      apply not_overlaps_existing, E.
    + apply Forall_app. split; [exact W |].
      constructor; [| constructor].
      unfold within, minutes. cbn [brk_start brk_end]. subst wd. lia.
Qed.

Lemma coffee_loop_placed (n : nat) (ws : work_session) (range : Z * Z)
    (breaks : list break_interval) (r : rng) :
  0 <= ws_end ws - ws_start ws < 86400 ->
  (n <> O -> 0 <= fst range <= snd range
             /\ 60 * snd range <= work_duration_of ws) ->
  placed ws breaks ->
  exists breaks' r',
    coffee_loop n ws (work_duration_of ws) range breaks r = Ret (breaks', r')
    /\ placed ws breaks'.
Proof.
  intros Hws. revert breaks r. induction n as [| n IH]; intros breaks r R P.
  - exists breaks, r. split; [reflexivity | exact P].
  - destruct R as [R1 R2]; [discriminate |].
    cbn [coffee_loop]. unfold coffee_break.
    pose proof (randint_value_bounds (fst range) (snd range) (r O)
                  ltac:(lia)) as B.
    set (bd := fst range + r O mod (snd range - fst range + 1)) in *.
    destruct (place_coffee_placed 10 ws bd breaks (rest r) Hws)
      as (breaks1 & r1 & E1 & P1); [lia | lia | exact P |].
    destruct (IH breaks1 r1) as (breaks2 & r2 & E2 & P2);
      [intros _; split; assumption | exact P1 |].
    exists breaks2, r2. split; [| exact P2].
    unfold bind at 1.
    rewrite (bind_Ret _ _ r (rest r) bd) by (apply randint_ok; lia).
    rewrite E1. exact E2.
Qed.

Lemma lunch_break_placed (p : user_profile) (ws : work_session) (r : rng) :
  breaks_fit p ws ->
  exists breaks r',
    lunch_break p ws r = Ret (breaks, r') /\ placed ws breaks.
Proof.
  intros (Hws & HL & _). unfold lunch_break.
  pose proof (work_duration_exact ws Hws) as D.
  destruct (Z.gtb_spec (work_duration_of ws) (4 * 3600)) as [G | G].
  - destruct (HL G) as [HR HF]. clear HL.
    set (wd := work_duration_of ws) in *.
    set (lo := fst (lunch_minutes (afk_behavior p))) in *.
    set (hi := snd (lunch_minutes (afk_behavior p))) in *.
    assert (HO : 0 <= lunch_offset_lo wd <= lunch_offset_hi wd).
    { unfold lunch_offset_lo, lunch_offset_hi. split.
      - apply Z.div_pos; lia.
      - pose proof (Z.div_mod (3 * wd) 10 ltac:(lia)).
        pose proof (Z.mod_pos_bound (3 * wd) 10 ltac:(lia)).
        pose proof (Z.div_mod wd 2 ltac:(lia)).
        pose proof (Z.mod_pos_bound wd 2 ltac:(lia)). lia. }
    pose proof (randint_value_bounds lo hi (r O) ltac:(lia)) as B1.
    pose proof (randint_value_bounds (lunch_offset_lo wd) (lunch_offset_hi wd)
                  (rest r O) ltac:(lia)) as B2.
    rewrite (bind_Ret _ _ r (rest r) _ (randint_ok lo hi r ltac:(lia))).
    rewrite (bind_Ret _ _ (rest r) (rest (rest r)) _
               (randint_ok (lunch_offset_lo wd) (lunch_offset_hi wd) (rest r)
                  ltac:(lia))).
    set (ld := lo + r O mod (hi - lo + 1)) in *.
    set (off := lunch_offset_lo wd + _) in *. clearbody ld off.
    eexists. eexists. split; [reflexivity |]. split.
    + constructor; constructor.
    + constructor; [| constructor].
      unfold within, minutes. cbn [brk_start brk_end]. lia.
  - exists [], r. split; [reflexivity |].
    split; constructor.
Qed.

(** Under [breaks_fit] the scheduler returns a sorted list of pairwise
    non-overlapping breaks within the session. *)
Lemma generate_breaks_wf (p : user_profile) (ws : work_session) (r : rng) :
  breaks_fit p ws ->
  exists breaks r',
    generate_breaks p ws r = Ret (breaks, r') /\ breaks_wf ws breaks.
Proof.
  intros F. pose proof F as (Hws & _ & HC & HD).
  destruct (lunch_break_placed p ws r F) as (b1 & r1 & E1 & P1).
  set (clo := fst (coffee_breaks (afk_behavior p))) in *.
  set (chi := snd (coffee_breaks (afk_behavior p))) in *.
  pose proof (randint_value_bounds clo chi (r1 O) HC) as B.
  set (num := clo + r1 O mod (chi - clo + 1)) in *.
  destruct (coffee_loop_placed (Z.to_nat num) ws
              (break_duration_minutes (afk_behavior p)) b1 (rest r1) Hws)
    as (b2 & r2 & E2 & P2); [| exact P1 |].
  { intros N. apply HD. lia. }
  exists (sort_breaks b2), r2. split.
  - unfold generate_breaks. rewrite (bind_Ret _ _ r r1 b1 E1).
    fold clo chi.
    rewrite (bind_Ret _ _ r1 (rest r1) num (randint_ok clo chi r1 HC)).
    rewrite (bind_Ret _ _ (rest r1) r2 b2 E2). reflexivity.
  - destruct P2. apply sort_breaks_wf; assumption.
Qed.


(** *** Whenever the scheduler returns *)





Lemma breaks_fit_contained (p : user_profile) (ws : work_session) :
  breaks_fit p ws -> breaks_contained p ws.
Proof.
  intros (Hws & HL & _ & HD). split; [exact Hws |]. split.
  - intros G. destruct (HL G). lia.
  - intros C. destruct (HD C). lia.
Qed.

(** ** C5: the break list *)



(** With the stream [always_at_lunch] the coffee break of
    [one_coffee_profile] is dropped: only the lunch is returned. *)
Example coffee_break_dropped :
  exists r',
    generate_breaks one_coffee_profile (session_of monday_17 9 17)
      always_at_lunch
    = Ret ([{| brk_start := ws_start (session_of monday_17 9 17) + 8640;
               brk_end := ws_start (session_of monday_17 9 17) + 8640 + 3600;
               brk_type := lunch |}], r').
Proof. eexists. vm_compute. reflexivity. Qed.


(** ** C3: the presence partition *)

Lemma sum_Z_app (l1 l2 : list Z) : sum_Z (l1 ++ l2) = sum_Z l1 + sum_Z l2.
Proof.
  unfold sum_Z. induction l1 as [| x l1 IH]; cbn; [reflexivity | lia].
Qed.

Lemma total_duration_app (l1 l2 : list afk_status) :
  total_duration (l1 ++ l2) = total_duration l1 + total_duration l2.
Proof. unfold total_duration. rewrite map_app. apply sum_Z_app. Qed.

(** A segment that does not run backwards contributes its length. *)
Lemma segment_statuses_duration (sg : segment) :
  seg_start sg <= seg_end sg ->
  total_duration (segment_statuses sg) = seg_end sg - seg_start sg.
Proof.
  intros H. unfold segment_statuses, total_seconds, total_duration.
  destruct (seg_type sg).
  - destruct (Z.gtb_spec (seg_end sg - seg_start sg) 0); cbn; lia.
  - cbn. lia.
  - destruct (seg_end sg - seg_start sg <? 600); cbn; lia.
Qed.

Lemma work_segments_duration (breaks : list break_interval)
    (last_end end_time : datetime) :
  chained last_end breaks end_time ->
  total_duration
    (flat_map segment_statuses (work_segments_from last_end end_time breaks))
  = end_time - last_end.
Proof.
  revert last_end. induction breaks as [| b l IH]; intros last_end C.
  - cbn in C. cbn [work_segments_from].
    destruct (Z.ltb_spec last_end end_time) as [L | L].
    + cbn [flat_map]. rewrite app_nil_r.
      rewrite segment_statuses_duration; cbn; lia.
    + cbn. lia.
  - destruct C as (C1 & C2 & C3). cbn [work_segments_from].
    rewrite flat_map_app, total_duration_app. cbn [flat_map].
    rewrite total_duration_app, (IH _ C3).
    rewrite segment_statuses_duration by (cbn; lia). cbn [seg_start seg_end].
    destruct (Z.gtb_spec (brk_start b) last_end) as [G | G].
    + cbn [flat_map]. rewrite app_nil_r.
      rewrite segment_statuses_duration; cbn; lia.
    + cbn. lia.
Qed.




(** ** The draws of the activity loop *)

Lemma accumulate_from_length (acc : Z) (ws : list Z) :
  length (accumulate_from acc ws) = length ws.
Proof.
  revert acc. induction ws as [| w ws IH]; intros acc; cbn;
    [reflexivity | now rewrite IH].
Qed.

Lemma accumulate_from_last (acc d : Z) (ws : list Z) :
  Forall (fun w => 1 <= w) ws -> ws <> [] ->
  acc < last (accumulate_from acc ws) d.
Proof.
  intros F. revert acc. induction F as [| w ws Hw F IH]; intros acc N;
    [congruence |].
  cbn [accumulate_from]. destruct ws as [| w' ws].
  - cbn. lia.
  - specialize (IH (acc + w) ltac:(discriminate)).
    cbn [accumulate_from last] in *. lia.
Qed.

Lemma app_weights_positive (p : user_profile) :
  Forall (fun w => 1 <= w) (app_weights_of p).
Proof.
  unfold app_weights_of. rewrite !Forall_app.
  repeat split; apply Forall_forall; intros w I;
    apply repeat_spec in I; lia.
Qed.

Lemma app_weights_length (p : user_profile) :
  has_apps p -> length (app_weights_of p) = length (all_apps_of p).
Proof.
  unfold has_apps, app_weights_of, all_apps_of. intros H.
  destruct (productive (apps p) ++ neutral (apps p) ++ unproductive (apps p))%list
    as [| a l] eqn:E; [congruence |].
  rewrite <- E, !length_app, !repeat_length. reflexivity.
Qed.

Lemma choices_ok (p : user_profile) (r : rng) :
  has_apps p ->
  exists app, choices (all_apps_of p) (app_weights_of p) r = Ret (app, rest r).
Proof.
  intros H. pose proof (app_weights_length p H) as L.
  unfold choices, accumulate. rewrite accumulate_from_length, L, Nat.eqb_refl.
  cbn [negb].
  destruct (all_apps_of p) as [| x l] eqn:E.
  - unfold has_apps in H. unfold all_apps_of in E.
    destruct (productive (apps p) ++ neutral (apps p) ++ unproductive (apps p))%list;
      [congruence | discriminate].
  - assert (N : app_weights_of p <> []).
    { intros Z. rewrite Z in L. discriminate. }
    pose proof (accumulate_from_last 0 0 _ (app_weights_positive p) N) as T.
    destruct (Z.leb_spec (last (accumulate_from 0 (app_weights_of p)) 0) 0);
      [lia |].
    eexists. reflexivity.
Qed.

Lemma lookup_titles_nonempty (app : string) (titles : list string)
    (table : list (string * list string)) :
  Forall (fun e => snd e <> []) table ->
  lookup_titles app table = Some titles -> titles <> [].
Proof.
  induction 1 as [| [name ts] table He _ IH]; cbn; [discriminate |].
  destruct (String.eqb app name); [| exact IH].
  intros E. injection E as <-. exact He.
Qed.

Lemma WINDOW_TITLES_nonempty : Forall (fun e => snd e <> []) WINDOW_TITLES.
Proof. unfold WINDOW_TITLES. repeat constructor; discriminate. Qed.

Lemma get_window_title_ok (app : string) (r : rng) :
  exists title r', get_window_title app r = Ret (title, r').
Proof.
  unfold get_window_title.
  destruct (lookup_titles app WINDOW_TITLES) as [titles |] eqn:E.
  - pose proof (lookup_titles_nonempty _ _ _ WINDOW_TITLES_nonempty E) as N.
    destruct titles as [| t ts]; [congruence |].
    eexists. eexists. reflexivity.
  - eexists. eexists. reflexivity.
Qed.

Lemma draw_duration_ok (avg_switches : Q) (r : rng) :
  exists d, draw_duration avg_switches r = Ret (d, rest r) /\ 30 <= d <= 900.
Proof.
  unfold draw_duration.
  destruct (Qltb 80 avg_switches); [| destruct (Qltb 50 avg_switches)].
  - exists (30 + r O mod (180 - 30 + 1)).
    split; [apply randint_ok; lia |].
    pose proof (randint_value_bounds 30 180 (r O) ltac:(lia)). lia.
  - exists (60 + r O mod (300 - 60 + 1)).
    split; [apply randint_ok; lia |].
    pose proof (randint_value_bounds 60 300 (r O) ltac:(lia)). lia.
  - exists (180 + r O mod (900 - 180 + 1)).
    split; [apply randint_ok; lia |].
    pose proof (randint_value_bounds 180 900 (r O) ltac:(lia)). lia.
Qed.

(** ** The scans of the break list *)

Lemma by_start_trans : Relations_1.Transitive by_start.
Proof. intros a b c. unfold by_start. lia. Qed.

Lemma next_break_is_first (cur : datetime) (breaks : list break_interval)
    (nb : break_interval) :
  StronglySorted by_start breaks ->
  find (starts_after cur) breaks = Some nb ->
  cur < brk_start nb
  /\ forall b, In b breaks -> cur < brk_start b -> brk_start nb <= brk_start b.
Proof.
  induction 1 as [| x l S IH F]; cbn; [discriminate |].
  unfold starts_after at 1. rewrite Z.gtb_ltb.
  destruct (Z.ltb_spec cur (brk_start x)) as [L | L].
  - intros E. injection E as <-. split; [exact L |].
    intros b [<- | I] _; [lia |].
    rewrite Forall_forall in F. apply (F b I).
  - intros E. destruct (IH E) as [H1 H2]. split; [exact H1 |].
    intros b [<- | I] Hb; [lia | apply H2; assumption].
Qed.

Lemma no_next_break (cur : datetime) (breaks : list break_interval) :
  find (starts_after cur) breaks = None ->
  forall b, In b breaks -> brk_start b <= cur.
Proof.
  intros E b I. pose proof (find_none _ _ E b I) as H.
  unfold starts_after in H. rewrite Z.gtb_ltb in H.
  apply Z.ltb_ge in H. exact H.
Qed.

Lemma not_in_break (cur : datetime) (b : break_interval) :
  in_break cur b = false -> cur < brk_start b \/ brk_end b <= cur.
Proof.
  unfold in_break. rewrite Z.geb_leb. intros H.
  apply andb_false_elim in H.
  destruct H as [H | H]; [apply Z.leb_gt in H | apply Z.ltb_ge in H]; lia.
Qed.

(** The event that starts outside the breaks is clipped to a positive
    duration that ends by the session end and before any break is met. *)
Lemma clip_duration_spec (d0 : Z) (end_time cur : datetime)
    (breaks : list break_interval) :
  0 < d0 -> cur < end_time -> end_time - cur < 86400 ->
  StronglySorted by_start breaks ->
  Forall (fun b => brk_start b <= brk_end b <= end_time) breaks ->
  find (in_break cur) breaks = None ->
  let d := clip_duration d0 end_time cur breaks in
  0 < d /\ cur + d <= end_time
  /\ Forall (fun b => brk_end b <= cur \/ cur + d <= brk_start b) breaks.
Proof.
  intros Hd Hc Hday S W N d.
  assert (R : seconds (end_time - cur) = end_time - cur)
    by (apply Z.mod_small; lia).
  rewrite Forall_forall in W.
  pose proof (find_none _ _ N) as NB.
  subst d. unfold clip_duration. rewrite R.
  destruct (find (starts_after cur) breaks) as [nb |] eqn:E.
  - destruct (next_break_is_first cur breaks nb S E) as [H1 H2].
    pose proof (find_some _ _ E) as [I _]. pose proof (W nb I) as Wn.
    assert (R' : seconds (brk_start nb - cur) = brk_start nb - cur)
      by (apply Z.mod_small; lia).
    rewrite R'. split; [lia |]. split; [lia |].
    apply Forall_forall. intros b Ib.
    destruct (not_in_break cur b (NB b Ib)) as [B | B]; [| left; exact B].
    right. specialize (H2 b Ib B). lia.
  - split; [lia |]. split; [lia |].
    apply Forall_forall. intros b Ib.
    pose proof (no_next_break cur breaks E b Ib).
    destruct (not_in_break cur b (NB b Ib)); [lia | left; assumption].
Qed.

(** ** The activity loop *)

Lemma window_loop_tiles (p : user_profile) (end_time : datetime)
    (breaks : list break_interval) :
  has_apps p ->
  StronglySorted by_start breaks ->
  Forall (fun b => brk_start b <= brk_end b <= end_time) breaks ->
  forall (fuel : nat) (cur : datetime) (app : string)
         (acc : list activity) (r : rng),
    cur <= end_time -> end_time - cur < 86400 ->
    (Z.to_nat (end_time - cur) <= fuel)%nat ->
    exists suffix r',
      window_loop fuel p end_time breaks cur app acc r
      = Ret ((acc ++ suffix)%list, r')
      /\ tiles breaks cur suffix end_time.
Proof.
  intros HA S W. induction fuel as [| fuel IH]; intros cur app acc r Hc Hd Hf.
  - assert (cur = end_time) as -> by lia.
    exists [], r. cbn [window_loop]. rewrite Z.ltb_irrefl, app_nil_r.
    split; [reflexivity | constructor].
  - cbn [window_loop].
    destruct (Z.ltb_spec cur end_time) as [L | L].
    2:{ assert (cur = end_time) as -> by lia.
        exists [], r. rewrite app_nil_r. split; [reflexivity | constructor]. }
    destruct (find (in_break cur) breaks) as [b |] eqn:Eb.
    + (* the cursor stands in a break *)
      destruct (find_some _ _ Eb) as [Ib Hb].
      unfold in_break in Hb. rewrite Z.geb_leb in Hb.
      apply andb_prop in Hb. destruct Hb as [Hb1 Hb2].
      apply Z.leb_le in Hb1. apply Z.ltb_lt in Hb2.
      rewrite Forall_forall in W. pose proof (W b Ib) as Wb.
      destruct (IH (brk_end b) app acc r) as (suffix & r' & E & T);
        [lia | lia | lia |].
      exists suffix, r'. split; [exact E |].
      apply (tiles_jump breaks cur end_time b suffix Ib); [lia | exact T].
    + (* an event starts at the cursor *)
      destruct (draw_duration_ok (avg_switches_of p) r) as (d0 & Ed & Bd).
      rewrite (bind_Ret _ _ r (rest r) d0 Ed). cbv zeta.
      destruct (clip_duration_spec d0 end_time cur breaks
                  ltac:(lia) L Hd S W Eb) as (D1 & D2 & D3).
      set (d := clip_duration d0 end_time cur breaks) in *. clearbody d.
      rewrite Z.gtb_ltb. destruct (Z.ltb_spec 0 d) as [_ | G]; [| lia].
      destruct (get_window_title_ok app (rest r)) as (title & r2 & Et).
      rewrite (bind_Ret _ _ (rest r) r2 title Et).
      set (a := {| act_app := app; act_title := title;
                   act_duration := d; act_timestamp := cur |}).
      unfold bind at 1. unfold random at 1.
      assert (Step : forall app' r3,
                 exists suffix r',
                   window_loop fuel p end_time breaks (cur + d) app'
                     (acc ++ [a])%list r3 = Ret ((acc ++ suffix)%list, r')
                   /\ tiles breaks cur suffix end_time).
      { intros app' r3.
        destruct (IH (cur + d) app' (acc ++ [a])%list r3)
          as (suffix & r' & E & T); [lia | lia | lia |].
        exists (a :: suffix), r'. split.
        - rewrite E, <- app_assoc. reflexivity.
        - apply tiles_event; [reflexivity | exact D1 | exact D3 | exact T]. }
      destruct (Qltb _ (switch_probability_of (avg_switches_of p))).
      * destruct (choices_ok p (rest r2) HA) as (app' & Ec).
        rewrite (bind_Ret _ _ (rest r2) (rest (rest r2)) app' Ec).
        apply Step.
      * apply Step.
Qed.

(** ** From the trace to the partition *)

Lemma count_cons {A} (f : A -> bool) (x : A) (l : list A) :
  count f (x :: l) = ((if f x then 1 else 0) + count f l)%nat.
Proof. unfold count. cbn. destruct (f x); reflexivity. Qed.

Lemma count_none {A} (f : A -> bool) (l : list A) :
  Forall (fun x => f x = false) l -> count f l = 0%nat.
Proof.
  induction 1 as [| x l Hx _ IH]; [reflexivity |].
  rewrite count_cons, Hx, IH. reflexivity.
Qed.

Lemma count_some {A} (f : A -> bool) (l : list A) (x : A) :
  In x l -> f x = true -> (1 <= count f l)%nat.
Proof.
  induction l as [| y l IH]; intros I H; [destruct I |].
  rewrite count_cons. destruct I as [-> | I].
  - rewrite H. lia.
  - specialize (IH I H). lia.
Qed.

Lemma in_break_iff (t : datetime) (b : break_interval) :
  in_break t b = true <-> brk_start b <= t < brk_end b.
Proof.
  unfold in_break. rewrite Z.geb_leb, andb_true_iff, Z.leb_le, Z.ltb_lt.
  tauto.
Qed.

Lemma in_event_iff (t : datetime) (a : activity) :
  in_event t a = true
  <-> act_timestamp a <= t < act_timestamp a + act_duration a.
Proof.
  unfold in_event. rewrite andb_true_iff, Z.leb_le, Z.ltb_lt. tauto.
Qed.

(** Breaks that do not overlap pairwise never share an instant. *)
Lemma count_in_break_le_1 (t : datetime) (breaks : list break_interval) :
  ForallOrdPairs (fun a b => ~ overlap a b) breaks ->
  (count (in_break t) breaks <= 1)%nat.
Proof.
  induction 1 as [| b l Hb _ IH]; [cbn; lia |].
  rewrite count_cons. destruct (in_break t b) eqn:E; [| lia].
  rewrite count_none; [lia |].
  apply in_break_iff in E.
  eapply Forall_impl; [| exact Hb]. cbn. intros x Hx.
  destruct (in_break t x) eqn:Ex; [| reflexivity].
  apply in_break_iff in Ex. exfalso. apply Hx. unfold overlap. lia.
Qed.

Lemma tiles_le (breaks : list break_interval) (cur c : datetime)
    (activities : list activity) :
  tiles breaks cur activities c -> cur <= c.
Proof. induction 1; lia. Qed.

Lemma tiles_cover (breaks : list break_interval) (cur c : datetime)
    (activities : list activity) :
  ForallOrdPairs (fun a b => ~ overlap a b) breaks ->
  tiles breaks cur activities c ->
  forall t,
    (cur <= t < c ->
     (count (in_event t) activities + count (in_break t) breaks = 1)%nat)
    /\ (t < cur \/ c <= t -> count (in_event t) activities = 0%nat).
Proof.
  intros P. induction 1 as [c | cur c b acts Ib Hb T IH | cur c a acts Ha Hd F T IH];
    intros t.
  - split; [lia | reflexivity].
  - pose proof (tiles_le _ _ _ _ T) as Le.
    destruct (IH t) as [IH1 IH2]. split; [| intros H; apply IH2; lia].
    intros H. destruct (Z_lt_ge_dec t (brk_end b)) as [Lt | Ge];
      [| apply IH1; lia].
    rewrite IH2 by lia.
    pose proof (count_in_break_le_1 t breaks P).
    assert (in_break t b = true) as Hin by (apply in_break_iff; lia).
    pose proof (count_some _ _ _ Ib Hin). lia.
  - pose proof (tiles_le _ _ _ _ T) as Le.
    destruct (IH t) as [IH1 IH2]. rewrite count_cons.
    destruct (in_event t a) eqn:E.
    + apply in_event_iff in E. rewrite Ha in E. split; [| lia].
      intros _. rewrite IH2 by lia.
      rewrite count_none; [reflexivity |].
      eapply Forall_impl; [| exact F]. cbn. intros x Hx.
      destruct (in_break t x) eqn:Ex; [| reflexivity].
      apply in_break_iff in Ex. lia.
    + assert (t < cur \/ cur + act_duration a <= t) as O.
      { destruct (Z_lt_ge_dec t cur); [left; assumption | right].
        destruct (Z_lt_ge_dec t (cur + act_duration a)); [| lia].
        assert (in_event t a = true) by (apply in_event_iff; lia).
        congruence. }
      split; intros H; [apply IH1; lia | apply IH2; lia].
Qed.

Lemma tiles_no_span (breaks : list break_interval) (cur c : datetime)
    (activities : list activity) :
  Forall (fun b => brk_start b <= brk_end b) breaks ->
  tiles breaks cur activities c ->
  forall a b, In a activities -> In b breaks -> ~ spans_boundary a b.
Proof.
  intros W. induction 1 as [c | cur c b0 acts Ib Hb T IH | cur c a0 acts Ha Hd F T IH];
    intros a b Ia Ib'.
  - destruct Ia.
  - apply IH; assumption.
  - destruct Ia as [<- | Ia]; [| apply IH; assumption].
    rewrite Forall_forall in F, W.
    specialize (F b Ib'). specialize (W b Ib').
    unfold spans_boundary. rewrite Ha. lia.
Qed.

(** ** From the trace to the seconds *)

Lemma passed_cons (b : break_interval) (l : list break_interval) (c : Z) :
  passed (b :: l) c
  = Z.min (brk_end b) c - Z.min (brk_start b) c + passed l c.
Proof. reflexivity. Qed.

(** An interval that does not meet [cur, c) has as much time before [c]
    as before [cur]. *)
Lemma passed_same (l : list break_interval) (cur c : datetime) :
  Forall (fun b => brk_start b <= brk_end b
                   /\ (brk_end b <= cur \/ c <= brk_start b)) l ->
  cur <= c ->
  passed l c = passed l cur.
Proof.
  induction 1 as [| b l Hb _ IH]; intros Le; [reflexivity |].
  rewrite !passed_cons, IH by exact Le. lia.
Qed.

Lemma passed_jump (breaks : list break_interval) (b : break_interval)
    (cur : datetime) :
  ForallOrdPairs (fun x y => ~ overlap x y) breaks ->
  Forall (fun x => brk_start x <= brk_end x) breaks ->
  In b breaks ->
  brk_start b <= cur < brk_end b ->
  passed breaks (brk_end b) - passed breaks cur = brk_end b - cur.
Proof.
  intros P. induction P as [| x l Hx _ IH]; intros W I Hb; [destruct I |].
  inversion W as [| ? ? Wx Wl]; subst.
  rewrite !passed_cons. destruct I as [-> | I].
  - rewrite (passed_same l cur (brk_end b)); [lia | | lia].
    rewrite Forall_forall in *. intros y Iy.
    specialize (Hx y Iy). specialize (Wl y Iy). unfold overlap in Hx. lia.
  - specialize (IH Wl I Hb).
    rewrite Forall_forall in Hx. specialize (Hx b I).
    unfold overlap in Hx. lia.
Qed.

Lemma tiles_seconds (breaks : list break_interval) (cur c : datetime)
    (activities : list activity) :
  ForallOrdPairs (fun a b => ~ overlap a b) breaks ->
  Forall (fun b => brk_start b <= brk_end b) breaks ->
  tiles breaks cur activities c ->
  event_seconds activities + (passed breaks c - passed breaks cur) = c - cur.
Proof.
  intros P W.
  induction 1 as [c | cur c b acts Ib Hb T IH | cur c a acts Ha Hd F T IH].
  - cbn. lia.
  - pose proof (passed_jump breaks b cur P W Ib Hb). lia.
  - unfold event_seconds in *. cbn [map sum_Z fold_right].
    fold (sum_Z (map act_duration acts)).
    rewrite (passed_same breaks cur (cur + act_duration a)) in IH; [lia | | lia].
    rewrite Forall_forall in *. intros b Ib. split; [apply W, Ib | apply F, Ib].
Qed.

Lemma passed_session (ws : work_session) (breaks : list break_interval) :
  Forall (within ws) breaks ->
  passed breaks (ws_start ws) = 0
  /\ passed breaks (ws_end ws) = break_seconds breaks.
Proof.
  unfold break_seconds.
  induction 1 as [| b l Hb _ [IH1 IH2]]; [split; reflexivity |].
  rewrite !passed_cons, IH1, IH2. unfold within in Hb.
  cbn [map sum_Z fold_right]. fold (sum_Z (map (fun b => brk_end b - brk_start b) l)).
  split; lia.
Qed.

Lemma breaks_wf_facts (ws : work_session) (breaks : list break_interval) :
  breaks_wf ws breaks ->
  StronglySorted by_start breaks
  /\ Forall (fun b => brk_start b <= brk_end b <= ws_end ws) breaks
  /\ Forall (fun b => brk_start b <= brk_end b) breaks.
Proof.
  intros (S & _ & W). split; [| split].
  - apply Sorted_StronglySorted; [exact by_start_trans | exact S].
  - eapply Forall_impl; [| exact W]. unfold within. cbn. lia.
  - eapply Forall_impl; [| exact W]. unfold within. cbn. lia.
Qed.

(** The generator returns, and its events are a trace of the loop from the
    session start to the session end. *)
Lemma generate_window_activities_tiles (fuel : nat) (p : user_profile)
    (ws : work_session) (breaks : list break_interval) (r : rng) :
  has_apps p ->
  0 <= ws_end ws - ws_start ws < 86400 ->
  breaks_wf ws breaks ->
  (Z.to_nat (ws_end ws - ws_start ws) <= fuel)%nat ->
  exists activities r',
    generate_window_activities fuel p ws breaks r = Ret (activities, r')
    /\ tiles breaks (ws_start ws) activities (ws_end ws).
Proof.
  intros HA Hws WF Hf.
  destruct (breaks_wf_facts ws breaks WF) as (S & W & _).
  destruct (choices_ok p r HA) as (app & Ec).
  destruct (window_loop_tiles p (ws_end ws) breaks HA S W fuel (ws_start ws)
              app [] (rest r)) as (acts & r' & E & T); [lia | lia | exact Hf |].
  exists acts, r'. split; [| exact T].
  unfold generate_window_activities.
  rewrite (bind_Ret _ _ r (rest r) app Ec). exact E.
Qed.

Lemma tiles_exact_cover (ws : work_session) (breaks : list break_interval)
    (activities : list activity) :
  breaks_wf ws breaks ->
  tiles breaks (ws_start ws) activities (ws_end ws) ->
  exact_cover ws activities breaks.
Proof.
  intros (_ & P & In) T t. unfold cover_count, in_session.
  destruct (tiles_cover breaks _ _ activities P T t) as [C1 C2].
  assert (Out : t < ws_start ws \/ ws_end ws <= t ->
                count (in_break t) breaks = 0%nat).
  { intros O. apply count_none.
    eapply Forall_impl; [| exact In]. unfold within. cbn. intros b Hb.
    destruct (in_break t b) eqn:Eb; [| reflexivity].
    apply in_break_iff in Eb. lia. }
  destruct (Z.leb_spec (ws_start ws) t) as [L1 | L1];
    [destruct (Z.ltb_spec t (ws_end ws)) as [L2 | L2] |]; cbn [andb].
  - apply C1. lia.
  - rewrite C2, Out by lia. reflexivity.
  - rewrite C2, Out by lia. reflexivity.
Qed.

Lemma tiles_session_seconds (ws : work_session)
    (breaks : list break_interval) (activities : list activity) :
  breaks_wf ws breaks ->
  tiles breaks (ws_start ws) activities (ws_end ws) ->
  event_seconds activities + break_seconds breaks = ws_end ws - ws_start ws.
Proof.
  intros WF T.
  destruct (breaks_wf_facts ws breaks WF) as (_ & _ & W).
  destruct WF as (_ & P & In).
  pose proof (tiles_seconds breaks _ _ activities P W T) as Sum.
  destruct (passed_session ws breaks In) as [P0 P1].
  rewrite P0, P1 in Sum. lia.
Qed.

(** ** C2: coverage of the session *)

(** C2 (as amended): for a session of a length in [0, 1 day), a profile with
    at least one app and a break list that is sorted by start, pairwise
    non-overlapping and within the session, the activity generator returns
    (a second of fuel per second of session suffices); every instant of the
    session lies in exactly one event or break interval and no other
    instant lies in any; no break boundary lies strictly inside an event;
    and the event and break seconds add up to the session length. *)
Theorem window_activities_cover (fuel : nat) (p : user_profile)
    (ws : work_session) (breaks : list break_interval) (r : rng) :
  has_apps p ->
  0 <= ws_end ws - ws_start ws < 86400 ->
  breaks_wf ws breaks ->
  (Z.to_nat (ws_end ws - ws_start ws) <= fuel)%nat ->
  exists activities r',
    generate_window_activities fuel p ws breaks r = Ret (activities, r')
    /\ exact_cover ws activities breaks
    /\ (forall a b, In a activities -> In b breaks -> ~ spans_boundary a b)
    /\ event_seconds activities + break_seconds breaks
       = ws_end ws - ws_start ws.
Proof.
  intros HA Hws WF Hf.
  destruct (generate_window_activities_tiles fuel p ws breaks r HA Hws WF Hf)
    as (acts & r' & E & T).
  destruct (breaks_wf_facts ws breaks WF) as (_ & _ & W).
  exists acts, r'. split; [exact E |]. split; [| split].
  - apply tiles_exact_cover; assumption.
  - exact (tiles_no_span breaks _ _ acts W T).
  - apply tiles_session_seconds; assumption.
Qed.

Lemma window_activities_cover_witness :
  let ws := session_of monday_17 9 17 in
  let breaks := [{| brk_start := ws_start ws + 8640;
                    brk_end := ws_start ws + 8640 + 3600;
                    brk_type := lunch |}] in
  breaks_wf ws breaks
  /\ exists activities r',
       generate_window_activities (Z.to_nat 28800) scenario_profile ws breaks
         zeros = Ret (activities, r')
       /\ exact_cover ws activities breaks
       /\ (forall a b, In a activities -> In b breaks -> ~ spans_boundary a b)
       /\ event_seconds activities + break_seconds breaks
          = ws_end ws - ws_start ws.
Proof.
  intros ws breaks.
  assert (WF : breaks_wf ws breaks).
  { split; [repeat constructor |].
    split; [repeat constructor |].
    repeat constructor; vm_compute; discriminate. }
  split; [exact WF |].
  apply (window_activities_cover (Z.to_nat 28800) scenario_profile ws breaks
           zeros).
  - discriminate.
  - vm_compute. split; [discriminate | reflexivity].
  - exact WF.
  - change (Z.to_nat 28800 <= Z.to_nat 28800)%nat. apply le_n.
Defined.

(** C2 fails as stated: on the generated five-hour day with its five-hour
    lunch the instant 14:00, the session end, lies in the lunch break. *)
Lemma long_lunch_not_covered :
  exists dd r',
    generate_user_day 100 long_lunch_profile monday_17 zeros
    = Ret (Some dd, r')
    /\ ~ exact_cover (dd_session dd) (dd_activities dd) (dd_breaks dd).
Proof.
  eexists. eexists. split; [vm_compute; reflexivity |].
  intros H. specialize (H (at_clock monday_17 (at_hm 14 0))).
  vm_compute in H. discriminate.
Qed.

(** ** C1: the 09:00-17:00 scenario *)

Lemma scenario_session (p : user_profile) (d : date) (r : rng) :
  scenario p -> is_weekend d = false ->
  exists ws,
    generate_work_session p d r = Ret (Some ws, rest (rest r))
    /\ ws_end ws - ws_start ws = 28800.
Proof.
  intros (Hw & _) W.
  eexists. split.
  - apply generate_work_session_weekday; [exact W |]. rewrite Hw. cbn. lia.
  - rewrite Hw. unfold session_with_offsets, at_clock, minutes.
    cbn [ws_start ws_end fst snd wh_start wh_end variance_minutes hour minute].
    change (0 - - 0 + 1) with 1. rewrite !Z.mod_1_r. lia.
Qed.

Lemma scenario_breaks (p : user_profile) (ws : work_session) (r : rng) :
  scenario p -> ws_end ws - ws_start ws = 28800 ->
  exists off,
    8640 <= off <= 14400
    /\ generate_breaks p ws r
       = Ret ([lunch_at ws off 1800], rest (rest (rest r))).
Proof.
  intros (_ & _ & Hl & Hc & _) Hws.
  assert (D : work_duration_of ws = 28800).
  { rewrite work_duration_exact; lia. }
  pose proof (randint_value_bounds 8640 14400 (rest r O) ltac:(lia)) as B.
  exists (8640 + rest r O mod (14400 - 8640 + 1)). split; [exact B |].
  unfold generate_breaks, lunch_break. rewrite D, Hl, Hc.
  cbn [fst snd]. change (28800 >? 4 * 3600) with true. cbv iota.
  change (lunch_offset_lo 28800) with 8640.
  change (lunch_offset_hi 28800) with 14400.
  set (off := 8640 + rest r O mod (14400 - 8640 + 1)) in *.
  rewrite (bind_Ret _ _ r (rest (rest r)) [lunch_at ws off 1800]).
  - rewrite (bind_Ret _ _ _ _ 0 (randint_point 0 (rest (rest r)))).
    reflexivity.
  - rewrite (bind_Ret _ _ r (rest r) 30 (randint_point 30 r)).
    rewrite (bind_Ret _ _ (rest r) (rest (rest r)) off)
      by (apply randint_ok; lia).
    reflexivity.
Qed.

Lemma afk_statuses_one_lunch (ws : work_session) (off len : Z) :
  0 < off -> off + len < ws_end ws - ws_start ws ->
  generate_afk_statuses ws [lunch_at ws off len]
  = [ {| st_status := active; st_duration := off;
         st_timestamp := ws_start ws |};
      {| st_status := afk; st_duration := len;
         st_timestamp := ws_start ws + off |};
      {| st_status := active;
         st_duration := ws_end ws - ws_start ws - off - len;
         st_timestamp := ws_start ws + off + len |} ].
Proof.
  intros H1 H2. unfold generate_afk_statuses, lunch_at.
  cbn [work_segments_from brk_start brk_end brk_type].
  rewrite Z.gtb_ltb.
  destruct (Z.ltb_spec (ws_start ws) (ws_start ws + off)); [| lia].
  destruct (Z.ltb_spec (ws_start ws + off + len) (ws_end ws)); [| lia].
  cbn [app flat_map]. unfold segment_statuses, total_seconds.
  cbn [seg_type seg_start seg_end]. rewrite !Z.gtb_ltb.
  destruct (Z.ltb_spec 0 (ws_start ws + off - ws_start ws)); [| lia].
  destruct (Z.ltb_spec 0 (ws_end ws - (ws_start ws + off + len))); [| lia].
  cbn [app].
  replace (ws_start ws + off - ws_start ws) with off by lia.
  replace (ws_start ws + off + len - (ws_start ws + off)) with len by lia.
  replace (ws_end ws - (ws_start ws + off + len))
    with (ws_end ws - ws_start ws - off - len) by lia.
  reflexivity.
Qed.

Lemma one_lunch_wf (ws : work_session) (off len : Z) :
  0 <= off -> 0 <= len -> off + len <= ws_end ws - ws_start ws ->
  breaks_wf ws [lunch_at ws off len].
Proof.
  intros H1 H2 H3. split; [repeat constructor |].
  split; [repeat constructor |].
  repeat constructor; cbn; lia.
Qed.

(** C1 (as amended): in the scenario, on every weekday and every stream,
    the day has exactly one break, a lunch of 30 minutes; the events last
    7.5 hours in total (the 8 hours of 09:00-17:00 minus the lunch); the
    daily record has active_seconds = 27000, afk_seconds = 1800,
    idle_seconds = 0 and utilization_ratio = 0.9375. *)
Theorem scenario_day (fuel : nat) (p : user_profile) (d : date) (r : rng) :
  scenario p ->
  is_weekend d = false ->
  (Z.to_nat 28800 <= fuel)%nat ->
  exists dd r',
    generate_user_day fuel p d r = Ret (Some dd, r')
    /\ (exists off, dd_breaks dd = [lunch_at (dd_session dd) off (minutes 30)])
    /\ event_seconds (dd_activities dd) = 27000
    /\ active_seconds (dd_metric dd) = 27000
    /\ afk_seconds (dd_metric dd) = 1800
    /\ idle_seconds (dd_metric dd) = 0
    /\ utilization_ratio (dd_metric dd) = (9375 # 10000)%Q.
Proof.
  intros Sc W Hf.
  pose proof Sc as (_ & _ & _ & _ & Happs & Hh).
  destruct (hostnames p) as [| h hs] eqn:Eh; [congruence |].
  destruct (scenario_session p d (rest r) Sc W) as (ws & Es & Hws).
  destruct (scenario_breaks p ws (rest (rest (rest r))) Sc Hws)
    as (off & Hoff & Eb).
  set (breaks := [lunch_at ws off 1800]) in *.
  assert (WF : breaks_wf ws breaks) by (apply one_lunch_wf; lia).
  assert (HA : has_apps p) by (unfold has_apps; rewrite Happs; discriminate).
  destruct (generate_window_activities_tiles fuel p ws breaks
              (rest (rest (rest (rest (rest (rest r)))))) HA
              ltac:(lia) WF ltac:(rewrite Hws; exact Hf))
    as (acts & r' & Ea & T).
  assert (Sum : event_seconds acts = 27000).
  { pose proof (tiles_session_seconds ws breaks acts WF T) as Sum.
    unfold break_seconds, breaks in Sum. cbn in Sum. lia. }
  pose proof (afk_statuses_one_lunch ws off 1800 ltac:(lia) ltac:(lia)) as St.
  fold breaks in St.
  eexists. exists r'. split.
  - unfold generate_user_day. rewrite Eh.
    unfold bind at 1. unfold choice at 1.
    unfold bind at 1. rewrite Es.
    unfold bind at 1. rewrite Eb.
    unfold bind at 1. fold breaks. rewrite Ea. reflexivity.
  - cbn [dd_breaks dd_session dd_activities dd_metric].
    split; [exists off; reflexivity |].
    split; [exact Sum |].
    rewrite St. unfold calculate_daily_metrics.
    cbn [active_seconds afk_seconds idle_seconds utilization_ratio].
    assert (A : status_seconds active
                  [ {| st_status := active; st_duration := off;
                       st_timestamp := ws_start ws |};
                    {| st_status := afk; st_duration := 1800;
                       st_timestamp := ws_start ws + off |};
                    {| st_status := active;
                       st_duration := ws_end ws - ws_start ws - off - 1800;
                       st_timestamp := ws_start ws + off + 1800 |} ] = 27000).
    { unfold status_seconds. cbn. lia. }
    rewrite A.
    split; [reflexivity |]. split; [reflexivity |]. split; [reflexivity |].
    vm_compute. reflexivity.
Qed.

Lemma scenario_day_witness :
  scenario scenario_profile
  /\ exists dd r',
       generate_user_day (Z.to_nat 28800) scenario_profile monday_17 zeros
       = Ret (Some dd, r')
       /\ (exists off,
              dd_breaks dd = [lunch_at (dd_session dd) off (minutes 30)])
       /\ event_seconds (dd_activities dd) = 27000
       /\ active_seconds (dd_metric dd) = 27000
       /\ afk_seconds (dd_metric dd) = 1800
       /\ idle_seconds (dd_metric dd) = 0
       /\ utilization_ratio (dd_metric dd) = (9375 # 10000)%Q.
Proof.
  assert (Sc : scenario scenario_profile).
  { repeat split; try reflexivity. discriminate. }
  split; [exact Sc |].
  apply (scenario_day (Z.to_nat 28800) scenario_profile monday_17 zeros Sc).
  - reflexivity.
  - apply le_n.
Defined.

(** C1 fails as stated: the events of the scenario day last 27000 seconds,
    not the 7 hours (25200 s) of the claim; the record has 27000 active
    seconds, not 25200, and a ratio of 0.9375, not 0.9333. *)
Lemma scenario_day_is_not_seven_hours :
  exists dd r',
    generate_user_day 200 scenario_profile monday_17 zeros = Ret (Some dd, r')
    /\ event_seconds (dd_activities dd) <> 7 * 3600
    /\ active_seconds (dd_metric dd) <> 25200
    /\ ~ (utilization_ratio (dd_metric dd) == 9333 # 10000)%Q.
Proof.
  eexists. eexists. split; [vm_compute; reflexivity |].
  split; [vm_compute; discriminate |].
  split; [vm_compute; discriminate |].
  vm_compute. discriminate.
Qed.

(** ** The generated day *)

(** A well-formed list of breaks of positive length is chained: the
    premise of [presence_partition] holds for what the scheduler returns. *)
Lemma breaks_wf_chained (ws : work_session) (breaks : list break_interval) :
  ws_start ws <= ws_end ws ->
  breaks_wf ws breaks ->
  Forall (fun b => brk_start b < brk_end b) breaks ->
  chained (ws_start ws) breaks (ws_end ws).
Proof.
  intros Le WF Pos.
  destruct (breaks_wf_facts ws breaks WF) as (S & _ & _).
  destruct WF as (_ & P & W).
  assert (F : Forall (fun b => ws_start ws <= brk_start b
                               /\ brk_start b < brk_end b
                               /\ brk_end b <= ws_end ws) breaks).
  { rewrite Forall_forall in *. intros b I.
    specialize (W b I). specialize (Pos b I). unfold within in W. lia. }
  clear W Pos. revert Le F. generalize (ws_start ws) as lo.
  induction breaks as [| b l IH]; intros lo Le F; [exact Le |].
  inversion F as [| ? ? Fb Fl]; subst.
  inversion S as [| ? ? Sl Sb]; subst.
  inversion P as [| ? ? Pb Pl]; subst.
  cbn [chained]. split; [lia |]. split; [lia |].
  apply IH; [exact Pl | exact Sl | lia |].
  rewrite Forall_forall in *. intros x I.
  specialize (Fl x I). specialize (Sb x I). specialize (Pb x I).
  unfold by_start in Sb. unfold overlap in Pb. lia.
Qed.

(** The scheduler and the activity generator in sequence: when the breaks
    of the profile fit into the session, the events and the breaks that are
    generated partition the session. *)
Corollary generated_day_cover (fuel : nat) (p : user_profile)
    (ws : work_session) (r : rng) :
  has_apps p ->
  breaks_fit p ws ->
  (Z.to_nat (ws_end ws - ws_start ws) <= fuel)%nat ->
  exists breaks r1 activities r2,
    generate_breaks p ws r = Ret (breaks, r1)
    /\ generate_window_activities fuel p ws breaks r1 = Ret (activities, r2)
    /\ exact_cover ws activities breaks.
Proof.
  intros HA F Hf.
  destruct (generate_breaks_wf p ws r F) as (breaks & r1 & Eb & WF).
  destruct F as (Hws & _).
  destruct (generate_window_activities_tiles fuel p ws breaks r1 HA Hws WF Hf)
    as (acts & r2 & Ea & T).
  exists breaks, r1, acts, r2. split; [exact Eb |]. split; [exact Ea |].
  apply tiles_exact_cover; assumption.
Qed.

(** * Further properties of the generation module *)

(** ** The date range *)







(** ** Sessions: absence, errors, length *)

(** The planner reports "no work this day" exactly on a weekend day of a
    profile without weekend activity or without a sub-schedule for that
    day, and then it consumes no draw; on every other day it returns a
    session or raises. *)
Theorem generate_work_session_none (p : user_profile) (d : date)
    (r r' : rng) :
  generate_work_session p d r = Ret (None, r')
  <-> r' = r
      /\ is_weekend d = true
      /\ (weekend_activity p = false \/ weekend_sched_of p d = None).
Proof.
  unfold generate_work_session, weekend_sched_of.
  destruct (is_weekend d) eqn:W.
  - destruct (weekend_activity p) eqn:A; cbn [negb].
    + destruct (if weekday d =? 5 then saturday (weekend_schedule p)
                else sunday (weekend_schedule p)) as [sched |] eqn:E.
      * split; [discriminate |].
        intros (_ & _ & [H | H]); discriminate.
      * split.
        -- intros H. injection H as <-. auto.
        -- intros (-> & _). reflexivity.
    + split.
      * intros H. injection H as <-. auto.
      * intros (-> & _). reflexivity.
  - split; [| intros (_ & H & _); discriminate].
    unfold bind.
    destruct (randint _ _ r) as [[v1 r1] | e |]; [| discriminate | discriminate].
    destruct (randint _ _ r1) as [[v2 r2] | e |]; discriminate.
Qed.

(** On a weekday a negative variance makes the first offset draw raise
    [ValueError]: no session is returned. *)
Theorem generate_work_session_negative_variance (p : user_profile) (d : date)
    (r : rng) :
  is_weekend d = false ->
  variance_minutes (work_hours p) < 0 ->
  generate_work_session p d r = Raise ValueError.
Proof.
  intros W V. unfold generate_work_session. rewrite W.
  apply bind_Raise, randint_empty. lia.
Qed.

Lemma generate_work_session_negative_variance_witness :
  variance_minutes (work_hours negative_variance_profile) < 0
  /\ generate_work_session negative_variance_profile monday_17 zeros
     = Raise ValueError.
Proof.
  assert (V : variance_minutes (work_hours negative_variance_profile) < 0)
    by (cbn; lia).
  split; [exact V |].
  apply (generate_work_session_negative_variance negative_variance_profile
           monday_17 zeros); [reflexivity | exact V].
Defined.

Lemma session_with_offsets_length (d : date) (sched : clock * clock)
    (o1 o2 : Z) :
  let ws := session_with_offsets d sched o1 o2 in
  ws_end ws - ws_start ws
  = at_clock d (snd sched) - at_clock d (fst sched) + 60 * (o2 - o1).
Proof. unfold session_with_offsets, minutes. cbn [ws_start ws_end]. lia. Qed.

(** The offsets are not clamped: on a weekday the session is at most
    2 x variance minutes shorter or longer than the work-hours window, and
    some stream yields each of the two extremes; so a window shorter than
    2 x variance minutes can come out with its end before its start. *)
Theorem weekday_session_length (p : user_profile) (d : date) :
  is_weekend d = false ->
  0 <= variance_minutes (work_hours p) ->
  let v := variance_minutes (work_hours p) in
  let nominal := nominal_seconds p d in
  (forall r, exists ws,
      generate_work_session p d r = Ret (Some ws, rest (rest r))
      /\ nominal - 120 * v <= ws_end ws - ws_start ws <= nominal + 120 * v)
  /\ (exists r ws r',
         generate_work_session p d r = Ret (Some ws, r')
         /\ ws_end ws - ws_start ws = nominal - 120 * v)
  /\ (exists r ws r',
         generate_work_session p d r = Ret (Some ws, r')
         /\ ws_end ws - ws_start ws = nominal + 120 * v).
Proof.
  intros W V v nominal. split; [| split].
  - intros r. eexists. split.
    + apply generate_work_session_weekday; assumption.
    + rewrite session_with_offsets_length. fold v.
      pose proof (randint_value_bounds (- v) v (r 0%nat) ltac:(lia)).
      pose proof (randint_value_bounds (- v) v (r 1%nat) ltac:(lia)).
      unfold nominal, nominal_seconds. cbn [fst snd]. lia.
  - exists (fun n => match n with O => 2 * v | _ => 0 end).
    eexists. eexists. split.
    + apply generate_work_session_weekday; assumption.
    + rewrite session_with_offsets_length. fold v. cbv beta iota.
      rewrite !Z.mod_small by lia.
      unfold nominal, nominal_seconds. cbn [fst snd]. lia.
  - exists (fun n => match n with O => 0 | _ => 2 * v end).
    eexists. eexists. split.
    + apply generate_work_session_weekday; assumption.
    + rewrite session_with_offsets_length. fold v. cbv beta iota.
      rewrite !Z.mod_small by lia.
      unfold nominal, nominal_seconds. cbn [fst snd]. lia.
Qed.

Lemma weekday_session_length_witness :
  0 <= variance_minutes (work_hours weekend_profile)
  /\ exists r ws r',
       generate_work_session weekend_profile monday_17 r = Ret (Some ws, r')
       /\ ws_end ws - ws_start ws
          = nominal_seconds weekend_profile monday_17 - 120 * 30.
Proof.
  assert (V : 0 <= variance_minutes (work_hours weekend_profile))
    by (cbn; lia).
  split; [exact V |].
  apply (weekday_session_length weekend_profile monday_17); [reflexivity | exact V].
Defined.

(** ** The shape of the break list *)

Lemma count_app {A} (f : A -> bool) (l1 l2 : list A) :
  count f (l1 ++ l2) = (count f l1 + count f l2)%nat.
Proof. unfold count. rewrite filter_app, length_app. reflexivity. Qed.

Lemma count_perm {A} (f : A -> bool) (l1 l2 : list A) :
  Permutation l1 l2 -> count f l1 = count f l2.
Proof.
  induction 1 as [| x l1 l2 _ IH | x y l | l1 l2 l3 _ IH1 _ IH2].
  - reflexivity.
  - rewrite !count_cons, IH. reflexivity.
  - rewrite !count_cons. lia.
  - congruence.
Qed.

Lemma count_all {A} (f : A -> bool) (l : list A) :
  Forall (fun x => f x = true) l -> count f l = length l.
Proof.
  induction 1 as [| x l Hx _ IH]; [reflexivity |].
  rewrite count_cons, Hx, IH. reflexivity.
Qed.

Lemma lunch_break_inv (p : user_profile) (ws : work_session) (r r' : rng)
    (breaks : list break_interval) :
  lunch_break p ws r = Ret (breaks, r') ->
  (4 * 3600 < work_duration_of ws
   /\ exists b, breaks = [b] /\ lunch_shape p ws b)
  \/ (work_duration_of ws <= 4 * 3600 /\ breaks = []).
Proof.
  unfold lunch_break.
  destruct (Z.gtb_spec (work_duration_of ws) (4 * 3600)) as [G | G].
  - intros E. left. split; [exact G |].
    apply bind_Ret_inv in E. destruct E as (mins & r1 & E1 & E).
    apply bind_Ret_inv in E. destruct E as (off & r2 & E2 & E).
    apply randint_inv in E1, E2. apply ret_inv in E.
    destruct E as [-> _]. eexists. split; [reflexivity |].
    split; [reflexivity |]. exists off, mins.
    cbn [brk_start brk_end]. unfold minutes. intuition lia.
  - intros E. apply ret_inv in E. right. intuition.
Qed.

Lemma place_coffee_inv (p : user_profile) (n : nat) (ws : work_session)
    (mins : Z) (breaks breaks' : list break_interval) (r r' : rng) :
  fst (break_duration_minutes (afk_behavior p)) <= mins
  <= snd (break_duration_minutes (afk_behavior p)) ->
  place_coffee n ws (work_duration_of ws) mins breaks r = Ret (breaks', r') ->
  breaks' = breaks
  \/ exists b, breaks' = (breaks ++ [b])%list /\ coffee_shape p ws b.
Proof.
  intros Hm. revert r. induction n as [| n IH]; intros r E.
  - apply ret_inv in E. left. intuition.
  - cbn [place_coffee] in E.
    apply bind_Ret_inv in E. destruct E as (off & r1 & E1 & E).
    apply randint_inv in E1. destruct E1 as [Ho _].
    destruct (existsb _ breaks); [apply (IH r1 E) |].
    apply ret_inv in E. destruct E as [-> _]. right.
    eexists. split; [reflexivity |]. split; [reflexivity |].
    exists off, mins. cbn [brk_start brk_end]. unfold minutes. intuition lia.
Qed.

Lemma coffee_loop_inv (p : user_profile) (n : nat) (ws : work_session)
    (breaks breaks' : list break_interval) (r r' : rng) :
  coffee_loop n ws (work_duration_of ws)
    (break_duration_minutes (afk_behavior p)) breaks r = Ret (breaks', r') ->
  exists extra,
    breaks' = (breaks ++ extra)%list
    /\ (length extra <= n)%nat
    /\ Forall (coffee_shape p ws) extra.
Proof.
  revert breaks r. induction n as [| n IH]; intros breaks r E.
  - apply ret_inv in E. destruct E as [-> _].
    exists []. rewrite app_nil_r. repeat split; [cbn; lia | constructor].
  - cbn [coffee_loop] in E.
    apply bind_Ret_inv in E. destruct E as (b1 & r1 & E1 & E).
    unfold coffee_break in E1.
    apply bind_Ret_inv in E1. destruct E1 as (mins & r0 & Em & E1).
    apply randint_inv in Em. destruct Em as [Hm _].
    destruct (IH _ _ E) as (extra & -> & L & F).
    destruct (place_coffee_inv p 10 ws mins breaks b1 r0 r1 Hm E1)
      as [-> | (b & -> & Hb)].
    + exists extra. repeat split; [lia | exact F].
    + exists (b :: extra). rewrite <- app_assoc.
      repeat split; [cbn; lia | constructor; assumption].
Qed.

(** Whenever the scheduler returns, its list has one lunch if the measured
    session duration exceeds four hours and none otherwise, at most as many
    coffee breaks as the upper end of the coffee-count range, and nothing
    else; the lunch starts between 30% and 50% of the session and every
    break lasts a number of minutes of its range. *)
Theorem generate_breaks_shape (p : user_profile) (ws : work_session)
    (r r' : rng) (breaks : list break_interval) :
  generate_breaks p ws r = Ret (breaks, r') ->
  count is_lunch breaks
  = (if work_duration_of ws >? 4 * 3600 then 1 else 0)%nat
  /\ (count is_coffee breaks
      <= Z.to_nat (snd (coffee_breaks (afk_behavior p))))%nat
  /\ Forall (fun b => lunch_shape p ws b \/ coffee_shape p ws b) breaks.
Proof.
  unfold generate_breaks. intros E.
  apply bind_Ret_inv in E. destruct E as (b0 & r0 & E0 & E).
  apply bind_Ret_inv in E. destruct E as (num & r1 & En & E).
  apply bind_Ret_inv in E. destruct E as (b1 & r2 & E1 & E).
  apply ret_inv in E. destruct E as [-> _].
  apply randint_inv in En. destruct En as [Hn _].
  destruct (coffee_loop_inv p _ ws b0 b1 r1 r2 E1) as (extra & -> & L & F).
  pose proof (sort_breaks_perm (b0 ++ extra)) as P.
  rewrite <- (count_perm is_lunch _ _ P), <- (count_perm is_coffee _ _ P).
  rewrite !count_app.
  assert (NL : count is_lunch extra = 0%nat).
  { apply count_none. eapply Forall_impl; [| exact F].
    intros b (T & _). unfold is_lunch. rewrite T. reflexivity. }
  assert (AC : count is_coffee extra = length extra).
  { apply count_all. eapply Forall_impl; [| exact F].
    intros b (T & _). unfold is_coffee. rewrite T. reflexivity. }
  assert (FE : Forall (fun b => lunch_shape p ws b \/ coffee_shape p ws b)
                 extra).
  { eapply Forall_impl; [| exact F]. intros b H. right. exact H. }
  rewrite NL, AC.
  destruct (lunch_break_inv p ws r r0 b0 E0) as [(G & b & -> & Hb) | (G & ->)].
  - destruct (Z.gtb_spec (work_duration_of ws) (4 * 3600)); [| lia].
    pose proof Hb as (T & _).
    unfold count at 1 2. cbn [filter]. unfold is_lunch, is_coffee.
    rewrite T. cbn [length].
    split; [lia |]. split; [lia |].
    eapply Permutation_Forall; [exact P |].
    constructor; [left; exact Hb | exact FE].
  - destruct (Z.gtb_spec (work_duration_of ws) (4 * 3600)); [lia |].
    split; [reflexivity |]. split; [cbn; lia |].
    eapply Permutation_Forall; [exact P | exact FE].
Qed.

Lemma generate_breaks_shape_witness :
  exists breaks r',
    generate_breaks one_coffee_profile (session_of monday_17 9 17) zeros
    = Ret (breaks, r')
    /\ count is_lunch breaks = 1%nat
    /\ (count is_coffee breaks <= 1)%nat.
Proof.
  destruct (generate_breaks one_coffee_profile (session_of monday_17 9 17)
              zeros) as [[breaks r'] | e |] eqn:E.
  - exists breaks, r'. split; [reflexivity |].
    pose proof (generate_breaks_shape one_coffee_profile
                  (session_of monday_17 9 17) zeros r' breaks E) as (H1 & H2 & _).
    split; [exact H1 | exact H2].
  - vm_compute in E. discriminate.
  - vm_compute in E. discriminate.
Defined.

(** ** Presence segments: order, kinds, totals *)

Lemma contiguous_app (lo mid hi : datetime) (l1 l2 : list afk_status) :
  contiguous lo l1 mid -> contiguous mid l2 hi -> contiguous lo (l1 ++ l2) hi.
Proof.
  revert lo. induction l1 as [| s l1 IH]; intros lo H1 H2.
  - cbn in H1. subst. exact H2.
  - destruct H1 as [T H1]. split; [exact T | apply IH; assumption].
Qed.

Lemma segment_statuses_contiguous (sg : segment) :
  seg_start sg <= seg_end sg ->
  contiguous (seg_start sg) (segment_statuses sg) (seg_end sg).
Proof.
  intros H. unfold segment_statuses, total_seconds.
  destruct (seg_type sg).
  - destruct (Z.gtb_spec (seg_end sg - seg_start sg) 0); cbn; [split |]; lia.
  - cbn. split; lia.
  - destruct (seg_end sg - seg_start sg <? 600); cbn; split; lia.
Qed.

Lemma work_segments_contiguous (breaks : list break_interval)
    (last_end end_time : datetime) :
  chained last_end breaks end_time ->
  contiguous last_end
    (flat_map segment_statuses (work_segments_from last_end end_time breaks))
    end_time.
Proof.
  revert last_end. induction breaks as [| b l IH]; intros last_end C.
  - cbn in C. cbn [work_segments_from].
    destruct (Z.ltb_spec last_end end_time) as [L | L].
    + cbn [flat_map]. rewrite app_nil_r.
      apply (segment_statuses_contiguous
               {| seg_start := last_end; seg_end := end_time;
                  seg_type := work |}). cbn. lia.
    + cbn. lia.
  - destruct C as (C1 & C2 & C3). cbn [work_segments_from].
    rewrite flat_map_app. cbn [flat_map].
    apply (contiguous_app _ (brk_start b)).
    + destruct (Z.gtb_spec (brk_start b) last_end) as [G | G].
      * cbn [flat_map]. rewrite app_nil_r.
        apply (segment_statuses_contiguous
                 {| seg_start := last_end; seg_end := brk_start b;
                    seg_type := work |}). cbn. lia.
      * cbn. lia.
    + apply (contiguous_app _ (brk_end b)); [| apply IH, C3].
      apply (segment_statuses_contiguous
               {| seg_start := brk_start b; seg_end := brk_end b;
                  seg_type := brk_type b |}). exact C2.
Qed.

(** For a chained break list the presence segments are chronological and
    gapless: the first starts at the session start, each next one starts
    when the previous one ends, and the last ends at the session end. *)
Theorem afk_statuses_contiguous (ws : work_session)
    (breaks : list break_interval) :
  chained (ws_start ws) breaks (ws_end ws) ->
  contiguous (ws_start ws) (generate_afk_statuses ws breaks) (ws_end ws).
Proof. intros C. apply work_segments_contiguous, C. Qed.

Lemma afk_statuses_contiguous_witness :
  chained (ws_start (session_of monday_17 9 17))
    [lunch_at (session_of monday_17 9 17) 8640 3600]
    (ws_end (session_of monday_17 9 17))
  /\ contiguous (ws_start (session_of monday_17 9 17))
       (generate_afk_statuses (session_of monday_17 9 17)
          [lunch_at (session_of monday_17 9 17) 8640 3600])
       (ws_end (session_of monday_17 9 17)).
Proof.
  assert (C : chained (ws_start (session_of monday_17 9 17))
                [lunch_at (session_of monday_17 9 17) 8640 3600]
                (ws_end (session_of monday_17 9 17))).
  { vm_compute. repeat split; intros; discriminate. }
  split; [exact C |].
  apply (afk_statuses_contiguous _ _ C).
Defined.

Lemma filter_inactive_work (last_end end_time : datetime) :
  filter (fun s => negb (is_active s))
    (segment_statuses {| seg_start := last_end; seg_end := end_time;
                         seg_type := work |}) = [].
Proof.
  unfold segment_statuses, total_seconds. cbn [seg_type seg_start seg_end].
  destruct (end_time - last_end >? 0); reflexivity.
Qed.

Lemma filter_inactive_break (b : break_interval) :
  brk_type b <> work ->
  filter (fun s => negb (is_active s))
    (segment_statuses {| seg_start := brk_start b; seg_end := brk_end b;
                         seg_type := brk_type b |}) = [break_status b].
Proof.
  intros T. unfold segment_statuses, break_status, total_seconds.
  cbn [seg_type seg_start seg_end].
  destruct (brk_type b); [congruence | reflexivity |].
  destruct (brk_end b - brk_start b <? 600); reflexivity.
Qed.

Lemma work_segments_breaks (breaks : list break_interval)
    (last_end end_time : datetime) :
  Forall (fun b => brk_type b <> work) breaks ->
  filter (fun s => negb (is_active s))
    (flat_map segment_statuses (work_segments_from last_end end_time breaks))
  = map break_status breaks.
Proof.
  intros F. revert last_end.
  induction F as [| b l Hb _ IH]; intros last_end; cbn [work_segments_from].
  - destruct (last_end <? end_time); [| reflexivity].
    cbn [flat_map]. rewrite app_nil_r. apply filter_inactive_work.
  - rewrite flat_map_app, filter_app. cbn [flat_map].
    rewrite filter_app, IH, (filter_inactive_break b Hb).
    destruct (brk_start b >? last_end); [| reflexivity].
    cbn [flat_map]. rewrite app_nil_r, filter_inactive_work. reflexivity.
Qed.

(** Every lunch or coffee break yields exactly one presence segment that is
    not [active], in the order of the list, at the start of the break and of
    its length: [afk] for a lunch, [idle] for a coffee break shorter than
    ten minutes, [afk] for a longer one.  All other segments are [active]. *)
Theorem afk_statuses_of_breaks (ws : work_session)
    (breaks : list break_interval) :
  Forall (fun b => brk_type b <> work) breaks ->
  filter (fun s => negb (is_active s)) (generate_afk_statuses ws breaks)
  = map break_status breaks.
Proof. intros F. apply work_segments_breaks, F. Qed.

Lemma afk_statuses_of_breaks_witness :
  Forall (fun b => brk_type b <> work)
    [lunch_at (session_of monday_17 9 17) 8640 3600]
  /\ filter (fun s => negb (is_active s))
       (generate_afk_statuses (session_of monday_17 9 17)
          [lunch_at (session_of monday_17 9 17) 8640 3600])
     = map break_status [lunch_at (session_of monday_17 9 17) 8640 3600].
Proof.
  assert (F : Forall (fun b => brk_type b <> work)
                [lunch_at (session_of monday_17 9 17) 8640 3600])
    by (repeat constructor; discriminate).
  split; [exact F |].
  apply (afk_statuses_of_breaks _ _ F).
Defined.

Lemma status_seconds_split (l : list afk_status) :
  status_seconds active l + status_seconds idle l + status_seconds afk l
  = total_duration l
  /\ status_seconds idle l + status_seconds afk l
     = total_duration (filter (fun s => negb (is_active s)) l).
Proof.
  unfold status_seconds, total_duration, is_active.
  induction l as [| s l [IH1 IH2]]; [split; reflexivity |].
  cbn [filter map]. destruct (st_status s); cbn [presence_eqb negb map];
    unfold sum_Z in *; cbn [fold_right]; split; lia.
Qed.

Lemma total_duration_break_statuses (breaks : list break_interval) :
  total_duration (map break_status breaks) = break_seconds breaks.
Proof.
  unfold total_duration, break_seconds. rewrite map_map. reflexivity.
Qed.

(** For a chained list of lunch and coffee breaks the daily record splits
    the session: idle and afk seconds add up to the length of the breaks,
    active seconds are the rest of the session, and the three together are
    the session length. *)
Theorem daily_metric_totals (d : date) (ws : work_session)
    (breaks : list break_interval) (activities : list activity) :
  chained (ws_start ws) breaks (ws_end ws) ->
  Forall (fun b => brk_type b <> work) breaks ->
  let m := calculate_daily_metrics d (generate_afk_statuses ws breaks)
             activities in
  idle_seconds m + afk_seconds m = break_seconds breaks
  /\ active_seconds m = ws_end ws - ws_start ws - break_seconds breaks
  /\ active_seconds m + idle_seconds m + afk_seconds m
     = ws_end ws - ws_start ws.
Proof.
  intros C F m. subst m.
  cbn [calculate_daily_metrics active_seconds idle_seconds afk_seconds].
  destruct (status_seconds_split (generate_afk_statuses ws breaks))
    as [S1 S2].
  unfold generate_afk_statuses in *.
  rewrite (work_segments_duration breaks _ _ C) in S1.
  rewrite (work_segments_breaks breaks _ _ F) in S2.
  rewrite total_duration_break_statuses in S2. lia.
Qed.

Lemma daily_metric_totals_witness :
  chained (ws_start (session_of monday_17 9 17))
    [lunch_at (session_of monday_17 9 17) 8640 3600]
    (ws_end (session_of monday_17 9 17))
  /\ active_seconds
       (calculate_daily_metrics monday_17
          (generate_afk_statuses (session_of monday_17 9 17)
             [lunch_at (session_of monday_17 9 17) 8640 3600]) [])
     = ws_end (session_of monday_17 9 17) - ws_start (session_of monday_17 9 17)
       - break_seconds [lunch_at (session_of monday_17 9 17) 8640 3600].
Proof.
  assert (C : chained (ws_start (session_of monday_17 9 17))
                [lunch_at (session_of monday_17 9 17) 8640 3600]
                (ws_end (session_of monday_17 9 17))).
  { vm_compute. repeat split; intros; discriminate. }
  split; [exact C |].
  apply (daily_metric_totals monday_17 _ _ [] C).
  repeat constructor; discriminate.
Defined.

(** ** The app-switch count *)

Lemma adjacent_pairs_cons {A} (x y : A) (l : list A) :
  adjacent_pairs (x :: y :: l) = (x, y) :: adjacent_pairs (y :: l).
Proof. reflexivity. Qed.

Lemma count_switches_from (l : string) (activities : list activity) :
  count_switches (Some l) activities
  = Z.of_nat (count counted_switch
                (adjacent_pairs (l :: map act_app activities))).
Proof.
  revert l. induction activities as [| a acts IH]; intros l; [reflexivity |].
  cbn [count_switches map]. rewrite IH, adjacent_pairs_cons, count_cons.
  unfold counted_switch at 2. cbn [fst snd].
  destruct (negb (String.eqb l "") && negb (String.eqb l (act_app a)));
    lia.
Qed.

Lemma count_le_length {A} (f : A -> bool) (l : list A) :
  (count f l <= length l)%nat.
Proof. unfold count. apply filter_length_le. Qed.

Lemma adjacent_pairs_length {A} (l : list A) :
  length (adjacent_pairs l) = (length l - 1)%nat.
Proof.
  unfold adjacent_pairs. rewrite length_combine.
  destruct l; cbn [tl length]; lia.
Qed.

(** The app-switch count is the number of adjacent pairs of events whose
    apps differ and whose first app is not the empty string; it is at most
    the number of events minus one, and for events that all carry a
    non-empty app name it is the number of adjacent pairs with different
    apps. *)
Theorem count_switches_adjacent (activities : list activity) :
  let apps_seen := map act_app activities in
  count_switches None activities
  = Z.of_nat (count counted_switch (adjacent_pairs apps_seen))
  /\ 0 <= count_switches None activities
     <= Z.of_nat (length activities - 1)
  /\ (Forall (fun a => act_app a <> ""%string) activities ->
      count_switches None activities
      = Z.of_nat (count (fun xy => negb (String.eqb (fst xy) (snd xy)))
                    (adjacent_pairs apps_seen))).
Proof.
  intros apps_seen.
  assert (E : count_switches None activities
              = Z.of_nat (count counted_switch (adjacent_pairs apps_seen))).
  { subst apps_seen. destruct activities as [| a acts]; [reflexivity |].
    cbn [count_switches map]. rewrite count_switches_from. lia. }
  split; [exact E |]. split.
  - rewrite E.
    pose proof (count_le_length counted_switch (adjacent_pairs apps_seen)) as L.
    rewrite adjacent_pairs_length in L. subst apps_seen.
    rewrite length_map in L. lia.
  - intros F. rewrite E. f_equal. subst apps_seen.
    clear E. induction F as [| a l Ha F IH]; [reflexivity |].
    destruct l as [| b l]; [reflexivity |].
    cbn [map] in *. rewrite adjacent_pairs_cons, !count_cons, IH.
    unfold counted_switch. cbn [fst snd].
    destruct (String.eqb_spec (act_app a) ""); [congruence | reflexivity].
Qed.

(** ** The hourly app usage *)

Lemma usage_key_eqb_spec (k1 k2 : usage_key) :
  reflect (k1 = k2) (usage_key_eqb k1 k2).
Proof.
  destruct k1 as [t1 a1], k2 as [t2 a2]. unfold usage_key_eqb. cbn [fst snd].
  destruct (Z.eqb_spec t1 t2) as [-> | N]; cbn [andb].
  - destruct (String.eqb_spec a1 a2) as [-> | N]; constructor; congruence.
  - constructor. congruence.
Qed.

Lemma aggregate_app_usage_snoc (activities : list activity) (a : activity) :
  aggregate_app_usage (activities ++ [a])
  = add_usage (key_of a) (act_duration a) (aggregate_app_usage activities).
Proof. unfold aggregate_app_usage. rewrite fold_left_app. reflexivity. Qed.

Lemma add_usage_totals (k : usage_key) (d : Z) (m : list (usage_key * usage)) :
  usage_seconds (add_usage k d m) = usage_seconds m + d
  /\ usage_events (add_usage k d m) = usage_events m + 1.
Proof.
  unfold usage_seconds, usage_events, sum_Z.
  induction m as [| [k' u] m [IH1 IH2]]; cbn [add_usage].
  - cbn. split; lia.
  - destruct (usage_key_eqb k k'); cbn [map fold_right snd us_duration
                                          us_event_count] in *; split; lia.
Qed.

Lemma aggregate_app_usage_seconds (activities : list activity) :
  usage_seconds (aggregate_app_usage activities) = event_seconds activities.
Proof.
  induction activities as [| a l IH] using rev_ind; [reflexivity |].
  rewrite aggregate_app_usage_snoc.
  destruct (add_usage_totals (key_of a) (act_duration a)
              (aggregate_app_usage l)) as [-> _].
  rewrite IH. unfold event_seconds. rewrite map_app, sum_Z_app. cbn. lia.
Qed.

Lemma aggregate_app_usage_events (activities : list activity) :
  usage_events (aggregate_app_usage activities)
  = Z.of_nat (length activities).
Proof.
  induction activities as [| a l IH] using rev_ind; [reflexivity |].
  rewrite aggregate_app_usage_snoc.
  destruct (add_usage_totals (key_of a) (act_duration a)
              (aggregate_app_usage l)) as [_ ->].
  rewrite IH, length_app. cbn [length]. lia.
Qed.

(** Aggregation loses nothing: the durations of the buckets add up to the
    durations of the events, and their event counts to the number of
    events; without events there is no bucket. *)
Theorem aggregate_app_usage_totals (activities : list activity) :
  usage_seconds (aggregate_app_usage activities) = event_seconds activities
  /\ usage_events (aggregate_app_usage activities)
     = Z.of_nat (length activities)
  /\ (activities = [] -> aggregate_app_usage activities = []).
Proof.
  split; [apply aggregate_app_usage_seconds |].
  split; [apply aggregate_app_usage_events |].
  intros ->. reflexivity.
Qed.

Lemma get_usage_add_same (k : usage_key) (d : Z)
    (m : list (usage_key * usage)) :
  get_usage k (add_usage k d m)
  = Some match get_usage k m with
         | Some u => {| us_duration := us_duration u + d;
                        us_event_count := us_event_count u + 1;
                        us_timestamp := us_timestamp u |}
         | None => {| us_duration := 0 + d; us_event_count := 0 + 1;
                      us_timestamp := fst k |}
         end.
Proof.
  induction m as [| [k' u] m IH]; cbn [add_usage get_usage].
  - destruct (usage_key_eqb_spec k k); [reflexivity | congruence].
  - destruct (usage_key_eqb k k') eqn:E; cbn [get_usage]; rewrite E;
      [reflexivity | exact IH].
Qed.

Lemma get_usage_add_other (k k' : usage_key) (d : Z)
    (m : list (usage_key * usage)) :
  k' <> k -> get_usage k' (add_usage k d m) = get_usage k' m.
Proof.
  intros N. induction m as [| [k0 u] m IH]; cbn [add_usage get_usage].
  - destruct (usage_key_eqb_spec k' k); [congruence | reflexivity].
  - destruct (usage_key_eqb_spec k k0) as [-> | N0]; cbn [get_usage].
    + destruct (usage_key_eqb_spec k' k0); [congruence | reflexivity].
    + rewrite IH. reflexivity.
Qed.

Lemma add_usage_keys (k : usage_key) (d : Z) (m : list (usage_key * usage)) :
  map fst (add_usage k d m)
  = (map fst m ++ match get_usage k m with Some _ => [] | None => [k] end)%list.
Proof.
  induction m as [| [k' u] m IH]; cbn [add_usage get_usage map fst];
    [reflexivity |].
  destruct (usage_key_eqb k k'); cbn [map fst].
  - rewrite app_nil_r. reflexivity.
  - rewrite IH. reflexivity.
Qed.

Lemma get_usage_In_key (k : usage_key) (m : list (usage_key * usage)) :
  In k (map fst m) <-> get_usage k m <> None.
Proof.
  induction m as [| [k' u] m IH]; cbn [map fst In get_usage].
  - tauto.
  - destruct (usage_key_eqb_spec k k') as [-> | N].
    + split; [discriminate | auto].
    + rewrite IH. split; [intros [E | H]; [congruence | exact H] | auto].
Qed.

Lemma get_usage_In (k : usage_key) (u : usage)
    (m : list (usage_key * usage)) :
  NoDup (map fst m) -> In (k, u) m -> get_usage k m = Some u.
Proof.
  induction m as [| [k' u'] m IH]; cbn [map fst In get_usage]; [tauto |].
  intros ND [E | I].
  - injection E as -> ->.
    destruct (usage_key_eqb_spec k k); [reflexivity | congruence].
  - inversion ND as [| ? ? Hn ND']; subst.
    destruct (usage_key_eqb_spec k k') as [-> | N]; [| apply IH; assumption].
    exfalso. apply Hn. apply (in_map fst) in I. exact I.
Qed.

Lemma aggregate_app_usage_keys_NoDup (activities : list activity) :
  NoDup (map fst (aggregate_app_usage activities)).
Proof.
  induction activities as [| a l IH] using rev_ind; [constructor |].
  rewrite aggregate_app_usage_snoc, add_usage_keys.
  destruct (get_usage (key_of a) (aggregate_app_usage l)) eqn:E.
  - rewrite app_nil_r. exact IH.
  - apply NoDup_app; [exact IH | repeat constructor; intros [] |].
    intros k I [<- | []]. apply get_usage_In_key in I. congruence.
Qed.

Lemma bucket_events_snoc (k : usage_key) (l : list activity) (a : activity) :
  bucket_events k (l ++ [a])
  = (bucket_events k l ++ if usage_key_eqb (key_of a) k then [a] else [])%list.
Proof. unfold bucket_events. rewrite filter_app. reflexivity. Qed.

(** What is stored under a key: nothing when no event has the key, and
    otherwise the totals of the events that have it. *)
Lemma get_usage_aggregate (k : usage_key) (activities : list activity) :
  match get_usage k (aggregate_app_usage activities) with
  | None => bucket_events k activities = []
  | Some u =>
      bucket_events k activities <> []
      /\ us_duration u = event_seconds (bucket_events k activities)
      /\ us_event_count u = Z.of_nat (length (bucket_events k activities))
      /\ us_timestamp u = fst k
  end.
Proof.
  induction activities as [| a l IH] using rev_ind; [reflexivity |].
  rewrite aggregate_app_usage_snoc, bucket_events_snoc.
  destruct (usage_key_eqb_spec (key_of a) k) as [E | N].
  - subst k. rewrite get_usage_add_same.
    destruct (get_usage (key_of a) (aggregate_app_usage l)) as [u |].
    + destruct IH as (H0 & H1 & H2 & H3). cbn [us_duration us_event_count
                                                  us_timestamp].
      split; [intros E; apply app_eq_nil in E; destruct E; discriminate |].
      unfold event_seconds in *. rewrite map_app, sum_Z_app, length_app.
      cbn [map length app]. unfold sum_Z at 2. cbn [fold_right].
      repeat split; try lia; assumption.
    + rewrite IH. cbn [app map length us_duration us_event_count us_timestamp].
      unfold event_seconds, sum_Z. cbn [map fold_right].
      repeat split; try discriminate; try reflexivity; lia.
  - rewrite get_usage_add_other by congruence. rewrite app_nil_r. exact IH.
Qed.

Lemma hour_floor_aligned (t : datetime) :
  hour_floor t mod 3600 = 0 /\ hour_floor t <= t < hour_floor t + 3600.
Proof.
  unfold hour_floor. pose proof (Z.mod_pos_bound t 3600 ltac:(lia)).
  split; [| lia].
  rewrite Zminus_mod, Z.mod_mod, Z.sub_diag by lia. reflexivity.
Qed.

(** There is one bucket for each (hour, app) pair that some event has, and
    no other: the keys are distinct; a bucket holds the summed durations and
    the number of the events of its hour and app, whatever their order in
    the list; its timestamp is the start of the hour, a multiple of 3600
    seconds. *)
Theorem aggregate_app_usage_buckets (activities : list activity) :
  let m := aggregate_app_usage activities in
  NoDup (map fst m)
  /\ (forall k, In k (map fst m)
                <-> exists a, In a activities /\ key_of a = k)
  /\ (forall k u, In (k, u) m ->
        us_duration u = event_seconds (bucket_events k activities)
        /\ us_event_count u = Z.of_nat (length (bucket_events k activities))
        /\ us_timestamp u = fst k
        /\ us_timestamp u mod 3600 = 0
        /\ 1 <= us_event_count u).
Proof.
  intros m. subst m.
  pose proof (aggregate_app_usage_keys_NoDup activities) as ND.
  assert (K : forall k, In k (map fst (aggregate_app_usage activities))
                        <-> exists a, In a activities /\ key_of a = k).
  { intros k. rewrite get_usage_In_key.
    pose proof (get_usage_aggregate k activities) as G.
    destruct (get_usage k (aggregate_app_usage activities)) as [u |].
    - destruct G as (H0 & _). split; [intros _ | discriminate].
      destruct (bucket_events k activities) as [| a l] eqn:E; [congruence |].
      assert (I : In a (bucket_events k activities)) by (rewrite E; left; easy).
      apply filter_In in I. destruct I as [I Hk]. exists a. split; [exact I |].
      destruct (usage_key_eqb_spec (key_of a) k); [assumption | discriminate].
    - split; [congruence |]. intros (a & I & Hk). exfalso.
      assert (In a (bucket_events k activities)) as I'.
      { apply filter_In. split; [exact I |].
        destruct (usage_key_eqb_spec (key_of a) k); [reflexivity | congruence]. }
      rewrite G in I'. destruct I'. }
  split; [exact ND |]. split; [exact K |].
  intros k u I.
  pose proof (get_usage_aggregate k activities) as G.
  rewrite (get_usage_In k u _ ND I) in G.
  destruct G as (H0 & H1 & H2 & H3).
  split; [exact H1 |]. split; [exact H2 |]. split; [exact H3 |]. split.
  - rewrite H3.
    assert (Ik : In k (map fst (aggregate_app_usage activities))).
    { apply (in_map fst) in I. exact I. }
    apply K in Ik. destruct Ik as (a & _ & <-).
    apply hour_floor_aligned.
  - rewrite H2. destruct (bucket_events k activities); [congruence |].
    cbn [length]. lia.
Qed.

(** ** Window titles and events *)

Lemma nth_head_In {A} (i : nat) (x : A) (l : list A) :
  In (nth i (x :: l) x) (x :: l).
Proof.
  destruct (Nat.lt_ge_cases i (length (x :: l))) as [L | G].
  - apply nth_In, L.
  - rewrite nth_overflow by exact G. left. reflexivity.
Qed.

Lemma choice_inv {A} (seq : list A) (r r' : rng) (a : A) :
  choice seq r = Ret (a, r') -> In a seq /\ r' = rest r.
Proof.
  destruct seq as [| x l]; [discriminate |].
  unfold choice. intros E. injection E as <- <-.
  split; [apply nth_head_In | reflexivity].
Qed.

Lemma choices_inv {A} (population : list A) (weights : list Z) (r r' : rng)
    (a : A) :
  choices population weights r = Ret (a, r') -> In a population.
Proof.
  unfold choices.
  destruct (negb _); [discriminate |].
  destruct population as [| x l]; [discriminate |].
  destruct (_ <=? 0); [discriminate |].
  unfold bind, random, ret. intros E. injection E as <- _.
  apply nth_head_In.
Qed.

(** A title is always found: one of the pool of the app, at the cost of one
    draw, or the app name itself, at no draw, when the app has no pool. *)
Theorem get_window_title_pool (app : string) (r : rng) :
  exists title r',
    get_window_title app r = Ret (title, r')
    /\ title_suits app title
    /\ r' = match lookup_titles app WINDOW_TITLES with
            | Some _ => rest r
            | None => r
            end.
Proof.
  unfold get_window_title, title_suits.
  destruct (lookup_titles app WINDOW_TITLES) as [titles |] eqn:E.
  - pose proof (lookup_titles_nonempty _ _ _ WINDOW_TITLES_nonempty E) as N.
    destruct titles as [| t ts]; [congruence |].
    eexists. eexists. split; [reflexivity |].
    split; [apply nth_head_In | reflexivity].
  - exists app, r. repeat split.
Qed.

Lemma get_window_title_inv (app title : string) (r r' : rng) :
  get_window_title app r = Ret (title, r') -> title_suits app title.
Proof.
  unfold get_window_title, title_suits.
  destruct (lookup_titles app WINDOW_TITLES) as [titles |].
  - intros E. apply choice_inv in E. apply E.
  - intros E. apply ret_inv in E. apply E.
Qed.

Lemma draw_duration_inv (p : user_profile) (r r' : rng) (d : Z) :
  draw_duration (avg_switches_of p) r = Ret (d, r') ->
  30 <= d <= max_event_seconds p.
Proof.
  unfold draw_duration, max_event_seconds.
  destruct (Qltb 80 (avg_switches_of p));
    [| destruct (Qltb 50 (avg_switches_of p))];
    intros E; apply randint_inv in E; lia.
Qed.

Lemma clip_duration_le (d0 : Z) (end_time cur : datetime)
    (breaks : list break_interval) :
  clip_duration d0 end_time cur breaks <= d0.
Proof. unfold clip_duration. lia. Qed.

Lemma window_loop_events (p : user_profile) (end_time : datetime)
    (breaks : list break_interval) (fuel : nat) (cur : datetime)
    (app : string) (acc res : list activity) (r r' : rng) :
  In app (all_apps_of p) ->
  window_loop fuel p end_time breaks cur app acc r = Ret (res, r') ->
  exists suffix, res = (acc ++ suffix)%list /\ Forall (event_ok p) suffix.
Proof.
  revert cur app acc r. induction fuel as [| fuel IH]; intros cur app acc r Ha E.
  - cbn [window_loop] in E. destruct (cur <? end_time); [discriminate |].
    apply ret_inv in E. destruct E as [-> _].
    exists []. rewrite app_nil_r. split; [reflexivity | constructor].
  - cbn [window_loop] in E. destruct (cur <? end_time).
    2:{ apply ret_inv in E. destruct E as [-> _].
        exists []. rewrite app_nil_r. split; [reflexivity | constructor]. }
    destruct (find (in_break cur) breaks) as [b |];
      [apply (IH _ _ _ _ Ha E) |].
    apply bind_Ret_inv in E. destruct E as (d0 & r1 & Ed & E).
    apply draw_duration_inv in Ed. cbv zeta in E.
    pose proof (clip_duration_le d0 end_time cur breaks) as Hc.
    set (d := clip_duration d0 end_time cur breaks) in *. clearbody d.
    destruct (Z.gtb_spec d 0) as [G | G]; [| apply (IH _ _ _ _ Ha E)].
    apply bind_Ret_inv in E. destruct E as (title & r2 & Et & E).
    apply get_window_title_inv in Et.
    apply bind_Ret_inv in E. destruct E as (u & r3 & _ & E).
    assert (Ok : event_ok p {| act_app := app; act_title := title;
                               act_duration := d; act_timestamp := cur |}).
    { unfold event_ok. cbn [act_duration act_app act_title].
      split; [lia |]. split; assumption. }
    assert (Step : forall app' r4,
               In app' (all_apps_of p) ->
               window_loop fuel p end_time breaks (cur + d) app'
                 (acc ++ [{| act_app := app; act_title := title;
                             act_duration := d; act_timestamp := cur |}])%list
                 r4 = Ret (res, r') ->
               exists suffix,
                 res = (acc ++ suffix)%list /\ Forall (event_ok p) suffix).
    { intros app' r4 Ha' E'.
      destruct (IH _ _ _ _ Ha' E') as (suffix & -> & F).
      eexists. rewrite <- app_assoc. split; [reflexivity |].
      constructor; assumption. }
    destruct (Qltb u _).
    + apply bind_Ret_inv in E. destruct E as (app' & r4 & Ec & E).
      apply choices_inv in Ec. apply (Step app' r4 Ec E).
    + apply (Step app r3 Ha E).
Qed.

Lemma generate_window_activities_ok (fuel : nat) (p : user_profile)
    (ws : work_session) (breaks : list break_interval) (r r' : rng)
    (activities : list activity) :
  generate_window_activities fuel p ws breaks r = Ret (activities, r') ->
  Forall (event_ok p) activities.
Proof.
  unfold generate_window_activities. intros E.
  apply bind_Ret_inv in E. destruct E as (app & r1 & Ec & E).
  apply choices_inv in Ec.
  destruct (window_loop_events p _ breaks fuel _ app [] activities r1 r' Ec E)
    as (suffix & -> & F).
  rewrite app_nil_l. exact F.
Qed.

(** Whenever the generator returns, every event lasts at least a second and
    at most the maximum of the persona (180, 300 or 900 seconds), carries an
    app of the profile (or the fallback) and a title that suits the app; so
    the events number at least their total duration over that maximum. *)
Theorem window_activities_events (fuel : nat) (p : user_profile)
    (ws : work_session) (breaks : list break_interval) (r r' : rng)
    (activities : list activity) :
  generate_window_activities fuel p ws breaks r = Ret (activities, r') ->
  Forall (event_ok p) activities
  /\ event_seconds activities
     <= max_event_seconds p * Z.of_nat (length activities).
Proof.
  intros E. pose proof (generate_window_activities_ok _ _ _ _ _ _ _ E) as F.
  split; [exact F |].
  unfold event_seconds. clear E.
  induction F as [| a l Ha _ IH]; [cbn; lia |].
  destruct Ha as (Hd & _). cbn [map length].
  unfold sum_Z in *. cbn [fold_right]. lia.
Qed.

Lemma window_activities_events_witness :
  exists activities r',
    generate_window_activities 200 scenario_profile (session_of monday_17 9 17)
      [lunch_at (session_of monday_17 9 17) 8640 1800] zeros
    = Ret (activities, r')
    /\ Forall (event_ok scenario_profile) activities.
Proof.
  destruct (generate_window_activities 200 scenario_profile
              (session_of monday_17 9 17)
              [lunch_at (session_of monday_17 9 17) 8640 1800] zeros)
    as [[activities r'] | e |] eqn:E.
  - exists activities, r'. split; [reflexivity |].
    apply (window_activities_events 200 scenario_profile
             (session_of monday_17 9 17)
             [lunch_at (session_of monday_17 9 17) 8640 1800] zeros r'
             activities E).
  - vm_compute in E. discriminate.
  - vm_compute in E. discriminate.
Defined.

Lemma tiles_chronological (breaks : list break_interval) (cur c : datetime)
    (activities : list activity) :
  tiles breaks cur activities c ->
  Forall (fun a => cur <= act_timestamp a
                   /\ act_timestamp a + act_duration a <= c) activities
  /\ StronglySorted precedes activities.
Proof.
  induction 1 as [c | cur c b acts Ib Hb T [IH1 IH2]
                  | cur c a acts Ha Hd F T [IH1 IH2]].
  - split; constructor.
  - split; [| exact IH2].
    eapply Forall_impl; [| exact IH1]. cbn. intros a H. lia.
  - pose proof (tiles_le _ _ _ _ T) as Le. split.
    + constructor; [lia |].
      eapply Forall_impl; [| exact IH1]. cbn. intros x H. lia.
    + constructor; [exact IH2 |].
      eapply Forall_impl; [| exact IH1]. unfold precedes. cbn.
      intros x H. lia.
Qed.

(** Under the conditions of the coverage property the generator returns its
    events in chronological order: each one lies within the session and
    ends by the time the next one starts. *)
Theorem window_activities_chronological (fuel : nat) (p : user_profile)
    (ws : work_session) (breaks : list break_interval) (r : rng) :
  has_apps p ->
  0 <= ws_end ws - ws_start ws < 86400 ->
  breaks_wf ws breaks ->
  (Z.to_nat (ws_end ws - ws_start ws) <= fuel)%nat ->
  exists activities r',
    generate_window_activities fuel p ws breaks r = Ret (activities, r')
    /\ StronglySorted precedes activities
    /\ Forall (fun a => ws_start ws <= act_timestamp a
                        /\ act_timestamp a + act_duration a <= ws_end ws)
         activities.
Proof.
  intros HA Hws WF Hf.
  destruct (generate_window_activities_tiles fuel p ws breaks r HA Hws WF Hf)
    as (acts & r' & E & T).
  destruct (tiles_chronological breaks _ _ acts T) as [F S].
  exists acts, r'. repeat split; assumption.
Qed.

Lemma window_activities_chronological_witness :
  breaks_wf (session_of monday_17 9 17)
    [lunch_at (session_of monday_17 9 17) 8640 1800]
  /\ exists activities r',
       generate_window_activities (Z.to_nat 28800) scenario_profile
         (session_of monday_17 9 17)
         [lunch_at (session_of monday_17 9 17) 8640 1800] zeros
       = Ret (activities, r')
       /\ StronglySorted precedes activities
       /\ Forall (fun a => ws_start (session_of monday_17 9 17)
                           <= act_timestamp a
                           /\ act_timestamp a + act_duration a
                              <= ws_end (session_of monday_17 9 17))
            activities.
Proof.
  assert (WF : breaks_wf (session_of monday_17 9 17)
                 [lunch_at (session_of monday_17 9 17) 8640 1800]).
  { apply one_lunch_wf; vm_compute; discriminate. }
  split; [exact WF |].
  apply (window_activities_chronological (Z.to_nat 28800) scenario_profile
           (session_of monday_17 9 17) _ zeros).
  - discriminate.
  - vm_compute. split; [discriminate | reflexivity].
  - exact WF.
  - change (Z.to_nat 28800 <= Z.to_nat 28800)%nat. apply le_n.
Defined.

(** ** The whole run *)

Lemma skip_add (a b : nat) (r : rng) : skip (a + b) r = skip b (skip a r).
Proof.
  revert r. induction a as [| a IH]; intros r; [reflexivity |].
  cbn [Nat.add skip]. apply IH.
Qed.

Lemma generate_work_session_off (p : user_profile) (d : date) (r : rng) :
  is_weekend d = true -> weekend_activity p = false ->
  generate_work_session p d r = Ret (None, r).
Proof.
  intros W A. unfold generate_work_session. rewrite W, A. reflexivity.
Qed.

Lemma generate_user_day_off (fuel : nat) (p : user_profile) (d : date)
    (r : rng) :
  is_weekend d = true -> weekend_activity p = false -> hostnames p <> [] ->
  generate_user_day fuel p d r = Ret (None, rest r).
Proof.
  intros W A H. unfold generate_user_day.
  destruct (hostnames p) as [| h hs]; [congruence |].
  unfold bind at 1. unfold choice at 1.
  rewrite (bind_Ret _ _ (rest r) (rest r) None
             (generate_work_session_off p d (rest r) W A)).
  reflexivity.
Qed.

Lemma dates_loop_off (fuel : nat) (p : user_profile) (dates : list date)
    (data : all_data) (r : rng) :
  weekend_activity p = false -> hostnames p <> [] ->
  Forall (fun d => is_weekend d = true) dates ->
  dates_loop fuel p dates data r = Ret (data, skip (length dates) r).
Proof.
  intros A H F. revert r. induction F as [| d ds W _ IH]; intros r;
    [reflexivity |].
  cbn [dates_loop length skip].
  rewrite (bind_Ret _ _ r (rest r) None
             (generate_user_day_off fuel p d r W A H)).
  apply IH.
Qed.

(** A run over weekend dates only, for users without weekend activity,
    emits no record of any kind; it consumes one draw per user and date,
    the choice of the hostname. *)
Theorem generate_all_data_weekend_off (fuel : nat) (profiles : profiles_data)
    (dates : list date) (r : rng) :
  Forall (fun p => weekend_activity p = false /\ hostnames p <> [])
    (users profiles) ->
  get_date_range fuel (range_start profiles) (range_end profiles)
  = Some dates ->
  Forall (fun d => is_weekend d = true) dates ->
  generate_all_data fuel profiles r
  = Ret (no_data, skip (length (users profiles) * length dates) r).
Proof.
  intros FU ED FD. unfold generate_all_data. rewrite ED.
  generalize no_data as data. revert r.
  induction FU as [| p us [A H] _ IH]; intros r data; [reflexivity |].
  cbn [users_loop length Nat.mul].
  rewrite (bind_Ret _ _ r _ data (dates_loop_off fuel p dates data r A H FD)).
  rewrite IH, skip_add. reflexivity.
Qed.

Lemma generate_all_data_weekend_off_witness :
  get_date_range 2 saturday_15 20408 = Some [saturday_15; 20408]
  /\ generate_all_data 2
       {| users := [scenario_profile; long_lunch_profile];
          range_start := saturday_15; range_end := 20408 |} zeros
     = Ret (no_data, skip (2 * 2) zeros).
Proof.
  split; [reflexivity |].
  apply (generate_all_data_weekend_off 2
           {| users := [scenario_profile; long_lunch_profile];
              range_start := saturday_15; range_end := 20408 |}
           [saturday_15; 20408] zeros).
  - repeat constructor; discriminate.
  - reflexivity.
  - repeat constructor.
Defined.

Lemma generate_user_day_no_hostname (fuel : nat) (p : user_profile)
    (d : date) (r : rng) :
  hostnames p = [] -> generate_user_day fuel p d r = Raise IndexError.
Proof. intros H. unfold generate_user_day. rewrite H. reflexivity. Qed.

Lemma users_loop_Ret_inv (fuel : nat) (all_users : list user_profile)
    (dates : list date) (data data' : all_data) (r r' : rng)
    (p : user_profile) :
  users_loop fuel all_users dates data r = Ret (data', r') ->
  In p all_users ->
  exists data0 r0 data1 r1,
    dates_loop fuel p dates data0 r0 = Ret (data1, r1).
Proof.
  revert data r. induction all_users as [| q us IH]; intros data r E I;
    [destruct I |].
  cbn [users_loop] in E.
  apply bind_Ret_inv in E. destruct E as (data1 & r1 & E1 & E).
  destruct I as [-> | I].
  - exists data, r, data1, r1. exact E1.
  - apply (IH _ _ E I).
Qed.

(** A user without hostnames stops the run: when the date range is not
    empty the run returns no data at all, whatever the other users; if that
    user comes first, the run raises [IndexError] at its first date. *)
Theorem generate_all_data_no_hostname (fuel : nat) (profiles : profiles_data)
    (p : user_profile) (d : date) (dates : list date) (r : rng) :
  In p (users profiles) ->
  hostnames p = [] ->
  get_date_range fuel (range_start profiles) (range_end profiles)
  = Some (d :: dates) ->
  (forall data r', generate_all_data fuel profiles r <> Ret (data, r'))
  /\ (forall others, users profiles = p :: others ->
        generate_all_data fuel profiles r = Raise IndexError).
Proof.
  intros I H ED. unfold generate_all_data. rewrite ED. split.
  - intros data r' E.
    destruct (users_loop_Ret_inv _ _ _ _ _ _ _ p E I)
      as (data0 & r0 & data1 & r1 & E1).
    cbn [dates_loop] in E1.
    rewrite (bind_Raise _ _ r0 IndexError
               (generate_user_day_no_hostname fuel p d r0 H)) in E1.
    discriminate.
  - intros others ->. cbn [users_loop dates_loop].
    apply bind_Raise, bind_Raise, generate_user_day_no_hostname, H.
Qed.

Lemma generate_all_data_no_hostname_witness :
  hostnames no_host_profile = []
  /\ generate_all_data 1
       {| users := [no_host_profile; scenario_profile];
          range_start := monday_17; range_end := monday_17 |} zeros
     = Raise IndexError.
Proof.
  split; [reflexivity |].
  apply (proj2 (generate_all_data_no_hostname 1
                  {| users := [no_host_profile; scenario_profile];
                     range_start := monday_17; range_end := monday_17 |}
                  no_host_profile monday_17 [] zeros
                  (or_introl eq_refl) eq_refl eq_refl)
           [scenario_profile] eq_refl).
Defined.

Lemma generate_user_day_inv (fuel : nat) (p : user_profile) (d : date)
    (r r' : rng) (dd : day_data) :
  generate_user_day fuel p d r = Ret (Some dd, r') ->
  exists r1 r2,
    In (dd_hostname dd) (hostnames p)
    /\ generate_work_session p d (rest r) = Ret (Some (dd_session dd), r1)
    /\ generate_breaks p (dd_session dd) r1 = Ret (dd_breaks dd, r2)
    /\ generate_window_activities fuel p (dd_session dd) (dd_breaks dd) r2
       = Ret (dd_activities dd, r')
    /\ dd_statuses dd = generate_afk_statuses (dd_session dd) (dd_breaks dd)
    /\ dd_metric dd
       = calculate_daily_metrics d (dd_statuses dd) (dd_activities dd).
Proof.
  unfold generate_user_day. intros E.
  apply bind_Ret_inv in E. destruct E as (h & r0 & Eh & E).
  apply choice_inv in Eh. destruct Eh as [Ih ->].
  apply bind_Ret_inv in E. destruct E as (o & r1 & Es & E).
  destruct o as [ws |]; [| apply ret_inv in E; destruct E; discriminate].
  apply bind_Ret_inv in E. destruct E as (breaks & r2 & Eb & E).
  apply bind_Ret_inv in E. destruct E as (acts & r3 & Ea & E).
  apply ret_inv in E. destruct E as [E ->]. injection E as ->.
  exists r1, r2. cbn. repeat split; assumption.
Qed.

Lemma add_day_owned (all_users : list user_profile) (p : user_profile)
    (dd : day_data) (data : all_data) :
  In p all_users -> In (dd_hostname dd) (hostnames p) ->
  data_owned all_users data -> data_owned all_users (add_day p dd data).
Proof.
  intros Ip Ih (H1 & H2 & H3 & H4).
  assert (O : owned all_users (username p) (dd_hostname dd))
    by (exists p; repeat split; assumption).
  unfold data_owned, add_day.
  cbn [window_activities afk_statuses app_usage daily_metrics].
  rewrite !Forall_app.
  repeat split; try assumption; try (apply Forall_map, Forall_forall;
                                     intros x _; exact O).
  constructor; [exact O | constructor].
Qed.

Lemma add_day_metrics_length (p : user_profile) (dd : day_data)
    (data : all_data) :
  length (daily_metrics (add_day p dd data))
  = S (length (daily_metrics data)).
Proof. unfold add_day. cbn. rewrite length_app. cbn. lia. Qed.

Lemma dates_loop_owned (fuel : nat) (all_users : list user_profile)
    (p : user_profile) (dates : list date) (data data' : all_data)
    (r r' : rng) :
  In p all_users ->
  dates_loop fuel p dates data r = Ret (data', r') ->
  data_owned all_users data ->
  data_owned all_users data'
  /\ (length (daily_metrics data')
      <= length (daily_metrics data) + length dates)%nat.
Proof.
  intros Ip. revert data r. induction dates as [| d ds IH]; intros data r E O.
  - apply ret_inv in E. destruct E as [-> _]. split; [exact O | lia].
  - cbn [dates_loop] in E.
    apply bind_Ret_inv in E. destruct E as (o & r1 & Ed & E).
    destruct o as [dd |].
    + destruct (generate_user_day_inv _ _ _ _ _ _ Ed) as (_ & _ & Ih & _).
      destruct (IH _ _ E (add_day_owned _ _ _ _ Ip Ih O)) as [O' L].
      rewrite add_day_metrics_length in L. split; [exact O' | cbn; lia].
    + destruct (IH _ _ E O) as [O' L]. split; [exact O' | cbn; lia].
Qed.

(** Whenever the run returns, every record of the four kinds carries the
    username of one of the users and one of that user's hostnames, and there
    is at most one daily record per user and date. *)
Theorem generate_all_data_owned (fuel : nat) (profiles : profiles_data)
    (dates : list date) (data : all_data) (r r' : rng) :
  get_date_range fuel (range_start profiles) (range_end profiles)
  = Some dates ->
  generate_all_data fuel profiles r = Ret (data, r') ->
  data_owned (users profiles) data
  /\ (length (daily_metrics data)
      <= length (users profiles) * length dates)%nat.
Proof.
  intros ED. unfold generate_all_data. rewrite ED.
  assert (G : forall us data0 r0,
             (forall p, In p us -> In p (users profiles)) ->
             users_loop fuel us dates data0 r0 = Ret (data, r') ->
             data_owned (users profiles) data0 ->
             data_owned (users profiles) data
             /\ (length (daily_metrics data)
                 <= length (daily_metrics data0) + length us * length dates)%nat).
  { induction us as [| p us IH]; intros data0 r0 Sub E O.
    - apply ret_inv in E. destruct E as [-> _]. split; [exact O | cbn; lia].
    - cbn [users_loop] in E.
      apply bind_Ret_inv in E. destruct E as (data1 & r1 & E1 & E).
      destruct (dates_loop_owned _ _ _ _ _ _ _ _ (Sub p (or_introl eq_refl))
                  E1 O) as [O1 L1].
      destruct (IH data1 r1 (fun q I => Sub q (or_intror I)) E O1) as [O2 L2].
      split; [exact O2 | cbn [length Nat.mul]; lia]. }
  intros E.
  destruct (G (users profiles) no_data r (fun p I => I) E) as [O L];
    [repeat split; constructor |].
  split; [exact O | exact L].
Qed.

Lemma generate_all_data_owned_witness :
  exists data r',
    generate_all_data 200
      {| users := [scenario_profile];
         range_start := saturday_15; range_end := monday_17 |} zeros
    = Ret (data, r')
    /\ data_owned [scenario_profile] data
    /\ (length (daily_metrics data) <= 1 * 3)%nat.
Proof.
  destruct (generate_all_data 200
              {| users := [scenario_profile];
                 range_start := saturday_15; range_end := monday_17 |} zeros)
    as [[data r'] | e |] eqn:E.
  - exists data, r'. split; [reflexivity |].
    apply (generate_all_data_owned 200
             {| users := [scenario_profile];
                range_start := saturday_15; range_end := monday_17 |}
             [saturday_15; 20408; monday_17] data zeros r' eq_refl E).
  - vm_compute in E. discriminate.
  - vm_compute in E. discriminate.
Defined.

(** ** Coffee-break placement: first fit *)

(** The retry loop accepts the first drawn placement that overlaps no
    accepted break and appends the coffee break there, every earlier
    candidate having overlapped; when all its candidates overlap it leaves
    the list unchanged.  Either way it has drawn one offset per candidate
    tried, at most the number of attempts. *)
Theorem place_coffee_first_fit (n : nat) (ws : work_session)
    (work_duration mins : Z) (breaks breaks' : list break_interval)
    (r r' : rng) :
  place_coffee n ws work_duration mins breaks r = Ret (breaks', r') ->
  (breaks' = breaks /\ r' = skip n r
   /\ forall k, (k < n)%nat ->
        candidate_overlaps ws work_duration mins breaks (skip k r) = true)
  \/ exists k,
       (k < n)%nat /\ r' = skip (S k) r
       /\ (forall j, (j < k)%nat ->
             candidate_overlaps ws work_duration mins breaks (skip j r) = true)
       /\ candidate_overlaps ws work_duration mins breaks (skip k r) = false
       /\ breaks'
          = (breaks
             ++ [coffee_at (candidate_start ws work_duration mins (skip k r))
                   mins])%list.
Proof.
  revert r. induction n as [| n IH]; intros r E.
  - apply ret_inv in E. destruct E as [-> ->]. left.
    repeat split. intros k Hk. lia.
  - cbn [place_coffee] in E.
    apply bind_Ret_inv in E. destruct E as (off & r1 & E1 & E).
    assert (Hoff : ws_start ws + off
                   = candidate_start ws work_duration mins r /\ r1 = rest r).
    { unfold randint in E1. unfold candidate_start.
      destruct (_ <? 0); [discriminate |]. injection E1 as <- <-. auto. }
    destruct Hoff as [Hoff ->]. rewrite Hoff in E.
    fold (candidate_overlaps ws work_duration mins breaks r) in E.
    destruct (candidate_overlaps ws work_duration mins breaks r) eqn:C.
    + destruct (IH _ E) as [(-> & -> & H) | (k & Hk & -> & H1 & H2 & ->)].
      * left. repeat split. intros [| k] Hk; [exact C |].
        cbn [skip]. apply H. lia.
      * right. exists (S k). repeat split; [lia | | exact H2].
        intros [| j] Hj; [exact C |]. cbn [skip]. apply H1. lia.
    + apply ret_inv in E. destruct E as [-> ->]. right.
      exists O. repeat split; [lia | | exact C].
      intros j Hj. lia.
Qed.

Lemma place_coffee_first_fit_witness :
  exists breaks' r',
    place_coffee 10 (session_of monday_17 9 17) 28800 10
      [lunch_at (session_of monday_17 9 17) 8640 3600] (skip 4 always_at_lunch)
    = Ret (breaks', r')
    /\ (breaks' = [lunch_at (session_of monday_17 9 17) 8640 3600]
        \/ exists k, (k < 10)%nat /\ r' = skip (S k) (skip 4 always_at_lunch)).
Proof.
  destruct (place_coffee 10 (session_of monday_17 9 17) 28800 10
              [lunch_at (session_of monday_17 9 17) 8640 3600]
              (skip 4 always_at_lunch)) as [[breaks' r'] | e |] eqn:E.
  - exists breaks', r'. split; [reflexivity |].
    destruct (place_coffee_first_fit _ _ _ _ _ _ _ _ E)
      as [(H & _) | (k & Hk & Hr & _)].
    + left. exact H.
    + right. exists k. split; assumption.
  - vm_compute in E. discriminate.
  - vm_compute in E. discriminate.
Defined.

(** ** The accounts of a generated day *)

(** For a day that the pipeline returns, with breaks that fit the session,
    nothing of the session is lost or counted twice: the break list is well
    formed, and the seconds of the hourly app-usage buckets plus the seconds
    of the breaks are the session length, the buckets counting every event
    once. *)
Theorem generated_day_accounts (fuel : nat) (p : user_profile) (d : date)
    (r r' : rng) (dd : day_data) :
  generate_user_day fuel p d r = Ret (Some dd, r') ->
  has_apps p ->
  breaks_fit p (dd_session dd) ->
  (Z.to_nat (ws_end (dd_session dd) - ws_start (dd_session dd)) <= fuel)%nat ->
  breaks_wf (dd_session dd) (dd_breaks dd)
  /\ usage_seconds (aggregate_app_usage (dd_activities dd))
     + break_seconds (dd_breaks dd)
     = ws_end (dd_session dd) - ws_start (dd_session dd)
  /\ usage_events (aggregate_app_usage (dd_activities dd))
     = Z.of_nat (length (dd_activities dd)).
Proof.
  intros E HA F Hf.
  destruct (generate_user_day_inv _ _ _ _ _ _ E)
    as (r1 & r2 & _ & _ & Eb & Ea & _).
  destruct (generate_breaks_wf p (dd_session dd) r1 F)
    as (breaks & r2' & Eb' & WF).
  rewrite Eb in Eb'. injection Eb' as <- <-.
  pose proof F as (Hws & _).
  destruct (generate_window_activities_tiles fuel p (dd_session dd)
              (dd_breaks dd) r2 HA Hws WF Hf) as (acts & r3 & Ea' & T).
  rewrite Ea in Ea'. injection Ea' as <- <-.
  split; [exact WF |].
  pose proof (tiles_session_seconds _ _ _ WF T) as Sum.
  pose proof (aggregate_app_usage_seconds (dd_activities dd)) as U.
  pose proof (aggregate_app_usage_events (dd_activities dd)) as N.
  split; [lia | exact N].
Qed.

Lemma generated_day_accounts_witness :
  exists dd r',
    generate_user_day (Z.to_nat 28800) scenario_profile monday_17 zeros
    = Ret (Some dd, r')
    /\ usage_seconds (aggregate_app_usage (dd_activities dd))
       + break_seconds (dd_breaks dd)
       = ws_end (dd_session dd) - ws_start (dd_session dd).
Proof.
  assert (Sc : scenario scenario_profile).
  { repeat split; try reflexivity. discriminate. }
  destruct (scenario_session scenario_profile monday_17 (rest zeros) Sc
              eq_refl) as (ws & Es & Hws).
  destruct (scenario_breaks scenario_profile ws
              (rest (rest (rest zeros))) Sc Hws) as (off & Hoff & Eb).
  assert (WF : breaks_wf ws [lunch_at ws off 1800])
    by (apply one_lunch_wf; lia).
  assert (F : breaks_fit scenario_profile ws).
  { unfold breaks_fit. rewrite work_duration_exact by lia. rewrite Hws.
    cbn. repeat split; intros; try lia; try discriminate. }
  destruct (generate_window_activities_tiles (Z.to_nat 28800) scenario_profile
              ws [lunch_at ws off 1800]
              (rest (rest (rest (rest (rest (rest zeros))))))
              ltac:(discriminate) ltac:(lia) WF
              ltac:(rewrite Hws; apply le_n)) as (acts & r' & Ea & _).
  assert (E : generate_user_day (Z.to_nat 28800) scenario_profile monday_17
                zeros
              = Ret (Some {| dd_hostname := "alice-laptop";
                             dd_session := ws;
                             dd_breaks := [lunch_at ws off 1800];
                             dd_activities := acts;
                             dd_statuses :=
                               generate_afk_statuses ws [lunch_at ws off 1800];
                             dd_metric :=
                               calculate_daily_metrics monday_17
                                 (generate_afk_statuses ws
                                    [lunch_at ws off 1800]) acts |}, r')).
  { unfold generate_user_day.
    unfold bind at 1. unfold choice at 1. cbn [hostnames scenario_profile].
    unfold bind at 1. rewrite Es.
    unfold bind at 1. rewrite Eb.
    unfold bind at 1. rewrite Ea. reflexivity. }
  eexists. exists r'. split; [exact E |].
  apply (generated_day_accounts _ _ _ _ _ _ E).
  - discriminate.
  - exact F.
  - cbn [dd_session]. rewrite Hws. apply le_n.
Defined.

(** ** Escaping: distinct values, lengths *)

(** Two different tag values never get the same escaped text, and two
    different titles never get the same quoted field. *)
Theorem escape_injective (s t : string) :
  (escape_lp_tag s = escape_lp_tag t -> s = t)
  /\ (escape_lp_string s = escape_lp_string t -> s = t).
Proof.
  split; intros E.
  - apply (f_equal unescape_tag) in E.
    rewrite !unescape_escape_lp_tag in E. exact E.
  - unfold escape_lp_string in E. fold (escape_body s) (escape_body t) in E.
    injection E as E.
    apply (f_equal parse_lp_string_body) in E.
    rewrite !parse_escape_body in E. congruence.
Qed.

Lemma string_length_append (x y : string) :
  String.length (x ++ y) = (String.length x + String.length y)%nat.
Proof.
  induction x as [| a x IH]; [reflexivity |].
  cbn. now rewrite IH.
Qed.

Lemma escape_body_length (s : string) :
  String.length (escape_body s)
  = (String.length s + count_chars string_special s)%nat.
Proof.
  induction s as [| a s IH]; [reflexivity |].
  rewrite escape_body_cons. cbn [count_chars].
  destruct (string_special a); cbn [String.length]; rewrite IH; lia.
Qed.

(** Escaping works character by character: the escaped text of a tag value
    is the concatenation of the escaped texts of its parts; it is one
    character longer for each comma, equals sign and space; a value without
    any of them is left as it is, backslashes included.  A quoted field is
    longer than its title by two quotes and one character for each backslash
    and double quote. *)
Theorem escape_lengths (s t : string) :
  escape_lp_tag (s ++ t) = (escape_lp_tag s ++ escape_lp_tag t)%string
  /\ String.length (escape_lp_tag s)
     = (String.length s + count_chars tag_special s)%nat
  /\ (count_chars tag_special s = O -> escape_lp_tag s = s)
  /\ String.length (escape_lp_string s)
     = (String.length s + count_chars string_special s + 2)%nat.
Proof.
  split; [| split; [| split]].
  - induction s as [| a s IH]; [reflexivity |].
    cbn [append]. rewrite !escape_lp_tag_cons, IH.
    destruct (tag_special a); reflexivity.
  - induction s as [| a s IH]; [reflexivity |].
    rewrite escape_lp_tag_cons. cbn [count_chars].
    destruct (tag_special a); cbn [String.length]; rewrite IH; lia.
  - induction s as [| a s IH]; [reflexivity |].
    rewrite escape_lp_tag_cons. cbn [count_chars].
    destruct (tag_special a); [discriminate |].
    intros H. rewrite IH by exact H. reflexivity.
  - unfold escape_lp_string. fold (escape_body s).
    cbn [String.length]. rewrite string_length_append, escape_body_length.
    cbn [String.length]. lia.
Qed.

(** ** Profiles on which the run completes *)

(** The session of a date that is not off has a length within its bounds. *)
Lemma generate_work_session_bounds (p : user_profile) (d : date) (r : rng)
    (shortest longest : Z) :
  session_bounds p d = Some (shortest, longest) ->
  0 <= variance_minutes (work_hours p) ->
  exists ws r',
    generate_work_session p d r = Ret (Some ws, r')
    /\ shortest <= ws_end ws - ws_start ws <= longest.
Proof.
  unfold session_bounds. intros B V.
  destruct (applicable_schedule p d) as [sched |] eqn:S; [| discriminate].
  destruct (is_weekend d) eqn:W.
  - injection B as <- <-.
    rewrite (generate_work_session_weekend p d sched r W S).
    eexists. eexists. split; [reflexivity |]. cbn [ws_start ws_end]. lia.
  - assert (Hs : shortest
                 = at_clock d (snd sched) - at_clock d (fst sched)
                   - 120 * variance_minutes (work_hours p)) by congruence.
    assert (Hl : longest
                 = at_clock d (snd sched) - at_clock d (fst sched)
                   + 120 * variance_minutes (work_hours p)) by congruence.
    clear B. subst shortest longest.
    assert (sched = (wh_start (work_hours p), wh_end (work_hours p))) as ->.
    { unfold applicable_schedule in S. rewrite W in S. congruence. }
    eexists. eexists. split.
    + apply generate_work_session_weekday; assumption.
    + rewrite session_with_offsets_length.
      set (v := variance_minutes (work_hours p)) in *.
      pose proof (randint_value_bounds (- v) v (r 0%nat) ltac:(lia)).
      pose proof (randint_value_bounds (- v) v (r 1%nat) ltac:(lia)).
      cbn [fst snd]. lia.
Qed.

Lemma generate_work_session_no_bounds (p : user_profile) (d : date)
    (r : rng) :
  session_bounds p d = None -> generate_work_session p d r = Ret (None, r).
Proof.
  unfold session_bounds, applicable_schedule, generate_work_session.
  destruct (is_weekend d); [| discriminate].
  destruct (weekend_activity p); cbn [negb]; [| reflexivity].
  destruct (if weekday d =? 5 then saturday (weekend_schedule p)
            else sunday (weekend_schedule p)); [discriminate | reflexivity].
Qed.

(** A lunch of at most two hours fits every session that gets one. *)
Lemma day_ok_breaks_fit (p : user_profile) (d : date) (ws : work_session)
    (shortest longest : Z) :
  day_ok p d ->
  session_bounds p d = Some (shortest, longest) ->
  shortest <= ws_end ws - ws_start ws <= longest ->
  breaks_fit p ws.
Proof.
  intros (_ & K) B L. rewrite B in K.
  destruct K as (_ & _ & K1 & K2 & K3 & K4 & K5 & K6 & K7).
  unfold breaks_fit. rewrite work_duration_exact by lia.
  split; [lia |]. split; [| split; [exact K5 |]].
  - intros G. split; [exact K3 |]. unfold lunch_offset_hi.
    pose proof (Z.div_mod (ws_end ws - ws_start ws) 2 ltac:(lia)).
    pose proof (Z.mod_pos_bound (ws_end ws - ws_start ws) 2 ltac:(lia)).
    lia.
  - intros _. split; [exact K6 | lia].
Qed.

Lemma generate_user_day_returns (fuel : nat) (p : user_profile) (d : date)
    (r : rng) :
  day_ok p d ->
  (Z.to_nat 86400 <= fuel)%nat ->
  exists day r',
    generate_user_day fuel p d r = Ret (day, r')
    /\ match day with
       | None => session_bounds p d = None
       | Some dd =>
           breaks_wf (dd_session dd) (dd_breaks dd)
           /\ exact_cover (dd_session dd) (dd_activities dd) (dd_breaks dd)
       end.
Proof.
  intros OK Hf. pose proof OK as (H & K).
  unfold generate_user_day.
  destruct (hostnames p) as [| h hs]; [congruence |].
  unfold bind at 1. unfold choice at 1.
  destruct (session_bounds p d) as [[shortest longest] |] eqn:B.
  - destruct K as (HA & V & K1 & K2 & _).
    destruct (generate_work_session_bounds p d (rest r) _ _ B V)
      as (ws & r1 & Es & L).
    pose proof (day_ok_breaks_fit p d ws _ _ OK B L) as F.
    destruct (generate_breaks_wf p ws r1 F) as (breaks & r2 & Eb & WF).
    assert (Hfuel : (Z.to_nat (ws_end ws - ws_start ws) <= fuel)%nat).
    { apply Nat.le_trans with (Z.to_nat 86400); [| exact Hf].
      apply Z2Nat.inj_le; lia. }
    destruct (generate_window_activities_tiles fuel p ws breaks r2 HA
                ltac:(lia) WF Hfuel) as (acts & r3 & Ea & T).
    eexists. exists r3. split.
    + unfold bind at 1. rewrite Es.
      unfold bind at 1. rewrite Eb.
      unfold bind at 1. rewrite Ea. reflexivity.
    + cbn [dd_session dd_breaks dd_activities].
      split; [exact WF | apply tiles_exact_cover; assumption].
  - exists None, (rest r). split; [| reflexivity].
    rewrite (bind_Ret _ _ (rest r) (rest r) None
               (generate_work_session_no_bounds p d (rest r) B)).
    reflexivity.
Qed.

(** For a profile that is fit for the date, the pipeline of the day returns
    on every stream, with no exception and within a day's seconds of fuel:
    no data on a day off, and otherwise a day whose breaks are sorted,
    pairwise non-overlapping and within the session, and whose events and
    breaks partition the session. *)
Theorem fit_day_returns (fuel : nat) (p : user_profile) (d : date) (r : rng) :
  day_ok p d ->
  (Z.to_nat 86400 <= fuel)%nat ->
  exists day r',
    generate_user_day fuel p d r = Ret (day, r')
    /\ (day = None <-> session_bounds p d = None)
    /\ forall dd, day = Some dd ->
         breaks_wf (dd_session dd) (dd_breaks dd)
         /\ exact_cover (dd_session dd) (dd_activities dd) (dd_breaks dd).
Proof.
  intros OK Hf.
  destruct (generate_user_day_returns fuel p d r OK Hf) as (day & r' & E & H).
  exists day, r'. split; [exact E |]. destruct day as [dd |].
  - split.
    + split; [discriminate |]. intros B. exfalso.
      destruct (generate_user_day_inv _ _ _ _ _ _ E) as (r1 & _ & _ & Es & _).
      rewrite (generate_work_session_no_bounds p d (rest r) B) in Es.
      discriminate.
    + intros dd' E'. injection E' as <-. exact H.
  - split; [tauto | discriminate].
Qed.

Lemma fit_day_returns_witness :
  day_ok one_coffee_profile monday_17
  /\ exists day r',
       generate_user_day (Z.to_nat 86400) one_coffee_profile monday_17 zeros
       = Ret (day, r')
       /\ (day = None <-> session_bounds one_coffee_profile monday_17 = None).
Proof.
  assert (OK : day_ok one_coffee_profile monday_17).
  { split; [discriminate |]. vm_compute.
    repeat split; intros; discriminate. }
  split; [exact OK |].
  destruct (fit_day_returns (Z.to_nat 86400) one_coffee_profile monday_17
              zeros OK (le_n _)) as (day & r' & E & H & _).
  exists day, r'. split; [exact E | exact H].
Defined.




(** ** A single app; the seconds of a bucket *)

Lemma count_switches_same (x : string) (activities : list activity)
    (last_app : option string) :
  Forall (fun a => act_app a = x) activities ->
  last_app = None \/ last_app = Some x ->
  count_switches last_app activities = 0.
Proof.
  intros F. revert last_app.
  induction F as [| a l Ha _ IH]; intros last_app L; [reflexivity |].
  cbn [count_switches]. rewrite (IH (Some (act_app a)))
    by (right; congruence).
  destruct L as [-> | ->]; [reflexivity |].
  rewrite Ha, String.eqb_refl, andb_false_r. reflexivity.
Qed.

(** With a single candidate app no switch is ever counted: whatever events
    the generator returns, the daily record has app_switches = 0. *)
Theorem single_app_no_switches (fuel : nat) (p : user_profile)
    (ws : work_session) (breaks : list break_interval) (r r' : rng)
    (activities : list activity) (x : string) (d : date)
    (statuses : list afk_status) :
  generate_window_activities fuel p ws breaks r = Ret (activities, r') ->
  all_apps_of p = [x] ->
  app_switches (calculate_daily_metrics d statuses activities) = 0.
Proof.
  intros E A. cbn [calculate_daily_metrics app_switches].
  apply (count_switches_same x); [| left; reflexivity].
  pose proof (generate_window_activities_ok _ _ _ _ _ _ _ E) as F.
  eapply Forall_impl; [| exact F].
  intros a (_ & I & _). rewrite A in I. destruct I as [<- | []]. reflexivity.
Qed.

Lemma single_app_no_switches_witness :
  exists activities r',
    generate_window_activities 200 scenario_profile (session_of monday_17 9 17)
      [lunch_at (session_of monday_17 9 17) 8640 1800] zeros
    = Ret (activities, r')
    /\ app_switches (calculate_daily_metrics monday_17 [] activities) = 0.
Proof.
  destruct (generate_window_activities 200 scenario_profile
              (session_of monday_17 9 17)
              [lunch_at (session_of monday_17 9 17) 8640 1800] zeros)
    as [[activities r'] | e |] eqn:E.
  - exists activities, r'. split; [reflexivity |].
    apply (single_app_no_switches 200 scenario_profile
             (session_of monday_17 9 17)
             [lunch_at (session_of monday_17 9 17) 8640 1800] zeros r'
             activities "Chrome" monday_17 [] E eq_refl).
  - vm_compute in E. discriminate.
  - vm_compute in E. discriminate.
Defined.

Lemma StronglySorted_filter {A} (R : A -> A -> Prop) (f : A -> bool)
    (l : list A) :
  StronglySorted R l -> StronglySorted R (filter f l).
Proof.
  induction 1 as [| a l S IH F]; cbn [filter]; [constructor |].
  destruct (f a); [| exact IH].
  constructor; [exact IH |].
  apply Forall_forall. intros x I. apply filter_In in I.
  rewrite Forall_forall in F. apply F, I.
Qed.

(** Events that follow one another inside [lo, hi] last no longer than the
    interval. *)
Lemma chronological_seconds (lo hi : datetime) (l : list activity) :
  StronglySorted precedes l ->
  Forall (fun a => lo <= act_timestamp a /\ 0 < act_duration a
                   /\ act_timestamp a + act_duration a <= hi) l ->
  event_seconds l <= Z.max 0 (hi - lo).
Proof.
  intros S. revert lo. induction S as [| a l S IH F]; intros lo B.
  - cbn. lia.
  - inversion B as [| ? ? Ba Bl]; subst.
    assert (B' : Forall (fun x => act_timestamp a + act_duration a
                                  <= act_timestamp x
                                  /\ 0 < act_duration x
                                  /\ act_timestamp x + act_duration x <= hi) l).
    { rewrite Forall_forall in *. intros x I.
      specialize (F x I). specialize (Bl x I). unfold precedes in F. lia. }
    specialize (IH _ B'). unfold event_seconds in *.
    cbn [map sum_Z fold_right]. fold (sum_Z (map act_duration l)). lia.
Qed.

(** An event counts in the hour in which it starts and is never split: under
    the conditions of the coverage property every bucket of the generated
    events holds at least one second and at most an hour less a second plus
    the longest event of the persona. *)
Theorem bucket_seconds_bound (fuel : nat) (p : user_profile)
    (ws : work_session) (breaks : list break_interval) (r : rng) :
  has_apps p ->
  0 <= ws_end ws - ws_start ws < 86400 ->
  breaks_wf ws breaks ->
  (Z.to_nat (ws_end ws - ws_start ws) <= fuel)%nat ->
  exists activities r',
    generate_window_activities fuel p ws breaks r = Ret (activities, r')
    /\ forall k u, In (k, u) (aggregate_app_usage activities) ->
         1 <= us_duration u <= 3599 + max_event_seconds p.
Proof.
  intros HA Hws WF Hf.
  destruct (generate_window_activities_tiles fuel p ws breaks r HA Hws WF Hf)
    as (acts & r' & E & T).
  exists acts, r'. split; [exact E |]. intros k u I.
  pose proof (generate_window_activities_ok _ _ _ _ _ _ _ E) as Ok.
  destruct (tiles_chronological breaks _ _ acts T) as [_ S].
  pose proof (get_usage_aggregate k acts) as G.
  rewrite (get_usage_In k u _ (aggregate_app_usage_keys_NoDup acts) I) in G.
  destruct G as (N & -> & _).
  assert (B : Forall (fun a => fst k <= act_timestamp a
                               /\ 0 < act_duration a
                               /\ act_timestamp a + act_duration a
                                  <= fst k + 3599 + max_event_seconds p)
                (bucket_events k acts)).
  { apply Forall_forall. intros a Ia. apply filter_In in Ia.
    destruct Ia as [Ia Hk]. rewrite Forall_forall in Ok.
    destruct (Ok a Ia) as (Hd & _).
    destruct (usage_key_eqb_spec (key_of a) k) as [<- | ]; [| discriminate].
    pose proof (hour_floor_aligned (act_timestamp a)).
    unfold key_of. cbn [fst]. lia. }
  pose proof (chronological_seconds _ _ _
                (StronglySorted_filter precedes _ acts S) B) as U.
  fold (bucket_events k acts) in U.
  assert (M : 0 < max_event_seconds p).
  { unfold max_event_seconds.
    destruct (Qltb 80 _); [lia |]. destruct (Qltb 50 _); lia. }
  split; [| lia].
  destruct (bucket_events k acts) as [| a l]; [congruence |].
  inversion B as [| ? ? Ba Bl]; subst.
  assert (P : 0 <= event_seconds l).
  { unfold event_seconds. apply sum_Z_nonneg. apply Forall_map.
    eapply Forall_impl; [| exact Bl]. cbn. intros x Hx. lia. }
  unfold event_seconds in *. cbn [map sum_Z fold_right].
  fold (sum_Z (map act_duration l)). lia.
Qed.

Lemma bucket_seconds_bound_witness :
  breaks_wf (session_of monday_17 9 17)
    [lunch_at (session_of monday_17 9 17) 8640 1800]
  /\ exists activities r',
       generate_window_activities (Z.to_nat 28800) scenario_profile
         (session_of monday_17 9 17)
         [lunch_at (session_of monday_17 9 17) 8640 1800] zeros
       = Ret (activities, r')
       /\ forall k u, In (k, u) (aggregate_app_usage activities) ->
            1 <= us_duration u <= 3599 + max_event_seconds scenario_profile.
Proof.
  assert (WF : breaks_wf (session_of monday_17 9 17)
                 [lunch_at (session_of monday_17 9 17) 8640 1800]).
  { apply one_lunch_wf; vm_compute; discriminate. }
  split; [exact WF |].
  apply (bucket_seconds_bound (Z.to_nat 28800) scenario_profile
           (session_of monday_17 9 17) _ zeros).
  - discriminate.
  - vm_compute. split; [discriminate | reflexivity].
  - exact WF.
  - change (Z.to_nat 28800 <= Z.to_nat 28800)%nat. apply le_n.
Defined.
